(** * Trading decision and execution engine: a shallow embedding

    The development follows [mt5_manager.py] (class [MT5Manager]) and
    [trading_app_main.py] (class [TradingApp]).  Python floats are IEEE
    binary64 values and are modelled by Rocq's primitive floats; Python
    integers are [Z]; dictionaries keyed by symbol are [gmap string _]. *)

From Stdlib Require Import ZArith Floats Lia Bool Ascii String.
From stdpp Require Import base list strings gmap pretty.

Set Default Proof Using "Type".
#[local] Set Warnings "-inexact-float".
Local Open Scope Z_scope.

(** ** Python outcomes: a value or a raised exception *)

Inductive exn : Type :=
| ValueError
| OverflowError
| ZeroDivisionError.

Inductive pyres (A : Type) : Type :=
| Ok (a : A)
| Raise (e : exn).
Arguments Ok {A} a.
Arguments Raise {A} e.

Definition pybind {A B} (m : pyres A) (k : A -> pyres B) : pyres B :=
  match m with
  | Ok a => k a
  | Raise e => Raise e
  end.

Notation "'try!' x <- m ; k" := (pybind m (fun x => k))
  (at level 10, x name, m at level 100, k at level 200).

(** ** Python float operations *)

Module PyFloat.

(** [max(a, b)] and [min(a, b)] of the builtins: the first argument is
    kept unless the second compares strictly greater (smaller). *)
Definition py_max (a b : float) : float := if (a <? b)%float then b else a.
Definition py_min (a b : float) : float := if (b <? a)%float then b else a.

(** [x / y] on floats raises on a zero divisor. *)
Definition py_div (x y : float) : pyres float :=
  if (y =? 0)%float then Raise ZeroDivisionError else Ok (x / y)%float.

(** Nearest integer to [a / b] for [0 <= a], [0 < b], ties to even. *)
Definition rne_div (a b : Z) : Z :=
  let q := a / b in
  let r := a mod b in
  match (2 * r ?= b) with
  | Lt => q
  | Gt => q + 1
  | Eq => if Z.even q then q else q + 1
  end.

(** Nearest integer to [m * 2^e * p], ties to even ([p] a positive
    integer scale). *)
Definition scaled_rne (m : positive) (e : Z) (p : Z) : Z :=
  if 0 <=? e then Z.pos m * 2 ^ e * p
  else rne_div (Z.pos m * p) (2 ^ (- e)).

Definition signed (s : bool) (z : Z) : Z := if s then - z else z.

(** [float(n)] for an integer. *)
Definition float_of_Z (z : Z) : float :=
  SF2Prim (binary_normalize prec emax z 0 false).

(** [round(x)] with one argument: the nearest integer, ties to even;
    [ValueError] on a NaN and [OverflowError] on an infinity. *)
Definition py_round (x : float) : pyres Z :=
  match Prim2SF x with
  | S754_nan => Raise ValueError
  | S754_infinity _ => Raise OverflowError
  | S754_zero _ => Ok 0
  | S754_finite s m e => Ok (signed s (scaled_rne m e 1))
  end.

(** [round(x, n)]: the decimal with [n] fractional digits nearest to the
    exact value of [x] (ties to even), read back as the nearest float.
    Non-finite values and [n > 323] give [x] itself, [n < -308] a signed
    zero; a result too large for a float raises [OverflowError]. *)
Definition double_round (s : bool) (m : positive) (e : Z) (n : Z) : pyres float :=
  if 0 <=? n then
    let d := scaled_rne m e (10 ^ n) in
    match d with
    | Z.pos dp =>
        Ok (SF2Prim (SFdiv prec emax (S754_finite s dp 0)
                           (S754_finite false (Z.to_pos (10 ^ n)) 0)))
    | _ => Ok (SF2Prim (S754_zero s))
    end
  else
    let p := 10 ^ (- n) in
    let d :=
      if 0 <=? e then rne_div (Z.pos m * 2 ^ e) p
      else rne_div (Z.pos m) (2 ^ (- e) * p) in
    let r := SF2Prim (binary_normalize prec emax (signed s (d * p)) 0 s) in
    if is_infinity r then Raise OverflowError else Ok r.

Definition py_round_ndigits (x : float) (n : Z) : pyres float :=
  match Prim2SF x with
  | S754_finite s m e =>
      if 323 <? n then Ok x
      else if n <? -308 then Ok (0 * x)%float
      else double_round s m e n
  | _ => Ok x
  end.

(** Number of trailing decimal zeros of [z], looking at [k] digits. *)
Fixpoint trailing_zeros (k : nat) (z : Z) : Z :=
  match k with
  | O => 0
  | S k' => if z mod 10 =? 0 then 1 + trailing_zeros k' (z / 10) else 0
  end.

(** [len(s.split('.')[1])] for [s = f"{x:.10f}".rstrip('0')]: the number
    of fractional digits left once trailing zeros are stripped; [None]
    when the text has no [.] (NaN, infinities). *)
Definition fixed10_fraction_digits (x : float) : option Z :=
  match Prim2SF x with
  | S754_finite _ m e =>
      let frac := scaled_rne m e (10 ^ 10) mod 10 ^ 10 in
      Some (10 - trailing_zeros 10 frac)
  | S754_zero _ => Some 0
  | _ => None
  end.

End PyFloat.
Import PyFloat.

(** ** Text produced by f-strings

    A message is kept as the sequence of its literal pieces and of the
    values interpolated between them, in the order in which the f-string
    lists them. *)

Inductive frag : Type :=
| Lit (s : string)
| Int (z : Z)
| Flt (x : float)
| FltFix (x : float) (digits : Z)
| Repr (s : string).

Definition frag_empty (f : frag) : bool :=
  match f with
  | Lit s => if s is EmptyString then true else false
  | _ => false
  end.

(** [not t] for a string [t] *)
Definition text_empty (t : list frag) : bool := forallb frag_empty t.

Abbreviation text := (list frag).

(** ** ASCII helpers for [str.lower], [str.strip] and [str.replace] *)

Module PyStr.

Definition lower_ascii (c : ascii) : ascii :=
  let n := nat_of_ascii c in
  if ((65 <=? n) && (n <=? 90))%nat then ascii_of_nat (n + 32) else c.

Fixpoint lower (s : string) : string :=
  match s with
  | EmptyString => EmptyString
  | String c r => String (lower_ascii c) (lower r)
  end.

Definition is_space (c : ascii) : bool :=
  let n := nat_of_ascii c in
  (((9 <=? n) && (n <=? 13)) || ((28 <=? n) && (n <=? 32)))%nat.

(** [s.strip() == ""] *)
Fixpoint blank (s : string) : bool :=
  match s with
  | EmptyString => true
  | String c r => is_space c && blank r
  end.

(** [s.replace(a, b)] for single characters. *)
Fixpoint replace_char (a b : ascii) (s : string) : string :=
  match s with
  | EmptyString => EmptyString
  | String c r => String (if Ascii.eqb c a then b else c) (replace_char a b r)
  end.

(** [s[:n]] *)
Fixpoint take (n : nat) (s : string) : string :=
  match n, s with
  | S n', String c r => String c (take n' r)
  | _, _ => EmptyString
  end.

End PyStr.

(** ** Data exchanged with the venue (the MetaTrader5 package) *)

(** Constants of the MetaTrader5 package used by the code. *)
Definition ORDER_TYPE_BUY : Z := 0.
Definition ORDER_TYPE_SELL : Z := 1.
Definition TRADE_ACTION_DEAL : Z := 1.
Definition ORDER_TIME_GTC : Z := 0.
Definition ORDER_FILLING_IOC : Z := 1.
Definition TRADE_RETCODE_PLACED : Z := 10008.
Definition TRADE_RETCODE_DONE : Z := 10009.

Record AccountInfo := {
  balance : float;
  currency : string;
}.

Record SymbolInfo := {
  volume_min : float;
  volume_max : float;
  volume_step : float;
  trade_contract_size : float;
  point : float;
  digits : Z;
  currency_profit : string;
  (** [volume_digits] when the attribute exists and is an [int] *)
  volume_digits : option Z;
  (** [spread] when the attribute exists and is an [int] *)
  info_spread : option Z;
}.

Record Tick := {
  bid : float;
  ask : float;
  (** [spread] when the attribute exists and is an [int] *)
  tick_spread : option Z;
}.

Record TradeRequest := {
  req_action : Z;
  req_symbol : string;
  req_volume : float;
  req_type : Z;
  req_position : option Z;
  req_price : float;
  req_sl : option float;
  req_tp : option float;
  req_deviation : Z;
  req_magic : Z;
  req_comment : string;
  req_type_time : Z;
  req_type_filling : Z;
}.

Record OrderCheckResult := {
  check_retcode : Z;
  check_comment : string;
}.

Record OrderSendResult := {
  retcode : Z;
  deal : Z;
  order : Z;
  result_comment : string;
}.

Record Position := {
  ticket : Z;
  pos_symbol : string;
  pos_volume : float;
  pos_type : Z;
  pos_magic : Z;
}.

(** ** Signals (rows of [df_signals]) *)

Record Signal := {
  (** event time in microseconds since the epoch, UTC; [None] for a
      missing time or [NaT] *)
  time : option Z;
  Symbol : string;
  signal : string;
  confidence : float;
  close : float;
  (** [None] when [pd.to_numeric] gives NaN *)
  spread_pips : option Z;
  take_profit_pips : float;
  stop_loss_pips : float;
  executed : bool;
  notes : text;
}.

(** What the signals table hands over when a buy or sell button is
    pressed (lines 1813-1836; rebuilding the displayed rows is display
    code and is not followed here). *)
Inductive selection : Type :=
| NoRowSelected
| RowOutOfBounds
| RowSelected (s : Signal).

(** The value stored under [mt5_login]. *)
Inductive login_value : Type :=
| LoginNone
| LoginInt (z : Z)
| LoginStr (s : string).

(** ** Settings (the [DataManager.get_setting] collaborator) *)

Record Settings := {
  mt5_login : login_value;
  mt5_password : string;
  mt5_server : string;
  mt5_path : string;
  mt5_magic_number : Z;
  mt5_retries : Z;
  mt5_retry_delay : float;
  mt5_timeout_ms : Z;
  time_filter_enabled : bool;
  trade_start_time : string;
  trade_end_time : string;
  halt_trades_on_news : bool;
  default_min_trade_interval_minutes : Z;
  (** entries [min_trade_interval_minutes_<symbol>] by their full key *)
  symbol_settings_minutes : gmap string Z;
  gold_symbol : string;
  bitcoin_symbol : string;
  max_allowed_spread_points_gold : Z;
  max_allowed_spread_points_bitcoin : Z;
  max_allowed_spread_points_other : Z;
  risk_percent_per_trade : float;
  default_sl_pips : float;
  gold_sl_pips : option float;
  btc_sl_pips : option float;
  default_tp_pips : float;
  gold_tp_pips : option float;
  btc_tp_pips : option float;
  auto_trade_enabled : bool;
  auto_trade_min_confidence : float;
}.

(** ** Interactions with the outside, in the order they are made *)

Inductive ext_call : Type :=
| CallInitialize (login : Z) (password server path : string) (timeout : Z)
| CallLastError
| CallAccountInfo
| CallTerminalInfo
| CallShutdown
| CallSymbolInfo (symbol : string)
| CallSymbolInfoTick (symbol : string)
| CallOrderCheck (r : TradeRequest)
| CallOrderSend (r : TradeRequest)
| CallPositionsGet (symbol : option string)
| CallSleep (seconds : float)
| CallNow
| CallSelectedRow
| CallConfirm.

(** What [mt5.initialize] does: it returns a truth value, or raises
    ([ValueError] or another exception) with a message. *)
Inductive init_outcome : Type :=
| InitReturns (ok : bool)
| InitRaises (value_error : bool) (message : string).

(** The outside world.  Every answer may depend on the number of
    interactions made before it (the first argument). *)
Record World := {
  settings : Settings;
  (** [datetime.now(timezone.utc)] in microseconds since the epoch *)
  now_utc : nat -> Z;
  mt5_initialize : nat -> Z -> string -> string -> string -> Z -> init_outcome;
  mt5_last_error : nat -> Z * string;
  mt5_account_info : nat -> option AccountInfo;
  mt5_terminal_info : nat -> bool;
  mt5_symbol_info : nat -> string -> option SymbolInfo;
  mt5_symbol_info_tick : nat -> string -> option Tick;
  mt5_order_check : nat -> TradeRequest -> option OrderCheckResult;
  mt5_order_send : nat -> TradeRequest -> option OrderSendResult;
  mt5_positions_get : nat -> option string -> option (list Position);
  ui_selected_row : nat -> list Signal -> selection;
  ui_confirm : nat -> bool;
  (** the order comment built at step 11 (lines 2003-2014) *)
  trade_comment_of : Signal -> bool -> string -> string;
}.

(** ** Program state *)

(** The six admission gates, by the names of section 4.3. *)
Inductive gate : Type :=
| TradingHours
| News
| Connectivity
| SignalValidity
| ReentryInterval
| Spread.

(** Program points of [execute_trade_from_signal_data] reached during
    an attempt: a gate with its verdict, the lot-size computation
    (step 9), the order submission (step 12). *)
Inductive step : Type :=
| Gate (g : gate) (passed : bool)
| Sizing
| Submission.

Record State := {
  (** [MT5Manager.connected] and [MT5Manager.last_raw_error_message] *)
  connected : bool;
  last_raw_error_message : text;
  (** [TradingApp.df_signals], [last_trade_time], [trading_allowed_by_news] *)
  df_signals : list Signal;
  last_trade_time : gmap string Z;
  trading_allowed_by_news : bool;
  (** whether [AUTO_TRADE_LOCK] is held *)
  auto_trade_locked : bool;
  (** the rows last handed to [DataManager.save_signals], if any *)
  saved_signals : option (list Signal);
  (** interactions made so far, oldest first *)
  trace : list ext_call;
  (** program points reached so far, oldest first *)
  steps : list step;
}.

Definition set_connected (b : bool) (st : State) : State :=
  {| connected := b; last_raw_error_message := last_raw_error_message st;
     df_signals := df_signals st; last_trade_time := last_trade_time st;
     trading_allowed_by_news := trading_allowed_by_news st;
     auto_trade_locked := auto_trade_locked st;
     saved_signals := saved_signals st;
     trace := trace st; steps := steps st |}.

Definition set_last_raw_error_message (m : text) (st : State) : State :=
  {| connected := connected st; last_raw_error_message := m;
     df_signals := df_signals st; last_trade_time := last_trade_time st;
     trading_allowed_by_news := trading_allowed_by_news st;
     auto_trade_locked := auto_trade_locked st;
     saved_signals := saved_signals st;
     trace := trace st; steps := steps st |}.

Definition set_df_signals (l : list Signal) (st : State) : State :=
  {| connected := connected st; last_raw_error_message := last_raw_error_message st;
     df_signals := l; last_trade_time := last_trade_time st;
     trading_allowed_by_news := trading_allowed_by_news st;
     auto_trade_locked := auto_trade_locked st;
     saved_signals := saved_signals st;
     trace := trace st; steps := steps st |}.

Definition set_last_trade_time (m : gmap string Z) (st : State) : State :=
  {| connected := connected st; last_raw_error_message := last_raw_error_message st;
     df_signals := df_signals st; last_trade_time := m;
     trading_allowed_by_news := trading_allowed_by_news st;
     auto_trade_locked := auto_trade_locked st;
     saved_signals := saved_signals st;
     trace := trace st; steps := steps st |}.

Definition set_auto_trade_locked (b : bool) (st : State) : State :=
  {| connected := connected st; last_raw_error_message := last_raw_error_message st;
     df_signals := df_signals st; last_trade_time := last_trade_time st;
     trading_allowed_by_news := trading_allowed_by_news st;
     auto_trade_locked := b;
     saved_signals := saved_signals st;
     trace := trace st; steps := steps st |}.

Definition set_saved_signals (l : option (list Signal)) (st : State) : State :=
  {| connected := connected st; last_raw_error_message := last_raw_error_message st;
     df_signals := df_signals st; last_trade_time := last_trade_time st;
     trading_allowed_by_news := trading_allowed_by_news st;
     auto_trade_locked := auto_trade_locked st;
     saved_signals := l;
     trace := trace st; steps := steps st |}.

Definition set_trace (t : list ext_call) (st : State) : State :=
  {| connected := connected st; last_raw_error_message := last_raw_error_message st;
     df_signals := df_signals st; last_trade_time := last_trade_time st;
     trading_allowed_by_news := trading_allowed_by_news st;
     auto_trade_locked := auto_trade_locked st;
     saved_signals := saved_signals st;
     trace := t; steps := steps st |}.

Definition set_steps (l : list step) (st : State) : State :=
  {| connected := connected st; last_raw_error_message := last_raw_error_message st;
     df_signals := df_signals st; last_trade_time := last_trade_time st;
     trading_allowed_by_news := trading_allowed_by_news st;
     auto_trade_locked := auto_trade_locked st;
     saved_signals := saved_signals st;
     trace := trace st; steps := l |}.

(** ** The state monad of the program *)

Definition M (A : Type) : Type := State -> A * State.

Definition ret {A} (a : A) : M A := fun st => (a, st).

Definition bind {A B} (m : M A) (k : A -> M B) : M B :=
  fun st => let (a, st') := m st in k a st'.

Notation "'do' x <- m ; k" := (bind m (fun x => k))
  (at level 10, x name, m at level 100, k at level 200).
Notation "m ;; k" := (bind m (fun _ => k))
  (at level 100, k at level 200, right associativity).

Definition get {A} (f : State -> A) : M A := fun st => (f st, st).
Definition modify (f : State -> State) : M unit := fun st => (tt, f st).

(** An interaction: the answer is read at the current position and the
    call is recorded. *)
Definition interact {A} (c : ext_call) (answer : nat -> A) : M A :=
  fun st => (answer (length (trace st)), set_trace (trace st ++ [c]) st).

Definition reach (s : step) : M unit :=
  modify (fun st => set_steps (steps st ++ [s]) st).

(** ** [int(s)] for a string, base 10 *)

Module PyInt.

Definition digit_of (c : ascii) : option Z :=
  let n := nat_of_ascii c in
  if ((48 <=? n) && (n <=? 57))%nat then Some (Z.of_nat (n - 48)) else None.

(** Digits, with single underscores allowed between two digits. *)
Fixpoint digits_value (acc : Z) (after_digit : bool) (l : list ascii) : option Z :=
  match l with
  | [] => if after_digit then Some acc else None
  | c :: r =>
      match digit_of c with
      | Some d => digits_value (acc * 10 + d) true r
      | None =>
          if Ascii.eqb c "_"%char && after_digit then digits_value acc false r
          else None
      end
  end.

Fixpoint drop_spaces (l : list ascii) : list ascii :=
  match l with
  | c :: r => if PyStr.is_space c then drop_spaces r else l
  | [] => []
  end.

Definition strip (l : list ascii) : list ascii :=
  rev (drop_spaces (rev (drop_spaces l))).

(** [None] stands for the [ValueError] of a malformed literal. *)
Definition int_of_string (s : string) : option Z :=
  match strip (list_ascii_of_string s) with
  | c :: r =>
      if Ascii.eqb c "-"%char then Z.opp <$> digits_value 0 false r
      else if Ascii.eqb c "+"%char then digits_value 0 false r
      else digits_value 0 false (c :: r)
  | [] => None
  end.

End PyInt.

(** ** [MT5Manager] *)

Inductive payload : Type :=
| Result (r : OrderSendResult)
| Message (m : text).

Section MT5Manager.

Variable W : World.

Definition is_connected : M bool := get connected.

Definition get_account_info : M (option AccountInfo) :=
  do c <- is_connected;
  if negb c then ret None
  else interact CallAccountInfo (mt5_account_info W).

Definition get_symbol_info (symbol : string) : M (option SymbolInfo) :=
  do c <- is_connected;
  if negb c then ret None
  else interact (CallSymbolInfo symbol) (fun i => mt5_symbol_info W i symbol).

Definition get_tick (symbol : string) : M (option Tick) :=
  do c <- is_connected;
  if negb c then ret None
  else interact (CallSymbolInfoTick symbol)
                (fun i => mt5_symbol_info_tick W i symbol).

(** [isinstance(x.spread, int) and x.spread >= 0] *)
Definition valid_spread (s : option Z) : option Z :=
  match s with
  | Some z => if 0 <=? z then Some z else None
  | None => None
  end.

Definition get_current_spread (symbol : string) : M (option Z) :=
  do c <- is_connected;
  if negb c then ret None
  else
    do tick <- get_tick symbol;
    match tick ≫= (fun t => valid_spread (tick_spread t)) with
    | Some z => ret (Some z)
    | None =>
        do info <- get_symbol_info symbol;
        ret (info ≫= (fun i => valid_spread (info_spread i)))
    end.

(** The table of [_get_retcode_description], in the order of the dict
    display; a key written twice keeps its last value. *)
Definition retcode_entries : list (Z * string) :=
  [ (10004, "Requote"); (10006, "Request rejected");
    (10007, "Request canceled by trader");
    (10008, "Order placed");
    (10009, "Request completed (TRADE_RETCODE_DONE)");
    (10010, "Request partially completed");
    (10011, "Request processing error"); (10012, "Request timed out");
    (10013, "Invalid request");
    (10014, "Invalid volume"); (10015, "Invalid price"); (10016, "Invalid stops");
    (10017, "Trade is disabled"); (10018, "Market is closed");
    (10019, "Not enough money");
    (10020, "Price changed"); (10021, "No quotes"); (10022, "Invalid expiration");
    (10023, "Order state changed"); (10024, "Too frequent requests");
    (10025, "No changes");
    (10026, "Autotrading disabled by server");
    (10027, "Autotrading disabled by client");
    (10028, "Request locked for processing"); (10030, "No connection");
    (10031, "Operation canceled");
    (10032, "SL is too close to market"); (10033, "TP is too close to market");
    (10034, "Order is closed"); (10035, "Position is closed");
    (10036, "Too many requests");
    (10038, "Position not found"); (10039, "Volume is too large");
    (10040, "Volume is too small");
    (10041, "Invalid SL"); (10042, "Invalid TP"); (10043, "History request failed");
    (10044, "Trading disabled for symbol"); (10045, "Closing order only allowed");
    (10046, "Order is being processed");
    (TRADE_RETCODE_PLACED, "Order placed (pending or part of market execution)")
  ]%string.

Definition py_dict (l : list (Z * string)) : gmap Z string :=
  foldl (fun m kv => <[kv.1 := kv.2]> m) ∅ l.

Definition codes : gmap Z string := py_dict retcode_entries.

Definition _get_retcode_description (code : Z) : text :=
  match codes !! code with
  | Some d => [Lit d]
  | None => [Lit "Unknown retcode: "; Int code]
  end.

(** *** [connect] (lines 51-111) *)

Definition login_truthy (l : login_value) : bool :=
  match l with
  | LoginNone => false
  | LoginInt z => negb (z =? 0)
  | LoginStr s => if s is EmptyString then false else true
  end.

Definition string_truthy (s : string) : bool :=
  if s is EmptyString then false else true.

(** [int(self.login)] *)
Inductive int_outcome : Type :=
| IntOk (z : Z)
| IntValueError (details : text)
| IntTypeError (details : text).

Definition int_of_login (l : login_value) : int_outcome :=
  match l with
  | LoginInt z => IntOk z
  | LoginStr s =>
      match PyInt.int_of_string s with
      | Some z => IntOk z
      | None => IntValueError [Lit "invalid literal for int() with base 10: "; Repr s]
      end
  | LoginNone =>
      IntTypeError [Lit "int() argument must be a string, a bytes-like object or a real number, not 'NoneType'"]
  end.

Definition login_text (l : login_value) : text :=
  match l with
  | LoginNone => [Lit "None"]
  | LoginInt z => [Int z]
  | LoginStr s => [Lit s]
  end.

Definition set_error (m : text) : M unit := modify (set_last_raw_error_message m).

(** [if attempt < self.retries - 1: time.sleep(self.retry_delay)] *)
Definition sleep_before_retry (attempt : Z) : M unit :=
  if attempt <? mt5_retries (settings W) - 1
  then interact (CallSleep (mt5_retry_delay (settings W))) (fun _ => tt)
  else ret tt.

Definition configuration_error (details : text) : text :=
  [Lit "Configuration error: MT5 Login ('"] ++ login_text (mt5_login (settings W))
  ++ [Lit "') must be a number. Details: "] ++ details.

(** The [except Exception] handler. *)
Definition on_exception (attempt : Z) (message : text) : M (option bool) :=
  set_error ([Lit "Exception during MT5 connection attempt ";
              Int (attempt + 1); Lit ": "] ++ message);;
  do up <- interact CallTerminalInfo (mt5_terminal_info W);
  (if up then interact CallShutdown (fun _ => tt) else ret tt);;
  sleep_before_retry attempt;;
  ret None.

(** The [except ValueError] handler. *)
Definition on_value_error (details : text) : M (option bool) :=
  set_error (configuration_error details);;
  ret (Some false).

(** One pass through the body of the [for] loop: [Some b] when the
    body returns [b] from [connect], [None] when the loop goes on. *)
Definition connect_attempt (attempt : Z) : M (option bool) :=
  let cfg := settings W in
  match int_of_login (mt5_login cfg) with
  | IntValueError details => on_value_error details
  | IntTypeError details => on_exception attempt details
  | IntOk login =>
      do r <- interact
                (CallInitialize login (mt5_password cfg) (mt5_server cfg)
                                (mt5_path cfg) (mt5_timeout_ms cfg))
                (fun i => mt5_initialize W i login (mt5_password cfg)
                            (mt5_server cfg) (mt5_path cfg) (mt5_timeout_ms cfg));
      match r with
      | InitRaises true message => on_value_error [Lit message]
      | InitRaises false message => on_exception attempt [Lit message]
      | InitReturns false =>
          do err <- interact CallLastError (mt5_last_error W);
          set_error [Lit "initialize() failed. Code: "; Int err.1;
                     Lit ", Description: "; Lit err.2];;
          sleep_before_retry attempt;;
          ret None
      | InitReturns true =>
          do account_info <- interact CallAccountInfo (mt5_account_info W);
          match account_info with
          | Some _ =>
              modify (set_connected true);;
              set_error [];;
              ret (Some true)
          | None =>
              do err <- interact CallLastError (mt5_last_error W);
              set_error [Lit "account_info() failed after successful initialize. Code: ";
                         Int err.1; Lit ", Desc: "; Lit err.2];;
              interact CallShutdown (fun _ => tt);;
              sleep_before_retry attempt;;
              ret None
          end
      end
  end.

(** [for attempt in range(self.retries)], from [attempt] on, with
    [remaining] passes left. *)
Fixpoint connect_loop (remaining : nat) (attempt : Z) : M (option bool) :=
  match remaining with
  | O => ret None
  | S n =>
      do r <- connect_attempt attempt;
      match r with
      | Some b => ret (Some b)
      | None => connect_loop n (attempt + 1)
      end
  end.

Definition connect : M bool :=
  do c <- get connected;
  if c then ret true
  else
    let cfg := settings W in
    set_error [];;
    if negb (login_truthy (mt5_login cfg)) || negb (string_truthy (mt5_server cfg))
       || negb (string_truthy (mt5_path cfg))
    then
      set_error [Lit "MT5 connection details (login, server, path) are not fully configured."];;
      ret false
    else
      do r <- connect_loop (Z.to_nat (mt5_retries cfg)) 0;
      match r with
      | Some b => ret b
      | None =>
          modify (set_connected false);;
          do m <- get last_raw_error_message;
          (if text_empty m
           then set_error [Lit "Failed to connect to MT5 after all retries. Unknown reason if no specific error was logged."]
           else ret tt);;
          ret false
      end.

(** *** [send_order] (lines 250-313) *)

Definition send_order (symbol order_type : string) (volume : float)
    (price : option float) (sl tp : float) (comment : string) : M (bool * payload) :=
  do c <- is_connected;
  if negb c then
    set_error [Lit "Not connected to MT5"];;
    ret (false, Message [Lit "Not connected to MT5"])
  else
    do current_tick <- interact (CallSymbolInfoTick symbol)
                         (fun i => mt5_symbol_info_tick W i symbol);
    match current_tick with
    | None =>
        let m := [Lit "Failed to get tick for "; Lit symbol;
                  Lit " to determine price."] in
        set_error m;; ret (false, Message m)
    | Some current_tick =>
        let typed :=
          if String.eqb (PyStr.lower order_type) "buy" then
            Some (ORDER_TYPE_BUY, default (ask current_tick) price)
          else if String.eqb (PyStr.lower order_type) "sell" then
            Some (ORDER_TYPE_SELL, default (bid current_tick) price)
          else None in
        match typed with
        | None =>
            set_error [Lit "Invalid order type specified"];;
            ret (false, Message [Lit "Invalid order type specified"])
        | Some (order_type_mt5, price) =>
            if (price <=? 0)%float then
              let m := [Lit "Order price for "; Lit symbol; Lit " is invalid (";
                        Flt price; Lit "). Tick Ask: "; Flt (ask current_tick);
                        Lit ", Bid: "; Flt (bid current_tick)] in
              set_error m;; ret (false, Message m)
            else
              let request :=
                {| req_action := TRADE_ACTION_DEAL; req_symbol := symbol;
                   req_volume := volume; req_type := order_type_mt5;
                   req_position := None; req_price := price;
                   req_sl := Some sl; req_tp := Some tp; req_deviation := 20;
                   req_magic := mt5_magic_number (settings W);
                   req_comment := PyStr.take 31 comment;
                   req_type_time := ORDER_TIME_GTC;
                   req_type_filling := ORDER_FILLING_IOC |} in
              do check_result <- interact (CallOrderCheck request)
                                   (fun i => mt5_order_check W i request);
              match check_result with
              | None =>
                  do err <- interact CallLastError (mt5_last_error W);
                  set_error [Lit "order_check failed, returned None. Code: ";
                             Int err.1; Lit ", Desc: "; Lit err.2];;
                  ret (false, Message ([Lit "Order check failed: "]
                                       ++ _get_retcode_description err.1
                                       ++ [Lit " ("; Lit err.2; Lit ")"]))
              | Some check_result =>
                  if negb (check_retcode check_result =? TRADE_RETCODE_DONE) then
                    set_error ([Lit "Order check failed. Retcode: ";
                                Int (check_retcode check_result); Lit " - "]
                               ++ _get_retcode_description (check_retcode check_result)
                               ++ [Lit ". Comment: "; Lit (check_comment check_result)]);;
                    ret (false, Message ([Lit "Order check failed: ";
                                          Lit (check_comment check_result); Lit " ("]
                                         ++ _get_retcode_description (check_retcode check_result)
                                         ++ [Lit ")"]))
                  else
                    do result <- interact (CallOrderSend request)
                                   (fun i => mt5_order_send W i request);
                    match result with
                    | None =>
                        do err <- interact CallLastError (mt5_last_error W);
                        set_error [Lit "order_send failed, returned None. Code: ";
                                   Int err.1; Lit ", Desc: "; Lit err.2];;
                        ret (false, Message ([Lit "Order send failed: "]
                                             ++ _get_retcode_description err.1
                                             ++ [Lit " ("; Lit err.2; Lit ")"]))
                    | Some result =>
                        if (retcode result =? TRADE_RETCODE_DONE)
                           || (retcode result =? TRADE_RETCODE_PLACED) then
                          set_error [];;
                          ret (true, Result result)
                        else
                          let m := [Lit "Order send failed: ";
                                    Lit (result_comment result); Lit " (Code: ";
                                    Int (retcode result); Lit " - "]
                                   ++ _get_retcode_description (retcode result)
                                   ++ [Lit ")"] in
                          set_error m;; ret (false, Message m)
                    end
              end
        end
    end.

(** *** [get_open_positions] and [close_all_trades] (lines 315-415) *)

Definition get_open_positions (symbol : option string) (magic : option Z)
    : M (list Position) :=
  do c <- is_connected;
  if negb c then ret []
  else
    do positions <- interact (CallPositionsGet (symbol ≫= fun s =>
                                if string_truthy s then Some s else None))
                      (fun i => mt5_positions_get W i (symbol ≫= fun s =>
                                if string_truthy s then Some s else None));
    match positions with
    | None =>
        interact CallLastError (mt5_last_error W);;
        ret []
    | Some positions =>
        match magic with
        | Some m => ret (List.filter (fun p => pos_magic p =? m) positions)
        | None => ret positions
        end
    end.

Definition magic_text (magic : option Z) : frag :=
  match magic with
  | Some m => Int m
  | None => Lit "Any"
  end.

(** [closed_count], [failed_count] and [summary_messages] *)
Record tally := {
  closed_count : Z;
  failed_count : Z;
  summary_messages : list text;
}.

Definition count_closed (m : text) (t : tally) : tally :=
  {| closed_count := closed_count t + 1; failed_count := failed_count t;
     summary_messages := summary_messages t ++ [m] |}.

Definition count_failed (m : text) (t : tally) : tally :=
  {| closed_count := closed_count t; failed_count := failed_count t + 1;
     summary_messages := summary_messages t ++ [m] |}.

Definition position_label (p : Position) : text :=
  [Lit "Pos "; Int (ticket p); Lit "("; Lit (pos_symbol p); Lit "): "].

(** The body of [for position in positions_to_close]. *)
Definition close_position (comment : string) (position : Position) (t : tally)
    : M tally :=
  let symbol := pos_symbol position in
  let order_type_to_close :=
    if pos_type position =? ORDER_TYPE_BUY then ORDER_TYPE_SELL else ORDER_TYPE_BUY in
  do current_tick_close <- interact (CallSymbolInfoTick symbol)
                             (fun i => mt5_symbol_info_tick W i symbol);
  match current_tick_close with
  | None => ret (count_failed (position_label position ++ [Lit "Price error."]) t)
  | Some tick =>
      let price_to_close :=
        if order_type_to_close =? ORDER_TYPE_SELL then bid tick else ask tick in
      if (price_to_close <=? 0)%float then
        ret (count_failed (position_label position ++ [Lit "Invalid close price."]) t)
      else
        let request :=
          {| req_action := TRADE_ACTION_DEAL; req_symbol := symbol;
             req_volume := pos_volume position; req_type := order_type_to_close;
             req_position := Some (ticket position); req_price := price_to_close;
             req_sl := None; req_tp := None; req_deviation := 20;
             req_magic := pos_magic position;
             req_comment := PyStr.take 31 comment;
             req_type_time := ORDER_TIME_GTC;
             req_type_filling := ORDER_FILLING_IOC |} in
        do result <- interact (CallOrderSend request)
                       (fun i => mt5_order_send W i request);
        match result with
        | Some r =>
            if retcode r =? TRADE_RETCODE_DONE then
              ret (count_closed (position_label position ++ [Lit "Closed."]) t)
            else
              ret (count_failed (position_label position
                                 ++ [Lit "Fail - "; Lit (result_comment r)]) t)
        | None =>
            do err <- interact CallLastError (mt5_last_error W);
            ret (count_failed (position_label position
                               ++ [Lit "Fail - "; Lit "MT5 Error Code: ";
                                   Int err.1; Lit " - "; Lit err.2]) t)
        end
  end.

Fixpoint close_positions (comment : string) (positions : list Position) (t : tally)
    : M tally :=
  match positions with
  | [] => ret t
  | position :: rest =>
      do t' <- close_position comment position t;
      close_positions comment rest t'
  end.

(** ['; '.join(messages)] *)
Fixpoint join_messages (messages : list text) : text :=
  match messages with
  | [] => []
  | [m] => m
  | m :: rest => m ++ [Lit "; "] ++ join_messages rest
  end.

Definition close_all_summary (magic : option Z) (t : tally) : text :=
  [Lit "Close All Summary (Magic: "; magic_text magic; Lit "): Closed ";
   Int (closed_count t); Lit ", Failed "; Int (failed_count t); Lit "."].

Definition close_all_trades (magic : option Z) (comment : string) : M (bool * text) :=
  do c <- is_connected;
  if negb c then
    set_error [Lit "Not connected to MT5"];;
    ret (false, [Lit "Not connected to MT5"])
  else
    do positions_to_close <- get_open_positions None magic;
    match positions_to_close with
    | [] =>
        ret (true, [Lit "No open positions found to close (Magic: ";
                    magic_text magic; Lit ")."])
    | _ =>
        do t <- close_positions comment positions_to_close
                  {| closed_count := 0; failed_count := 0; summary_messages := [] |};
        let final_status_message :=
          close_all_summary magic t
          ++ match summary_messages t with
             | [] => []
             | _ => [Lit " Details: "] ++ join_messages (summary_messages t)
             end in
        set_error (if 0 <? failed_count t then final_status_message else []);;
        ret (failed_count t =? 0, final_status_message)
    end.

End MT5Manager.

(** ** [datetime.strptime(s, "%H:%M").time()] *)

Module PyTime.

Definition MICROSECOND : Z := 1.
Definition SECOND : Z := 1000000.
Definition MINUTE : Z := 60 * SECOND.
Definition HOUR : Z := 60 * MINUTE.
Definition DAY : Z := 24 * HOUR.

(** A time of day, in microseconds since midnight: the order of
    [datetime.time] values is the order of these numbers. *)
Definition time_of (hour minute : Z) : Z := hour * HOUR + minute * MINUTE.

(** [datetime.now(timezone.utc).time()] *)
Definition time_of_day (now : Z) : Z := now mod DAY.

(** The minute field: two digits [00]-[59], or one digit. *)
Definition parse_minute (l : list ascii) : option Z :=
  match l with
  | [c; d] =>
      match PyInt.digit_of c, PyInt.digit_of d with
      | Some a, Some b => if a <=? 5 then Some (10 * a + b) else None
      | _, _ => None
      end
  | [c] => PyInt.digit_of c
  | _ => None
  end.

(** [None] stands for the [ValueError] of a text that does not match
    the format. *)
Definition strptime_HM (s : string) : option Z :=
  match list_ascii_of_string s with
  | a :: b :: rest =>
      match PyInt.digit_of a, PyInt.digit_of b, rest with
      | Some h1, Some h2, colon :: minute =>
          if Ascii.eqb colon ":"%char && (10 * h1 + h2 <=? 23)
          then time_of (10 * h1 + h2) <$> parse_minute minute
          else None
      | Some h, None, minute =>
          if Ascii.eqb b ":"%char then time_of h <$> parse_minute minute
          else None
      | _, _, _ => None
      end
  | _ => None
  end.

End PyTime.

(** ** [TradingApp] *)

Section TradingApp.

Variable W : World.

(** *** [is_trading_time_allowed] (lines 1759-1779) *)

(** The body of the [try] block. *)
Definition trading_time_check : M (pyres bool) :=
  do now <- interact CallNow (now_utc W);
  let now_utc_time := PyTime.time_of_day now in
  match PyTime.strptime_HM (trade_start_time (settings W)) with
  | None => ret (Raise ValueError)
  | Some start_trade_time =>
      match PyTime.strptime_HM (trade_end_time (settings W)) with
      | None => ret (Raise ValueError)
      | Some end_trade_time =>
          if start_trade_time <=? end_trade_time then
            ret (Ok ((start_trade_time <=? now_utc_time)
                     && (now_utc_time <=? end_trade_time)))
          else
            ret (Ok ((start_trade_time <=? now_utc_time)
                     || (now_utc_time <=? end_trade_time)))
      end
  end.

Definition is_trading_time_allowed : M bool :=
  if negb (time_filter_enabled (settings W)) then ret true
  else
    do r <- trading_time_check;
    match r with
    | Ok allowed => ret allowed
    | Raise _ => ret true
    end.

(** *** [_update_signal_status_in_df] (lines 156-199) *)

Definition same_time (a : option Z) (t : Z) : bool :=
  match a with
  | Some x => x =? t
  | None => false
  end.

Definition mark (executed_status : bool) (note_text : text) (row : Signal) : Signal :=
  {| time := time row; Symbol := Symbol row; signal := signal row;
     confidence := confidence row; close := close row;
     spread_pips := spread_pips row; take_profit_pips := take_profit_pips row;
     stop_loss_pips := stop_loss_pips row;
     executed := executed_status; notes := note_text |}.

Definition update_rows (t : Z) (signal_symbol : string) (executed_status : bool)
    (note_text : text) (rows : list Signal) : list Signal :=
  map (fun row =>
         if same_time (time row) t && String.eqb (Symbol row) signal_symbol
         then mark executed_status note_text row else row) rows.

Definition _update_signal_status_in_df (signal_time_identifier : option Z)
    (signal_symbol : string) (executed_status : bool) (note_text : text) : M unit :=
  match signal_time_identifier with
  | None => ret tt
  | Some t =>
      modify (fun st =>
        set_df_signals (update_rows t signal_symbol executed_status note_text
                                    (df_signals st)) st)
  end.

(** *** [calculate_lot_size_advanced] (lines 631-740) *)

(** [s.volume_min if s and s.volume_min > 0 else 0.01] *)
Definition min_fallback (s : option SymbolInfo) : float :=
  match s with
  | Some s => if (0 <? volume_min s)%float then volume_min s else 0.01%float
  | None => 0.01%float
  end.

(** Lines 660-664. *)
Definition volume_digits_precision (symbol_info : SymbolInfo) : Z :=
  let from_step :=
    match fixed10_fraction_digits (volume_step symbol_info) with
    | Some d => if 0 <? d then d else 2
    | None => 2
    end in
  match volume_digits symbol_info with
  | Some d => if 0 <=? d then d else from_step
  | None => from_step
  end.

(** Lines 689-707: the value of one point of one lot, in account
    currency. *)
Definition convert_point_value (value : float) (symbol_profit_currency
    account_currency : string) : M (pyres float) :=
  if negb (String.eqb symbol_profit_currency account_currency) then
    do tick1 <- get_tick W (symbol_profit_currency +:+ account_currency);
    match tick1 ≫= (fun t => if (0 <? bid t)%float then Some (bid t) else None) with
    | Some rate => ret (Ok (value * rate)%float)
    | None =>
        do tick2 <- get_tick W (account_currency +:+ symbol_profit_currency);
        match tick2 ≫= (fun t => if (0 <? ask t)%float then Some (ask t) else None) with
        | Some a => ret (try! rate <- py_div 1 a; Ok (value * rate)%float)
        | None => ret (Ok (value * 1)%float)
        end
    end
  else ret (Ok value).

(** Lines 722-740: from the raw lot to the returned one. *)
Definition adjust_lot (calculated_lot volume_min volume_max volume_step : float)
    (digits : Z) : pyres float :=
  let lot_adjusted := py_max calculated_lot volume_min in
  let lot_adjusted := py_min lot_adjusted volume_max in
  try! lot_adjusted <-
    (if (0 <? volume_step)%float then
       try! q <- py_div lot_adjusted volume_step;
       try! k <- py_round q;
       Ok (float_of_Z k * volume_step)%float
     else Ok lot_adjusted);
  try! final_lot <- py_round_ndigits lot_adjusted digits;
  let final_lot := if (final_lot <? volume_min)%float then volume_min else final_lot in
  let final_lot :=
    if (final_lot =? 0)%float && (0 <? volume_min)%float then volume_min else final_lot in
  Ok final_lot.

Definition calculate_lot_size_advanced (symbol : string) (risk_percent
    sl_pips_for_lot_calc : float) : M (pyres float) :=
  do c <- is_connected;
  if negb c || (risk_percent <=? 0)%float then
    do c' <- is_connected;
    do s_info_min_fallback <- (if c' then get_symbol_info W symbol else ret None);
    ret (Ok (min_fallback s_info_min_fallback))
  else
    do account_info <- get_account_info W;
    match account_info with
    | None =>
        do s_info_min_fallback <- get_symbol_info W symbol;
        ret (Ok (min_fallback s_info_min_fallback))
    | Some account_info =>
        do symbol_info <- get_symbol_info W symbol;
        match symbol_info with
        | None => ret (Ok 0.01%float)
        | Some symbol_info =>
            let digits := volume_digits_precision symbol_info in
            let volume_min :=
              if (volume_min symbol_info <=? 0)%float then 0.01%float
              else volume_min symbol_info in
            let volume_step :=
              if (volume_step symbol_info <=? 0)%float then 0.01%float
              else volume_step symbol_info in
            let min_lot := py_round_ndigits (py_max volume_min 0.01) digits in
            if (sl_pips_for_lot_calc <=? 0)%float then ret min_lot
            else
              match py_div (balance account_info * risk_percent) 100 with
              | Raise e => ret (Raise e)
              | Ok risk_amount_in_account_currency =>
                  if (trade_contract_size symbol_info =? 0)%float
                     || (point symbol_info =? 0)%float then ret min_lot
                  else
                    let value_profit_curr :=
                      (trade_contract_size symbol_info * point symbol_info)%float in
                    if (value_profit_curr =? 0)%float then ret min_lot
                    else
                      do converted <- convert_point_value value_profit_curr
                                        (currency_profit symbol_info)
                                        (currency account_info);
                      match converted with
                      | Raise e => ret (Raise e)
                      | Ok value_account_curr =>
                          if (value_account_curr =? 0)%float then ret min_lot
                          else
                            let sl_value :=
                              (sl_pips_for_lot_calc * value_account_curr)%float in
                            if (sl_value =? 0)%float then ret min_lot
                            else
                              ret (try! calculated_lot <-
                                     py_div risk_amount_in_account_currency sl_value;
                                   adjust_lot calculated_lot volume_min
                                              (volume_max symbol_info) volume_step digits)
                      end
              end
        end
    end.

(** *** [execute_trade_from_signal_data] (lines 1781-2077)

    The method returns early at many points; [flow] tells a step that
    goes on from one that makes the method return. *)

Definition outcome : Type := pyres (bool * payload).

Inductive flow (A : Type) : Type :=
| Continue (a : A)
| Return (r : outcome).
Arguments Continue {A} a.
Arguments Return {A} r.

Definition E (A : Type) : Type := M (flow A).

Definition ebind {A B} (m : E A) (k : A -> E B) : E B :=
  do f <- m;
  match f with
  | Continue a => k a
  | Return r => ret (Return r)
  end.

Notation "'run' x <- m ; k" := (ebind m (fun x => k))
  (at level 10, x name, m at level 100, k at level 200).

Definition lift {A} (m : M A) : E A := do a <- m; ret (Continue a).

Definition source_log_prefix (is_auto_trade : bool) : frag :=
  Lit (if is_auto_trade then "AutoTrade" else "ManualTrade").

Definition time_truthy (t : option Z) : bool :=
  match t with
  | Some _ => true
  | None => false
  end.

(** Steps 1 to 3 write the note [if signal_data is not None]. *)
Definition block_before_selection {A} (signal_data : option Signal)
    (current_note : text) : E A :=
  match signal_data with
  | Some s => _update_signal_status_in_df (time s) (Symbol s) false current_note
  | None => ret tt
  end;;
  ret (Return (Ok (false, Message current_note))).

(** Later steps write it
    [if signal_time_for_update and signal_symbol_for_update]. *)
Definition note_signal (s : Signal) (executed_status : bool) (current_note : text)
    : M unit :=
  if time_truthy (time s) && string_truthy (Symbol s)
  then _update_signal_status_in_df (time s) (Symbol s) executed_status current_note
  else ret tt.

Definition block {A} (s : Signal) (current_note : text) : E A :=
  note_signal s false current_note;;
  ret (Return (Ok (false, Message current_note))).

(** 1. Check Time Filter *)
Definition check_time_filter (signal_data : option Signal) (is_auto_trade : bool)
    : E unit :=
  do allowed <- is_trading_time_allowed;
  reach (Gate TradingHours allowed);;
  if negb allowed then
    block_before_selection signal_data
      [source_log_prefix is_auto_trade; Lit ": Blocked by time filter"]
  else ret (Continue tt).

(** 2. Check News Filter *)
Definition check_news_filter (signal_data : option Signal) (is_auto_trade : bool)
    : E unit :=
  do by_news <- get trading_allowed_by_news;
  let halted := negb by_news && halt_trades_on_news (settings W) in
  reach (Gate News (negb halted));;
  if halted then
    block_before_selection signal_data
      [source_log_prefix is_auto_trade; Lit ": Blocked by news event"]
  else ret (Continue tt).

(** 3. Check MT5 Connection *)
Definition check_connection (signal_data : option Signal) (is_auto_trade : bool)
    : E unit :=
  do c <- is_connected;
  reach (Gate Connectivity c);;
  if negb c then
    block_before_selection signal_data
      [source_log_prefix is_auto_trade; Lit ": MT5 not connected"]
  else ret (Continue tt).

(** 4. Get Signal Data if not provided *)
Definition get_signal_data (signal_data : option Signal) : E Signal :=
  match signal_data with
  | Some s => ret (Continue s)
  | None =>
      do rows <- get df_signals;
      do picked <- interact CallSelectedRow (fun i => ui_selected_row W i rows);
      match picked with
      | NoRowSelected =>
          ret (Return (Ok (false, Message [Lit "No signal selected from table"])))
      | RowOutOfBounds =>
          ret (Return (Ok (false, Message
                 [Lit "Selected row index out of bounds for displayed signals"])))
      | RowSelected s => ret (Continue s)
      end
  end.

(** 5. Validate Signal Type and Symbol *)
Definition final_order_type (s : Signal) (order_type_override : option string)
    : string :=
  match order_type_override with
  | Some o => if string_truthy o then PyStr.lower o else PyStr.lower (signal s)
  | None => PyStr.lower (signal s)
  end.

Definition order_type_valid (t : string) : bool :=
  String.eqb t "buy" || String.eqb t "sell".

Definition symbol_missing (symbol : string) : bool :=
  negb (string_truthy symbol) || PyStr.blank symbol
  || String.eqb (PyStr.lower symbol) "n/a".

Definition validate_signal (s : Signal) (order_type_override : option string)
    (is_auto_trade : bool) : E string :=
  let symbol := Symbol s in
  let final_order_type_str := final_order_type s order_type_override in
  reach (Gate SignalValidity (order_type_valid final_order_type_str
                              && negb (symbol_missing symbol)));;
  if negb (order_type_valid final_order_type_str) then
    block s [source_log_prefix is_auto_trade; Lit ": Invalid signal type '";
             Lit final_order_type_str; Lit "' for "; Lit symbol]
  else if symbol_missing symbol then
    block s [source_log_prefix is_auto_trade; Lit ": Missing symbol in signal data"]
  else ret (Continue final_order_type_str).

(** 6. Check Minimum Trade Interval.  [Some note] when the signal is
    blocked. *)
Definition min_trade_interval_minutes (symbol : string) : Z :=
  let min_interval_key :=
    "min_trade_interval_minutes_"
    +:+ PyStr.replace_char "/"%char "_"%char (PyStr.lower symbol) in
  default (default_min_trade_interval_minutes (settings W))
          (symbol_settings_minutes (settings W) !! min_interval_key).

Definition min_interval_note (is_auto_trade : bool) (symbol : string)
    (minutes wait_sec : Z) : text :=
  [source_log_prefix is_auto_trade; Lit ": Min interval for "; Lit symbol;
   Lit " ("; Int minutes; Lit "m) not met. Wait "; Int (wait_sec / 60);
   Lit "m "; Int (wait_sec mod 60); Lit "s."].

Definition min_interval_verdict (is_auto_trade : bool) (symbol : string)
    : M (option text) :=
  let minutes := min_trade_interval_minutes symbol in
  do last <- get (fun st => last_trade_time st !! symbol);
  match last with
  | Some last =>
      if 0 <? minutes then
        do now <- interact CallNow (now_utc W);
        let time_since_last := now - last in
        if time_since_last <? minutes * PyTime.MINUTE then
          let wait_time := minutes * PyTime.MINUTE - time_since_last in
          let wait_sec := wait_time / PyTime.SECOND in
          ret (Some (min_interval_note is_auto_trade symbol minutes wait_sec))
        else ret None
      else ret None
  | None => ret None
  end.

Definition check_min_interval (s : Signal) (is_auto_trade : bool) : E unit :=
  do verdict <- min_interval_verdict is_auto_trade (Symbol s);
  match verdict with
  | Some current_note =>
      reach (Gate ReentryInterval false);;
      block s current_note
  | None =>
      reach (Gate ReentryInterval true);;
      ret (Continue tt)
  end.

(** 7. Get Symbol Info from MT5 *)
Definition fetch_symbol_info (s : Signal) (is_auto_trade : bool) : E SymbolInfo :=
  do symbol_info <- get_symbol_info W (Symbol s);
  match symbol_info with
  | None =>
      block s [source_log_prefix is_auto_trade; Lit ": No symbol info for ";
               Lit (Symbol s); Lit " from MT5"]
  | Some symbol_info => ret (Continue symbol_info)
  end.

(** 8. Check Spread *)
Definition max_allowed_spread (symbol : string) : Z :=
  if String.eqb symbol (gold_symbol (settings W))
  then max_allowed_spread_points_gold (settings W)
  else if String.eqb symbol (bitcoin_symbol (settings W))
  then max_allowed_spread_points_bitcoin (settings W)
  else max_allowed_spread_points_other (settings W).

Definition check_spread (s : Signal) (is_auto_trade : bool) : E unit :=
  let symbol := Symbol s in
  do live <- get_current_spread W symbol;
  let current_market_spread_points :=
    match live with
    | Some z => Some z
    | None => spread_pips s
    end in
  match current_market_spread_points with
  | None =>
      reach (Gate Spread false);;
      block s [source_log_prefix is_auto_trade;
               Lit ": Cannot determine current market spread for "; Lit symbol;
               Lit " (MT5 or signal). Blocking trade."]
  | Some spread =>
      if (0 <? max_allowed_spread symbol) && (max_allowed_spread symbol <? spread) then
        reach (Gate Spread false);;
        block s [source_log_prefix is_auto_trade; Lit ": Spread for "; Lit symbol;
                 Lit " ("; Int spread; Lit " pts) > Max allowed (";
                 Int (max_allowed_spread symbol); Lit " pts)."]
      else
        reach (Gate Spread true);;
        ret (Continue tt)
  end.

(** 9. Calculate Lot Size *)
Definition raise {A} (r : pyres A) : E A :=
  match r with
  | Ok a => ret (Continue a)
  | Raise e => ret (Return (Raise e))
  end.

Definition settings_sl_pips (symbol : string) : float :=
  if String.eqb symbol (gold_symbol (settings W))
  then default (default_sl_pips (settings W)) (gold_sl_pips (settings W))
  else if String.eqb symbol (bitcoin_symbol (settings W))
  then default (default_sl_pips (settings W)) (btc_sl_pips (settings W))
  else default_sl_pips (settings W).

Definition effective_sl_pips_for_lot (s : Signal) : float :=
  if (0 <? stop_loss_pips s)%float then stop_loss_pips s
  else settings_sl_pips (Symbol s).

Definition compute_lot (s : Signal) (symbol_info : SymbolInfo) : E float :=
  reach Sizing;;
  do lot <- calculate_lot_size_advanced (Symbol s)
              (risk_percent_per_trade (settings W)) (effective_sl_pips_for_lot s);
  run lot <- raise lot;
  let min_vol_trade :=
    if (volume_min symbol_info <=? 0)%float then 0.01%float
    else volume_min symbol_info in
  let lot :=
    if (lot <=? 0)%float || (lot <? min_vol_trade)%float then min_vol_trade else lot in
  raise (py_round_ndigits lot (default 2 (volume_digits symbol_info))).

(** 10. Determine SL/TP Prices *)
Definition effective_tp_pips_for_order (s : Signal) : float :=
  if (0 <? take_profit_pips s)%float then take_profit_pips s
  else if String.eqb (Symbol s) (gold_symbol (settings W))
  then default (default_tp_pips (settings W)) (gold_tp_pips (settings W))
  else if String.eqb (Symbol s) (bitcoin_symbol (settings W))
  then default (default_tp_pips (settings W)) (btc_tp_pips (settings W))
  else default_tp_pips (settings W).

Definition effective_sl_pips_for_order (s : Signal) : float :=
  if (0 <? stop_loss_pips s)%float then stop_loss_pips s
  else if String.eqb (Symbol s) (gold_symbol (settings W))
  then default (effective_sl_pips_for_lot s) (gold_sl_pips (settings W))
  else if String.eqb (Symbol s) (bitcoin_symbol (settings W))
  then default (effective_sl_pips_for_lot s) (btc_sl_pips (settings W))
  else effective_sl_pips_for_lot s.

(** [round(price -/+ pips * point_size, digits)], or [0.0] when the
    pips are not positive. *)
Definition stop_price (add : bool) (price pips point_size : float) (digits : Z)
    : pyres float :=
  if (0 <? pips)%float then
    py_round_ndigits (if add then price + pips * point_size
                      else price - pips * point_size)%float digits
  else Ok 0%float.

Definition determine_prices (s : Signal) (symbol_info : SymbolInfo)
    (final_order_type_str : string) (is_auto_trade : bool) : E (float * float) :=
  let symbol := Symbol s in
  do tick_for_order <- get_tick W symbol;
  match tick_for_order with
  | None =>
      block s [source_log_prefix is_auto_trade; Lit ": No market tick for ";
               Lit symbol; Lit " available before sending order."]
  | Some tick_for_order =>
      let market_price :=
        if String.eqb final_order_type_str "buy" then ask tick_for_order
        else bid tick_for_order in
      let price :=
        if is_nan (close s) || (close s <=? 0)%float then market_price
        else close s in
      if (price <=? 0)%float then
        block s [source_log_prefix is_auto_trade; Lit ": Market price for ";
                 Lit symbol; Lit " is invalid ("; Flt price;
                 Lit "). Cannot set SL/TP."]
      else
        let is_buy := String.eqb final_order_type_str "buy" in
        run final_sl_price <-
          raise (stop_price (negb is_buy) price (effective_sl_pips_for_order s)
                            (point symbol_info) (digits symbol_info));
        run final_tp_price <-
          raise (stop_price is_buy price (effective_tp_pips_for_order s)
                            (point symbol_info) (digits symbol_info));
        ret (Continue (final_sl_price, final_tp_price))
  end.

(** 11. Prepare and Confirm Trade (if manual) *)
Definition confirm_trade (s : Signal) (is_auto_trade : bool) : E unit :=
  if negb is_auto_trade then
    do yes <- interact CallConfirm (ui_confirm W);
    if negb yes then
      block s [source_log_prefix is_auto_trade;
               Lit ": User cancelled manual trade for "; Lit (Symbol s); Lit "."]
    else ret (Continue tt)
  else ret (Continue tt).

(** 12. Send Order and 13. Process Result *)
Definition positive_or_zero (x : float) : float :=
  if (0 <? x)%float then x else 0%float.

Definition order_error_message (p : payload) : text :=
  match p with
  | Message m => m
  | Result r =>
      if string_truthy (result_comment r)
      then [Lit "Unknown order send error"; Lit " (Broker: ";
            Lit (result_comment r); Lit ")"]
      else [Lit "Unknown order send error"]
  end.

Definition order_accepted (success : bool) (p : payload) : option OrderSendResult :=
  match p with
  | Result r => if success && (0 <? order r) then Some r else None
  | Message _ => None
  end.

Definition send_and_process (s : Signal) (final_order_type_str : string)
    (lot : float) (prices : float * float) (is_auto_trade : bool) : M outcome :=
  let symbol := Symbol s in
  reach Submission;;
  do sent <- send_order W symbol final_order_type_str lot None
               (positive_or_zero prices.1) (positive_or_zero prices.2)
               (trade_comment_of W s is_auto_trade final_order_type_str);
  match order_accepted sent.1 sent.2 with
  | Some result =>
      let current_note :=
        [source_log_prefix is_auto_trade; Lit ": Executed. Order ID: ";
         Int (order result)] in
      do now <- interact CallNow (now_utc W);
      modify (fun st => set_last_trade_time (<[symbol := now]> (last_trade_time st)) st);;
      note_signal s true current_note;;
      modify (fun st => set_saved_signals (Some (df_signals st)) st);;
      ret (Ok (true, Result result))
  | None =>
      let error_message := order_error_message sent.2 in
      note_signal s false
        ([source_log_prefix is_auto_trade; Lit ": Failed - "] ++ error_message);;
      ret (Ok (false, Message error_message))
  end.

Definition execute_trade_from_signal_data (signal_data : option Signal)
    (order_type_override : option string) (is_auto_trade : bool) : M outcome :=
  do f <-
    (run _ <- check_time_filter signal_data is_auto_trade;
     run _ <- check_news_filter signal_data is_auto_trade;
     run _ <- check_connection signal_data is_auto_trade;
     run s <- get_signal_data signal_data;
     run final_order_type_str <- validate_signal s order_type_override is_auto_trade;
     run _ <- check_min_interval s is_auto_trade;
     run symbol_info <- fetch_symbol_info s is_auto_trade;
     run _ <- check_spread s is_auto_trade;
     run lot <- compute_lot s symbol_info;
     run prices <- determine_prices s symbol_info final_order_type_str is_auto_trade;
     run _ <- confirm_trade s is_auto_trade;
     lift (send_and_process s final_order_type_str lot prices is_auto_trade));
  match f with
  | Continue r => ret r
  | Return r => ret r
  end.

(** *** [auto_execute_model_signal_if_conditions_met] (lines 2080-2125) *)

Definition auto_note (s : Signal) (note_to_set : text) : M (pyres unit) :=
  _update_signal_status_in_df (time s) (Symbol s) false note_to_set;;
  ret (Ok tt).

Definition lock_active_note : text :=
  [Lit "AutoTrade: Lock active (another auto-trade in progress). Skipping current signal to prevent overlap."].

Definition auto_execute_model_signal_if_conditions_met (model_signal_series : Signal)
    : M (pyres unit) :=
  let s := model_signal_series in
  if negb (auto_trade_enabled (settings W)) then
    auto_note s [Lit "AutoTrade: Disabled in settings."]
  else
    do c <- is_connected;
    if negb c then
      auto_note s [Lit "AutoTrade: MT5 not connected for "; Lit (Symbol s);
                   Lit " at signal time."]
    else
      let min_confidence_for_auto := auto_trade_min_confidence (settings W) in
      if (min_confidence_for_auto <=? confidence s)%float then
        do locked <- get auto_trade_locked;
        if locked then auto_note s lock_active_note
        else
          modify (set_auto_trade_locked true);;
          do r <- execute_trade_from_signal_data (Some s) None true;
          modify (set_auto_trade_locked false);;
          ret (try! _ <- r; Ok tt)
      else
        auto_note s [Lit "AutoTrade: Confidence "; FltFix (confidence s) 2;
                     Lit "% for "; Lit (Symbol s); Lit " < threshold ";
                     Flt min_confidence_for_auto; Lit "%. Not executed."].

End TradingApp.

Arguments Continue {A} a.
Arguments Return {A} r.

(** * Observations on traces *)

Definition is_initialize (c : ext_call) : bool :=
  match c with
  | CallInitialize _ _ _ _ _ => true
  | _ => false
  end.

Definition is_sleep (c : ext_call) : bool :=
  match c with
  | CallSleep _ => true
  | _ => false
  end.

Definition is_order_send (c : ext_call) : bool :=
  match c with
  | CallOrderSend _ => true
  | _ => false
  end.

Definition count_calls (p : ext_call -> bool) (t : list ext_call) : nat :=
  length (List.filter p t).

(** * Shapes of an execution attempt *)

(** The gates in the order of section 4.3. *)
Definition gate_order : list gate :=
  [TradingHours; News; Connectivity; SignalValidity; ReentryInterval; Spread].

(** The program points left behind by the first [k] gates when each of
    them passes. *)
Definition passed (k : nat) : list step :=
  map (fun g => Gate g true) (take k gate_order).

(** The rows after a note is written for signal [s]: every row with
    the time and symbol of [s] gets the status and the note; nothing is
    written for a signal without a time, nor, when [needs_symbol] is
    set, for one without a symbol. *)
Definition rows_after_note (needs_symbol : bool) (s : Signal)
    (executed_status : bool) (note : text) (rows : list Signal) : list Signal :=
  match time s with
  | Some t =>
      if needs_symbol && negb (string_truthy (Symbol s)) then rows
      else update_rows t (Symbol s) executed_status note rows
  | None => rows
  end.

(** * Statements taken from the specification *)

(** Section 4.3, gate 1: the time of day is tested against the
    half-open window [[start, end)], wrapping past midnight when
    [start > end]. *)
Definition half_open_window (start_time end_time t : Z) : bool :=
  if start_time <=? end_time
  then (start_time <=? t) && (t <? end_time)
  else (start_time <=? t) || (t <? end_time).

(** * Concrete worlds used in the examples *)

Module Examples.

Local Open Scope string_scope.

Definition base_settings : Settings := {|
  mt5_login := LoginStr "5012345";
  mt5_password := "secret";
  mt5_server := "Demo-Server";
  mt5_path := "C:\MT5\terminal64.exe";
  mt5_magic_number := 234000;
  mt5_retries := 3;
  mt5_retry_delay := 2%float;
  mt5_timeout_ms := 20000;
  time_filter_enabled := false;
  trade_start_time := "00:00";
  trade_end_time := "23:59";
  halt_trades_on_news := true;
  default_min_trade_interval_minutes := 15;
  symbol_settings_minutes := ∅;
  gold_symbol := "XAUUSD";
  bitcoin_symbol := "BTCUSD";
  max_allowed_spread_points_gold := 30;
  max_allowed_spread_points_bitcoin := 1000;
  max_allowed_spread_points_other := 0;
  risk_percent_per_trade := 1%float;
  default_sl_pips := 50%float;
  gold_sl_pips := None;
  btc_sl_pips := None;
  default_tp_pips := 100%float;
  gold_tp_pips := None;
  btc_tp_pips := None;
  auto_trade_enabled := true;
  auto_trade_min_confidence := 70%float;
|}.

(** The settings with the time filter on and the given window. *)
Definition with_window (start_time end_time : string) (cfg : Settings) : Settings := {|
  mt5_login := mt5_login cfg; mt5_password := mt5_password cfg;
  mt5_server := mt5_server cfg; mt5_path := mt5_path cfg;
  mt5_magic_number := mt5_magic_number cfg; mt5_retries := mt5_retries cfg;
  mt5_retry_delay := mt5_retry_delay cfg; mt5_timeout_ms := mt5_timeout_ms cfg;
  time_filter_enabled := true;
  trade_start_time := start_time;
  trade_end_time := end_time;
  halt_trades_on_news := halt_trades_on_news cfg;
  default_min_trade_interval_minutes := default_min_trade_interval_minutes cfg;
  symbol_settings_minutes := symbol_settings_minutes cfg;
  gold_symbol := gold_symbol cfg; bitcoin_symbol := bitcoin_symbol cfg;
  max_allowed_spread_points_gold := max_allowed_spread_points_gold cfg;
  max_allowed_spread_points_bitcoin := max_allowed_spread_points_bitcoin cfg;
  max_allowed_spread_points_other := max_allowed_spread_points_other cfg;
  risk_percent_per_trade := risk_percent_per_trade cfg;
  default_sl_pips := default_sl_pips cfg;
  gold_sl_pips := gold_sl_pips cfg; btc_sl_pips := btc_sl_pips cfg;
  default_tp_pips := default_tp_pips cfg;
  gold_tp_pips := gold_tp_pips cfg; btc_tp_pips := btc_tp_pips cfg;
  auto_trade_enabled := auto_trade_enabled cfg;
  auto_trade_min_confidence := auto_trade_min_confidence cfg;
|}.

Definition gold_info : SymbolInfo := {|
  volume_min := 0.01; volume_max := 100; volume_step := 0.01;
  trade_contract_size := 100; point := 0.01; digits := 2;
  currency_profit := "USD"; volume_digits := None; info_spread := Some 20;
|}.

Definition gold_tick : Tick := {| bid := 2000; ask := 2000.2; tick_spread := None |}.

Definition usd_account : AccountInfo := {| balance := 10000; currency := "USD" |}.

Definition done_result : OrderSendResult :=
  {| retcode := TRADE_RETCODE_DONE; deal := 7001; order := 9001;
     result_comment := "Request executed" |}.

(** A venue that answers every question the same way at any time. *)
Definition steady_world (cfg : Settings) (now : Z) (info : option SymbolInfo)
    (sent : option OrderSendResult) (positions : list Position)
    (picked : selection) : World := {|
  settings := cfg;
  now_utc := fun _ => now;
  mt5_initialize := fun _ _ _ _ _ _ => InitReturns true;
  mt5_last_error := fun _ => (-10004, "No IPC connection");
  mt5_account_info := fun _ => Some usd_account;
  mt5_terminal_info := fun _ => true;
  mt5_symbol_info := fun _ _ => info;
  mt5_symbol_info_tick := fun _ _ => Some gold_tick;
  mt5_order_check := fun _ _ =>
    Some {| check_retcode := TRADE_RETCODE_DONE; check_comment := "Done" |};
  mt5_order_send := fun _ _ => sent;
  mt5_positions_get := fun _ _ => Some positions;
  ui_selected_row := fun _ _ => picked;
  ui_confirm := fun _ => true;
  trade_comment_of := fun _ is_auto_trade _ => if is_auto_trade then "AutoB" else "ManB";
|}.

(** 2024-03-04 00:00:00 UTC, in microseconds since the epoch. *)
Definition monday : Z := 1709510400 * PyTime.SECOND.

Definition at_time (hour minute : Z) : Z := monday + PyTime.time_of hour minute.

Definition gold_signal : Signal := {|
  time := Some (at_time 11 45); Symbol := "XAUUSD"; signal := "buy";
  confidence := 82.5; close := 2000; spread_pips := Some 20;
  take_profit_pips := 100; stop_loss_pips := 50;
  executed := false; notes := [Lit "Model: model_XAUUSD.joblib"];
|}.

Definition idle (is_connected : bool) (rows : list Signal) : State := {|
  connected := is_connected; last_raw_error_message := [];
  df_signals := rows; last_trade_time := ∅;
  trading_allowed_by_news := true; auto_trade_locked := false;
  saved_signals := None; trace := []; steps := [];
|}.

(** The window 09:00-17:00, read at 17:00:00 sharp. *)
Definition day_window_at_close : World :=
  steady_world (with_window "09:00" "17:00" base_settings) (at_time 17 0)
               (Some gold_info) (Some done_result) [] NoRowSelected.

(** The overnight window 22:00-05:00 at a given time of day. *)
Definition overnight_window_at (hour minute : Z) : World :=
  steady_world (with_window "22:00" "05:00" base_settings) (at_time hour minute)
               (Some gold_info) (Some done_result) [] NoRowSelected.

(** A start time that [strptime] rejects. *)
Definition unparsable_window : World :=
  steady_world (with_window "9am" "17:00" base_settings) (at_time 12 0)
               (Some gold_info) (Some done_result) [] NoRowSelected.

End Examples.

Module CloseAllExample.

Import Examples.
Local Open Scope string_scope.

Definition positions : list Position := [
  {| ticket := 101; pos_symbol := "XAUUSD"; pos_volume := 0.5;
     pos_type := ORDER_TYPE_BUY; pos_magic := 234000 |};
  {| ticket := 102; pos_symbol := "BTCUSD"; pos_volume := 0.1;
     pos_type := ORDER_TYPE_SELL; pos_magic := 234000 |};
  {| ticket := 103; pos_symbol := "EURUSD"; pos_volume := 1;
     pos_type := ORDER_TYPE_BUY; pos_magic := 777 |};
  {| ticket := 104; pos_symbol := "XAUUSD"; pos_volume := 0.2;
     pos_type := ORDER_TYPE_SELL; pos_magic := 234000 |}
].

Definition market_closed : OrderSendResult :=
  {| retcode := 10018; deal := 0; order := 0; result_comment := "Market closed" |}.

(** The venue closes every position but ticket 102. *)
Definition world : World := {|
  settings := base_settings;
  now_utc := fun _ => at_time 12 0;
  mt5_initialize := fun _ _ _ _ _ _ => InitReturns true;
  mt5_last_error := fun _ => (1, "Success");
  mt5_account_info := fun _ => Some usd_account;
  mt5_terminal_info := fun _ => true;
  mt5_symbol_info := fun _ _ => Some gold_info;
  mt5_symbol_info_tick := fun _ _ => Some gold_tick;
  mt5_order_check := fun _ _ =>
    Some {| check_retcode := TRADE_RETCODE_DONE; check_comment := "Done" |};
  mt5_order_send := fun _ r =>
    if decide (req_position r = Some 102) then Some market_closed
    else Some done_result;
  mt5_positions_get := fun _ _ => Some positions;
  ui_selected_row := fun _ _ => NoRowSelected;
  ui_confirm := fun _ => true;
  trade_comment_of := fun _ _ _ => "";
|}.

End CloseAllExample.

Module ConnectExample.

Import Examples.
Local Open Scope string_scope.

(** The settings with another login. *)
Definition with_login (l : login_value) (cfg : Settings) : Settings := {|
  mt5_login := l; mt5_password := mt5_password cfg;
  mt5_server := mt5_server cfg; mt5_path := mt5_path cfg;
  mt5_magic_number := mt5_magic_number cfg; mt5_retries := mt5_retries cfg;
  mt5_retry_delay := mt5_retry_delay cfg; mt5_timeout_ms := mt5_timeout_ms cfg;
  time_filter_enabled := time_filter_enabled cfg;
  trade_start_time := trade_start_time cfg;
  trade_end_time := trade_end_time cfg;
  halt_trades_on_news := halt_trades_on_news cfg;
  default_min_trade_interval_minutes := default_min_trade_interval_minutes cfg;
  symbol_settings_minutes := symbol_settings_minutes cfg;
  gold_symbol := gold_symbol cfg; bitcoin_symbol := bitcoin_symbol cfg;
  max_allowed_spread_points_gold := max_allowed_spread_points_gold cfg;
  max_allowed_spread_points_bitcoin := max_allowed_spread_points_bitcoin cfg;
  max_allowed_spread_points_other := max_allowed_spread_points_other cfg;
  risk_percent_per_trade := risk_percent_per_trade cfg;
  default_sl_pips := default_sl_pips cfg;
  gold_sl_pips := gold_sl_pips cfg; btc_sl_pips := btc_sl_pips cfg;
  default_tp_pips := default_tp_pips cfg;
  gold_tp_pips := gold_tp_pips cfg; btc_tp_pips := btc_tp_pips cfg;
  auto_trade_enabled := auto_trade_enabled cfg;
  auto_trade_min_confidence := auto_trade_min_confidence cfg;
|}.

(** A terminal that refuses every [initialize]. *)
Definition unreachable (cfg : Settings) : World := {|
  settings := cfg;
  now_utc := fun _ => at_time 12 0;
  mt5_initialize := fun _ _ _ _ _ _ => InitReturns false;
  mt5_last_error := fun i => (-6, "Terminal: Authorization failed");
  mt5_account_info := fun _ => None;
  mt5_terminal_info := fun _ => false;
  mt5_symbol_info := fun _ _ => None;
  mt5_symbol_info_tick := fun _ _ => None;
  mt5_order_check := fun _ _ => None;
  mt5_order_send := fun _ _ => None;
  mt5_positions_get := fun _ _ => None;
  ui_selected_row := fun _ _ => NoRowSelected;
  ui_confirm := fun _ => false;
  trade_comment_of := fun _ _ _ => "";
|}.

Definition refused : World := unreachable base_settings.

Definition bad_login : World := unreachable (with_login (LoginStr "abc") base_settings).

End ConnectExample.

Module LotExample.

Import Examples.
Local Open Scope string_scope.

(** A symbol quoted in thousandths of a lot. *)
Definition micro_info : SymbolInfo := {|
  volume_min := 0.001; volume_max := 50; volume_step := 0.001;
  trade_contract_size := 1; point := 0.01; digits := 2;
  currency_profit := "USD"; volume_digits := None; info_spread := Some 1500;
|}.

(** A symbol whose smallest lot is not a multiple of its step. *)
Definition odd_min_info : SymbolInfo := {|
  volume_min := 0.15; volume_max := 10; volume_step := 0.1;
  trade_contract_size := 100; point := 0.01; digits := 2;
  currency_profit := "USD"; volume_digits := None; info_spread := Some 20;
|}.

(** A symbol whose largest lot is not a multiple of its step. *)
Definition odd_max_info : SymbolInfo := {|
  volume_min := 0.1; volume_max := 1.06; volume_step := 0.1;
  trade_contract_size := 100; point := 0.01; digits := 2;
  currency_profit := "USD"; volume_digits := None; info_spread := Some 20;
|}.

Definition world (info : SymbolInfo) : World :=
  steady_world base_settings (at_time 12 0) (Some info) (Some done_result) []
               NoRowSelected.

End LotExample.

Module AttemptExample.

Import Examples.
Local Open Scope string_scope.

(** 20:00 UTC with trading allowed from 09:00 to 17:00; the table
    hands over the gold signal. *)
Definition after_hours : World :=
  steady_world (with_window "09:00" "17:00" base_settings) (at_time 20 0)
               (Some gold_info) (Some done_result) [] (RowSelected gold_signal).

(** No window, the venue accepting every order. *)
Definition open_market (now : Z) : World :=
  steady_world base_settings now (Some gold_info) (Some done_result) []
               (RowSelected gold_signal).

(** The venue reports the order done but gives no order id. *)
Definition done_without_order : OrderSendResult :=
  {| retcode := TRADE_RETCODE_DONE; deal := 0; order := 0;
     result_comment := "Request executed" |}.

Definition no_order_id : World :=
  steady_world base_settings (at_time 12 0) (Some gold_info)
               (Some done_without_order) [] (RowSelected gold_signal).

(** The state ten minutes after an order on gold at 12:00. *)
Definition traded_at_noon : State := {|
  connected := true; last_raw_error_message := [];
  df_signals := [gold_signal];
  last_trade_time := {[ "XAUUSD" := at_time 12 0 ]};
  trading_allowed_by_news := true; auto_trade_locked := false;
  saved_signals := None; trace := []; steps := [];
|}.

End AttemptExample.

Module SubmissionExample.

Import Examples.

(** An automatic attempt on the gold signal, the ledger holding just
    that signal. *)
Definition auto_attempt (W : World) : outcome * State :=
  execute_trade_from_signal_data W (Some gold_signal) None true
    (idle true [gold_signal]).

(** The order the attempt submits. *)
Definition gold_request : TradeRequest := {|
  req_action := TRADE_ACTION_DEAL; req_symbol := "XAUUSD";
  req_volume := 2; req_type := ORDER_TYPE_BUY; req_position := None;
  req_price := 2000.2; req_sl := Some 1999.5%float; req_tp := Some 2001%float;
  req_deviation := 20; req_magic := 234000; req_comment := "AutoB";
  req_type_time := ORDER_TIME_GTC; req_type_filling := ORDER_FILLING_IOC;
|}.

End SubmissionExample.

(** * The lock of automatic trading, between concurrent calls *)

(** [AUTO_TRADE_LOCK] is a module-level [threading.Lock].  A call of
    [auto_execute_model_signal_if_conditions_met] that reaches line
    2105 tests [locked()], returns at line 2109 if the lock is held,
    else enters [with AUTO_TRADE_LOCK] (line 2111), which takes the
    lock as soon as it is free, runs the attempt and gives the lock
    back. *)
Module AutoTradeLock.

Inductive place : Type :=
| AtCheck      (* before [AUTO_TRADE_LOCK.locked()] *)
| Skipped      (* returned with the lock-active note *)
| AtAcquire    (* before [with AUTO_TRADE_LOCK] *)
| Executing    (* inside it, in [execute_trade_from_signal_data] *)
| Finished.    (* after it *)

(** One move of a call: lock before, place before, lock after, place
    after. *)
Inductive call_step : bool -> place -> bool -> place -> Prop :=
| check_held : call_step true AtCheck true Skipped
| check_free : call_step false AtCheck false AtAcquire
| acquire : call_step false AtAcquire true Executing
| release l : call_step l Executing false Finished.

(** The lock and the calls under way. *)
Definition system : Type := bool * list place.

Inductive step : system -> system -> Prop :=
| step_call l l' i p p' calls :
    calls !! i = Some p ->
    call_step l p l' p' ->
    step (l, calls) (l', <[i := p']> calls).

Definition executing (p : place) : bool :=
  match p with
  | Executing => true
  | _ => false
  end.

Fixpoint in_flight (calls : list place) : nat :=
  match calls with
  | [] => 0
  | p :: rest => ((if executing p then 1 else 0) + in_flight rest)%nat
  end.

(** [n] calls arrive, the lock being free. *)
Definition start (n : nat) : system := (false, replicate n AtCheck).

End AutoTradeLock.

Module LockExample.

Import Examples.

(** The gold signal arrives while another automatic attempt holds the
    lock. *)
Definition lock_held : State := set_auto_trade_locked true (idle true [gold_signal]).

Definition market : World := AttemptExample.open_market (at_time 12 0).

End LockExample.

(** * More of [MT5Manager] *)

Section MT5ManagerMore.

Variable W : World.

(** [disconnect] (lines 113-119) *)
Definition disconnect : M unit :=
  do c <- get connected;
  if c then
    interact CallShutdown (fun _ => tt);;
    modify (set_connected false)
  else ret tt.

(** [get_open_positions_count] (lines 337-338) *)
Definition get_open_positions_count (symbol : option string) (magic : option Z)
    : M Z :=
  do positions <- get_open_positions W symbol magic;
  ret (Z.of_nat (length positions)).

End MT5ManagerMore.

Definition is_order_check (c : ext_call) : bool :=
  match c with
  | CallOrderCheck _ => true
  | _ => false
  end.

(** [req] closes position [p] with the comment [comment]. *)
Definition closes (comment : string) (p : Position) (req : TradeRequest) : Prop :=
  req_action req = TRADE_ACTION_DEAL /\
  req_position req = Some (ticket p) /\
  req_symbol req = pos_symbol p /\
  req_volume req = pos_volume p /\
  req_magic req = pos_magic p /\
  req_type req = (if pos_type p =? ORDER_TYPE_BUY then ORDER_TYPE_SELL
                  else ORDER_TYPE_BUY) /\
  req_comment req = PyStr.take 31 comment /\
  (req_price req <=? 0)%float = false.

(** * More of [TradingApp] *)

Definition set_trading_allowed_by_news (b : bool) (st : State) : State :=
  {| connected := connected st; last_raw_error_message := last_raw_error_message st;
     df_signals := df_signals st; last_trade_time := last_trade_time st;
     trading_allowed_by_news := b;
     auto_trade_locked := auto_trade_locked st;
     saved_signals := saved_signals st;
     trace := trace st; steps := steps st |}.

(** ** The clock: [datetime.hour] and [datetime.weekday()] *)

Module PyDate.

Definition hour_of (now : Z) : Z := (now mod PyTime.DAY) / PyTime.HOUR.

(** Monday is 0 and Sunday is 6; the epoch, 1970-01-01, was a
    Thursday. *)
Definition weekday_of (now : Z) : Z := (now / PyTime.DAY + 3) mod 7.

End PyDate.

Section TradingAppMore.

Variable W : World.

(** *** [on_news_updated_ui] (lines 2249-2278)

    A news item is a title and a time; the alert label is display
    code. *)
Definition on_news_updated_ui (news_list : list (string * Z)) : M unit :=
  let halt_on_news_setting := halt_trades_on_news (settings W) in
  modify (set_trading_allowed_by_news
            (negb ((if news_list is [] then false else true)
                   && halt_on_news_setting))).

(** [req] closes a position that carries the magic number of the
    settings. *)
Definition closes_own (comment : string) (req : TradeRequest) : Prop :=
  exists p, closes comment p req /\ pos_magic p = mt5_magic_number (settings W).

(** *** [confirm_close_all_positions] (lines 2167-2202)

    The message boxes that only inform are not followed, nor are the
    refreshes of the display that end the method: they read the
    account, the positions and the history of deals, and submit
    nothing. *)
Definition confirm_close_all_positions : M unit :=
  do c <- is_connected;
  if negb c then ret tt
  else
    let current_magic := mt5_magic_number (settings W) in
    do num_positions_to_close <-
      get_open_positions_count W None (Some current_magic);
    if num_positions_to_close =? 0 then ret tt
    else
      do reply <- interact CallConfirm (ui_confirm W);
      if negb reply then ret tt
      else
        let close_comment :=
          PyStr.take 31 ("ManCloseAll M" +:+ pretty current_magic) in
        close_all_trades W (Some current_magic) close_comment;;
        ret tt.

(** *** [get_current_trading_session] (lines 2281-2318) *)

Definition SYDNEY : string := "سيدني".
Definition TOKYO : string := "طوكيو".
Definition LONDON : string := "لندن".
Definition NEW_YORK : string := "نيويورك".
Definition CLOSED_WEEKEND : string := "مغلقة (عطلة نهاية الأسبوع)".
Definition CLOSED_BETWEEN : string := "مغلقة (بين الجلسات الرئيسية)".
Definition CLOSED_UNSPECIFIED : string := "مغلقة (غير محدد)".

(** [if not any(s.startswith(name) for s in sessions): sessions.append(name)] *)
Definition add_session (name : string) (sessions : list string) : list string :=
  if existsb (String.prefix name) sessions then sessions else sessions ++ [name].

Definition sessions_open (weekday_utc hour_utc : Z) : list string :=
  let sessions := [] in
  let sessions :=
    if ((weekday_utc =? 6) && (21 <=? hour_utc))
       || ((0 <=? weekday_utc) && (weekday_utc <=? 3)
           && ((21 <=? hour_utc) || (hour_utc <? 7)))
       || ((weekday_utc =? 4) && (hour_utc <? 7))
    then add_session SYDNEY sessions else sessions in
  let sessions :=
    if ((0 <=? hour_utc) && (hour_utc <? 9))
       && ((0 <=? weekday_utc) && (weekday_utc <=? 4))
    then add_session TOKYO sessions else sessions in
  let sessions :=
    if ((7 <=? hour_utc) && (hour_utc <? 16))
       && ((0 <=? weekday_utc) && (weekday_utc <=? 4))
    then add_session LONDON sessions else sessions in
  let sessions :=
    if ((12 <=? hour_utc) && (hour_utc <? 21))
       && ((0 <=? weekday_utc) && (weekday_utc <=? 4))
    then add_session NEW_YORK sessions else sessions in
  sessions.

Definition weekend_closed (weekday_utc hour_utc : Z) : bool :=
  ((weekday_utc =? 4) && (21 <=? hour_utc))
  || (weekday_utc =? 5)
  || ((weekday_utc =? 6) && (hour_utc <? 21)).

Definition session_text (weekday_utc hour_utc : Z) : string :=
  let sessions := sessions_open weekday_utc hour_utc in
  if weekend_closed weekday_utc hour_utc then CLOSED_WEEKEND
  else
    match sessions with
    | [] =>
        if (0 <=? weekday_utc) && (weekday_utc <=? 4) then CLOSED_BETWEEN
        else CLOSED_UNSPECIFIED
    | [s] => s
    | _ => "تداخل: " +:+ String.concat " و " sessions
    end.

(** The texts that [session_text] can give. *)
Definition session_texts : list string :=
  [CLOSED_WEEKEND; SYDNEY; LONDON; NEW_YORK;
   "تداخل: سيدني و طوكيو"; "تداخل: طوكيو و لندن"; "تداخل: لندن و نيويورك"]%string.

Definition get_current_trading_session : M string :=
  do now_utc <- interact CallNow (now_utc W);
  ret (session_text (PyDate.weekday_of now_utc) (PyDate.hour_of now_utc)).

End TradingAppMore.

(** *** [monitor_positions_for_auto_close] (lines 2205-2245)

    The settings [auto_close_by_points_enabled] and
    [auto_close_target_points] and the attribute [price_open] of a
    position are given from outside.  The refreshes of the display
    that end the method are not followed: they read the account, the
    positions and the history of deals, and submit nothing. *)
Section AutoClose.

Variable W : World.
Variable auto_close_by_points_enabled : bool.
Variable auto_close_target_points : float.
Variable price_open : Position -> float.

(** The body of [for pos in positions], from the total so far to the
    next one. *)
Definition add_position_profit (pos : Position) (total : float) : M float :=
  do info <- get_symbol_info W (pos_symbol pos);
  do tick <- get_tick W (pos_symbol pos);
  match info, tick with
  | Some info, Some tick =>
      if (point info =? 0)%float then ret total
      else
        let point_value_for_calc := point info in
        let profit_in_points_for_pos :=
          if pos_type pos =? ORDER_TYPE_BUY
          then ((bid tick - price_open pos) / point_value_for_calc)%float
          else if pos_type pos =? ORDER_TYPE_SELL
          then ((price_open pos - ask tick) / point_value_for_calc)%float
          else 0%float in
        ret (total + profit_in_points_for_pos)%float
  | _, _ => ret total
  end.

Fixpoint total_profit_in_points (positions : list Position) (total : float)
    : M float :=
  match positions with
  | [] => ret total
  | pos :: rest =>
      do total' <- add_position_profit pos total;
      total_profit_in_points rest total'
  end.

Definition monitor_positions_for_auto_close : M unit :=
  do c <- is_connected;
  if negb c then ret tt
  else if negb auto_close_by_points_enabled then ret tt
  else
    let target_total_profit_points := auto_close_target_points in
    if (target_total_profit_points <=? 0)%float then ret tt
    else
      let current_magic := mt5_magic_number (settings W) in
      do positions <- get_open_positions W None (Some current_magic);
      match positions with
      | [] => ret tt
      | _ =>
          do current_total_profit_in_points <- total_profit_in_points positions 0;
          if (target_total_profit_points <=? current_total_profit_in_points)%float
          then
            let close_comment :=
              PyStr.take 31 ("AutoClose M" +:+ pretty current_magic +:+ " PtsTgt") in
            close_all_trades W (Some current_magic) close_comment;;
            ret tt
          else ret tt
      end.

End AutoClose.

Definition is_confirm (c : ext_call) : bool :=
  match c with
  | CallConfirm => true
  | _ => false
  end.

(** The calls that ask something of the user. *)
Definition is_ui (c : ext_call) : bool :=
  match c with
  | CallConfirm | CallSelectedRow => true
  | _ => false
  end.

(** * [performance_metrics.py] *)

(** *** [calculate_streaks] (lines 103-128)

    The profits of the series are floats; the four counters are
    Python integers. *)
Module PerformanceMetrics.

Record streaks : Type := {
  longest_win_streak : Z;
  current_win_streak : Z;
  longest_lose_streak : Z;
  current_lose_streak : Z;
}.

(** One turn of the loop. *)
Definition streak_step (a : streaks) (profit : float) : streaks :=
  let current :=
    if (0 <? profit)%float then (current_win_streak a + 1, 0)
    else if (profit <? 0)%float then (0, current_lose_streak a + 1)
    else (0, 0) in
  let current_win_streak := current.1 in
  let current_lose_streak := current.2 in
  {| longest_win_streak :=
       if longest_win_streak a <? current_win_streak then current_win_streak
       else longest_win_streak a;
     current_win_streak := current_win_streak;
     longest_lose_streak :=
       if longest_lose_streak a <? current_lose_streak then current_lose_streak
       else longest_lose_streak a;
     current_lose_streak := current_lose_streak |}.

Definition calculate_streaks (profit_series : list float) : Z * Z :=
  match profit_series with
  | [] => (0, 0)
  | _ =>
      let a :=
        fold_left streak_step profit_series
          {| longest_win_streak := 0; current_win_streak := 0;
             longest_lose_streak := 0; current_lose_streak := 0 |} in
      (longest_win_streak a, longest_lose_streak a)
  end.

(** A winning deal and a losing one; a profit of zero or one that is
    not a number is neither. *)
Definition win (profit : float) : bool := (0 <? profit)%float.
Definition loss (profit : float) : bool := (profit <? 0)%float.

(** [run] is a stretch of consecutive deals of [l] that all satisfy
    [P]. *)
Definition run_of (P : float -> bool) (l run : list float) : Prop :=
  exists pre post, l = pre ++ run ++ post /\ forallb P run = true.

End PerformanceMetrics.

(** * Rules on the calls made by an operation *)

(** A rule speaks of the calls an operation adds to the trace and of
    the position of the trace they start from. *)
Definition rule : Type := nat -> list ext_call -> Prop.

Definition obeys (G : rule) {A} (m : M A) : Prop :=
  forall st, exists t, trace (m st).2 = trace st ++ t /\ G (length (trace st)) t.

(** Every call satisfies [P]. *)
Definition only (P : ext_call -> bool) : rule := fun _ t => forallb P t = true.

Definition no_send (c : ext_call) : bool := negb (is_order_send c).
Definition no_ui (c : ext_call) : bool := negb (is_ui c).

(** At most one order is submitted. *)
Definition at_most_one_order : rule :=
  fun _ t => (count_calls is_order_send t <= 1)%nat.

(** Every order submitted comes after a confirmation that the user
    answered with yes. *)
Definition confirmed_by_user (W : World) : rule :=
  fun n t =>
    forall j req,
      t !! j = Some (CallOrderSend req) ->
      exists i, (i < j)%nat /\ t !! i = Some CallConfirm /\ ui_confirm W (n + i) = true.

(** Every order submitted comes right after the check of the same
    request, answered with the result code done, and satisfies
    [shape]. *)
Definition checked_orders (W : World) (shape : TradeRequest -> Prop) : rule :=
  fun n t =>
    forall j req,
      t !! j = Some (CallOrderSend req) ->
      shape req /\
      exists i c,
        j = S i /\ t !! i = Some (CallOrderCheck req) /\
        mt5_order_check W (n + i) req = Some c /\
        check_retcode c = TRADE_RETCODE_DONE.

(** A rule that calls other than order submissions neither break nor
    are needed for. *)
Definition lenient (G : rule) : Prop :=
  (forall n, G n []) /\
  (forall n t1 t2,
     forallb no_send t1 = true -> G (n + length t1)%nat t2 -> G n (t1 ++ t2)) /\
  (forall n t1 t2, G n t1 -> forallb no_send t2 = true -> G n (t1 ++ t2)).

(** The order that an attempt with the signal [s] and the order type
    [ty] may submit. *)
Definition order_of_signal (W : World) (s : Signal) (ty : string)
    (req : TradeRequest) : Prop :=
  req_action req = TRADE_ACTION_DEAL /\
  req_position req = None /\
  req_symbol req = Symbol s /\
  req_type req = (if String.eqb ty "buy" then ORDER_TYPE_BUY else ORDER_TYPE_SELL) /\
  req_magic req = mt5_magic_number (settings W) /\
  (req_price req <=? 0)%float = false /\
  exists sl tp,
    req_sl req = Some sl /\ req_tp req = Some tp /\
    (0 <=? sl)%float = true /\ (0 <=? tp)%float = true.

(** The signal an attempt works on: the one handed over, or else any
    row of the table. *)
Definition attempt_signal (signal_data : option Signal) (s : Signal) : Prop :=
  match signal_data with
  | Some s0 => s = s0
  | None => True
  end.

Module ManualExample.

Import Examples.
Local Open Scope string_scope.

(** The open market of [AttemptExample], with a user who answers no to
    every confirmation, and the positions of [CloseAllExample]. *)
Definition decliner : World := {|
  settings := base_settings;
  now_utc := fun _ => at_time 12 0;
  mt5_initialize := fun _ _ _ _ _ _ => InitReturns true;
  mt5_last_error := fun _ => (1, "Success");
  mt5_account_info := fun _ => Some usd_account;
  mt5_terminal_info := fun _ => true;
  mt5_symbol_info := fun _ _ => Some gold_info;
  mt5_symbol_info_tick := fun _ _ => Some gold_tick;
  mt5_order_check := fun _ _ =>
    Some {| check_retcode := TRADE_RETCODE_DONE; check_comment := "Done" |};
  mt5_order_send := fun _ _ => Some done_result;
  mt5_positions_get := fun _ _ => Some CloseAllExample.positions;
  ui_selected_row := fun _ _ => RowSelected gold_signal;
  ui_confirm := fun _ => false;
  trade_comment_of := fun _ is_auto_trade _ => if is_auto_trade then "AutoB" else "ManB";
|}.

(** A manual sell of the row selected in the table. *)
Definition manual_sell (W : World) : outcome * State :=
  execute_trade_from_signal_data W None (Some "sell") false
    (idle true [gold_signal]).

(** Buys opened at 1980 and sells opened at 2010. *)
Definition price_open (p : Position) : float :=
  if (pos_type p =? ORDER_TYPE_BUY)%Z then 1980%float else 2010%float.

End ManualExample.

(** * Properties *)

(** ** Reasoning about monadic code *)

Definition wp {A} (m : M A) (Q : A -> State -> Prop) (st : State) : Prop :=
  Q (m st).1 (m st).2.

Lemma wp_ret {A} (a : A) Q st : Q a st -> wp (ret a) Q st.
Proof. done. Qed.

Lemma wp_bind {A B} (m : M A) (k : A -> M B) Q st :
  wp m (fun a st' => wp (k a) Q st') st -> wp (bind m k) Q st.
Proof. unfold wp, bind. by destruct (m st). Qed.

Lemma wp_get {A} (f : State -> A) Q st : Q (f st) st -> wp (get f) Q st.
Proof. done. Qed.

Lemma wp_modify f (Q : unit -> State -> Prop) st : Q tt (f st) -> wp (modify f) Q st.
Proof. done. Qed.

Lemma wp_interact {A} c (answer : nat -> A) Q st :
  Q (answer (length (trace st))) (set_trace (trace st ++ [c]) st) ->
  wp (interact c answer) Q st.
Proof. done. Qed.

Lemma wp_reach s (Q : unit -> State -> Prop) st :
  Q tt (set_steps (steps st ++ [s]) st) -> wp (reach s) Q st.
Proof. done. Qed.

Lemma wp_mono {A} (m : M A) (Q Q' : A -> State -> Prop) st :
  wp m Q st -> (forall a st', Q a st' -> Q' a st') -> wp m Q' st.
Proof. unfold wp. auto. Qed.

Lemma wp_elim {A} (m : M A) Q st a st' : wp m Q st -> m st = (a, st') -> Q a st'.
Proof. unfold wp. intros H E. by rewrite E in H. Qed.

Lemma wp_if {A} (b : bool) (m1 m2 : M A) Q st :
  (b = true -> wp m1 Q st) -> (b = false -> wp m2 Q st) ->
  wp (if b then m1 else m2) Q st.
Proof. destruct b; auto. Qed.

(** Steps through the monadic operations that are always stepped the
    same way. *)
Ltac wp_step :=
  lazymatch goal with
  | |- wp (bind _ _) _ _ => apply wp_bind
  | |- wp (ret _) _ _ => apply wp_ret
  | |- wp (get _) _ _ => apply wp_get
  | |- wp (modify _) _ _ => apply wp_modify
  | |- wp (interact _ _) _ _ => apply wp_interact
  | |- wp (reach _) _ _ => apply wp_reach
  | |- wp is_connected _ _ => apply wp_get
  | |- wp (set_error _) _ _ => apply wp_modify
  end.

Ltac wp_steps := repeat wp_step.

(** ** The trading-hours gate *)

Section TradingHours.

Variable W : World.

Lemma trading_time_check_parsed st s e :
  PyTime.strptime_HM (trade_start_time (settings W)) = Some s ->
  PyTime.strptime_HM (trade_end_time (settings W)) = Some e ->
  (trading_time_check W st).1 =
    let t := PyTime.time_of_day (now_utc W (length (trace st))) in
    Ok (if s <=? e then (s <=? t) && (t <=? e) else (s <=? t) || (t <=? e)).
Proof.
  intros Hs He. unfold trading_time_check, bind, interact; simpl.
  rewrite Hs, He. by destruct (s <=? e).
Qed.

Lemma trading_time_check_unparsable st :
  PyTime.strptime_HM (trade_start_time (settings W)) = None \/
  PyTime.strptime_HM (trade_end_time (settings W)) = None ->
  (trading_time_check W st).1 = Raise ValueError.
Proof.
  intros H. unfold trading_time_check, bind, interact; simpl.
  destruct (PyTime.strptime_HM (trade_start_time (settings W))); [|done].
  destruct H as [H|H]; [done|]. by rewrite H.
Qed.

Lemma is_trading_time_allowed_raise st e :
  time_filter_enabled (settings W) = true ->
  (trading_time_check W st).1 = Raise e ->
  (is_trading_time_allowed W st).1 = true.
Proof.
  intros Hen Hr. unfold is_trading_time_allowed, bind. rewrite Hen; simpl.
  destruct (trading_time_check W st) as [r st']; simpl in *. by subst r.
Qed.

Lemma check_time_filter_allowed signal_data is_auto_trade st :
  (is_trading_time_allowed W st).1 = true ->
  (check_time_filter W signal_data is_auto_trade st).1 = Continue tt.
Proof.
  intros H. unfold check_time_filter, bind.
  destruct (is_trading_time_allowed W st) as [a st']; simpl in *. by subst a.
Qed.

End TradingHours.

(** C9, as stated, fails: with the window 09:00-17:00 the gate still
    passes at 17:00:00 sharp, an instant outside [[09:00, 17:00)]. *)
Lemma trading_hours_window_not_half_open :
  (is_trading_time_allowed Examples.day_window_at_close
     (Examples.idle true [])).1 = true /\
  PyTime.strptime_HM "09:00" = Some (PyTime.time_of 9 0) /\
  PyTime.strptime_HM "17:00" = Some (PyTime.time_of 17 0) /\
  half_open_window (PyTime.time_of 9 0) (PyTime.time_of 17 0)
    (PyTime.time_of_day (Examples.at_time 17 0)) = false.
Proof. by vm_compute. Qed.

(** C9, amended: when the trading-hours gate is enabled and both
    configured times parse, the current UTC time of day [t] is tested
    against the closed window: [start <= t <= end] when
    [start <= end], and [t >= start or t <= end] (wrapping past
    midnight) when [start > end].  For the window 22:00-05:00 the gate
    passes at 23:30 and blocks at 12:00. *)
Theorem trading_hours_window_closed :
  (forall W st s e,
     time_filter_enabled (settings W) = true ->
     PyTime.strptime_HM (trade_start_time (settings W)) = Some s ->
     PyTime.strptime_HM (trade_end_time (settings W)) = Some e ->
     let t := PyTime.time_of_day (now_utc W (length (trace st))) in
     (s <= e -> ((is_trading_time_allowed W st).1 = true <-> s <= t <= e)) /\
     (e < s -> ((is_trading_time_allowed W st).1 = true <-> s <= t \/ t <= e))) /\
  (forall W st,
     time_filter_enabled (settings W) = true ->
     trade_start_time (settings W) = "22:00"%string ->
     trade_end_time (settings W) = "05:00"%string ->
     let t := PyTime.time_of_day (now_utc W (length (trace st))) in
     (t = PyTime.time_of 23 30 -> (is_trading_time_allowed W st).1 = true) /\
     (t = PyTime.time_of 12 0 -> (is_trading_time_allowed W st).1 = false)).
Proof.
  assert (Hmain : forall W st s e,
     time_filter_enabled (settings W) = true ->
     PyTime.strptime_HM (trade_start_time (settings W)) = Some s ->
     PyTime.strptime_HM (trade_end_time (settings W)) = Some e ->
     (is_trading_time_allowed W st).1 =
       let t := PyTime.time_of_day (now_utc W (length (trace st))) in
       if s <=? e then (s <=? t) && (t <=? e) else (s <=? t) || (t <=? e)).
  { intros W st s e Hen Hs He.
    pose proof (trading_time_check_parsed W st s e Hs He) as Hc.
    unfold is_trading_time_allowed, bind. rewrite Hen; simpl.
    destruct (trading_time_check W st) as [r st']; simpl in *. by subst r. }
  split.
  - intros W st s e Hen Hs He t. rewrite (Hmain W st s e Hen Hs He).
    fold t. split; intros Hord.
    + destruct (Z.leb_spec s e); [|lia].
      rewrite andb_true_iff, !Z.leb_le. done.
    + destruct (Z.leb_spec s e); [lia|].
      rewrite orb_true_iff, !Z.leb_le. done.
  - intros W st Hen Hs He t.
    rewrite (Hmain W st (PyTime.time_of 22 0) (PyTime.time_of 5 0) Hen);
      [|by rewrite Hs|by rewrite He].
    fold t. split; intros ->; by vm_compute.
Qed.

Lemma trading_hours_window_closed_witness :
  (is_trading_time_allowed (Examples.overnight_window_at 23 30)
     (Examples.idle true [])).1 = true /\
  (is_trading_time_allowed (Examples.overnight_window_at 12 0)
     (Examples.idle true [])).1 = false /\
  ((is_trading_time_allowed Examples.day_window_at_close
      (Examples.idle true [])).1 = true <->
   PyTime.time_of 9 0 <= PyTime.time_of_day (Examples.at_time 17 0)
     <= PyTime.time_of 17 0).
Proof.
  pose proof trading_hours_window_closed as [Hwin Hex].
  split; [|split].
  - apply (Hex (Examples.overnight_window_at 23 30) (Examples.idle true []));
      by vm_compute.
  - apply (Hex (Examples.overnight_window_at 12 0) (Examples.idle true []));
      by vm_compute.
  - apply (Hwin Examples.day_window_at_close (Examples.idle true []));
      by vm_compute.
Defined.



(** ** Closing all positions *)

Section CloseAll.

Variable W : World.

Lemma close_position_tally comment p t st :
  exists m, (close_position W comment p t st).1 = count_closed m t \/
            (close_position W comment p t st).1 = count_failed m t.
Proof.
  unfold close_position, bind, interact, ret; simpl.
  repeat case_match; simpl; eauto.
Qed.

Lemma close_positions_tally comment l : forall t st,
  let t' := (close_positions W comment l t st).1 in
  closed_count t' + failed_count t' = closed_count t + failed_count t + Z.of_nat (length l) /\
  closed_count t <= closed_count t' /\
  failed_count t <= failed_count t' /\
  length (summary_messages t') = (length (summary_messages t) + length l)%nat.
Proof.
  induction l as [|p l IH]; intros t st; simpl.
  - unfold ret; simpl. lia.
  - unfold bind. destruct (close_position_tally comment p t st) as [m Hm].
    destruct (close_position W comment p t st) as [t1 st1]; simpl in Hm.
    specialize (IH t1 st1); simpl in IH.
    destruct IH as (Hsum & Hc & Hf & Hlen).
    destruct Hm as [-> | ->]; simpl in *; rewrite ?length_app in *; simpl in *; lia.
Qed.

End CloseAll.

(** C6: when [close_all_trades] finds a non-empty list of matching
    open positions, every position of the list is counted once, as
    closed or as failed (the two counts add up to the length of the
    list); the call reports success exactly when the failed count is
    zero; and the returned message starts with the summary of both
    counts, followed by the per-position details. *)
Theorem close_all_summary_invariant :
  forall W magic comment st,
    let positions_to_close := (get_open_positions W None magic st).1 in
    positions_to_close <> [] ->
    exists t,
      (close_all_trades W magic comment st).1 =
        (failed_count t =? 0,
         close_all_summary magic t
         ++ [Lit " Details: "] ++ join_messages (summary_messages t)) /\
      closed_count t + failed_count t = Z.of_nat (length positions_to_close) /\
      0 <= closed_count t /\ 0 <= failed_count t /\
      length (summary_messages t) = length positions_to_close.
Proof.
  intros W magic comment st positions_to_close Hne.
  unfold close_all_trades, bind, is_connected, get; simpl.
  assert (Hc : connected st = true).
  { destruct (connected st) eqn:E; [done|]. exfalso. apply Hne.
    unfold positions_to_close, get_open_positions, bind, is_connected, get; simpl.
    by rewrite E. }
  rewrite Hc; simpl.
  subst positions_to_close.
  destruct (get_open_positions W None magic st) as [l st1]; simpl in *.
  destruct l as [|p l]; [done|].
  set (t0 := {| closed_count := 0; failed_count := 0; summary_messages := [] |}).
  pose proof (close_positions_tally W comment (p :: l) t0 st1) as Ht.
  destruct (close_positions W comment (p :: l) t0 st1) as [t st2]; simpl in Ht.
  destruct Ht as (Hsum & Hclosed & Hfailed & Hlen).
  exists t. unfold set_error, modify, ret; simpl.
  destruct (summary_messages t) eqn:Hm; [simpl in Hlen; lia|].
  repeat split; try done; lia.
Qed.

Lemma close_all_summary_invariant_witness :
  exists t,
    (close_all_trades CloseAllExample.world (Some 234000) "ManCloseAll M234000"
       (Examples.idle true [])).1 =
      (failed_count t =? 0,
       close_all_summary (Some 234000) t
       ++ [Lit " Details: "] ++ join_messages (summary_messages t)) /\
    closed_count t + failed_count t = 3 /\
    0 <= closed_count t /\ 0 <= failed_count t /\
    length (summary_messages t) = 3%nat.
Proof.
  apply (close_all_summary_invariant CloseAllExample.world (Some 234000)
           "ManCloseAll M234000" (Examples.idle true [])).
  by vm_compute.
Defined.

(** ** Connecting to the venue *)

Section Connect.

Variable W : World.

Lemma connect_connected st : connected st = true -> connect W st = (true, st).
Proof. intros H. unfold connect, bind, get; simpl. by rewrite H. Qed.

Lemma count_calls_app p t1 t2 :
  count_calls p (t1 ++ t2) = (count_calls p t1 + count_calls p t2)%nat.
Proof. unfold count_calls. by rewrite List.filter_app, length_app. Qed.

(** An attempt whose login converts makes one [initialize] call, and
    sleeps exactly when it fails before the last pass. *)
Lemma connect_attempt_calls attempt st login :
  int_of_login (mt5_login (settings W)) = IntOk login ->
  exists new,
    trace (connect_attempt W attempt st).2 = trace st ++ new /\
    count_calls is_initialize new = 1%nat /\
    count_calls is_sleep new =
      match (connect_attempt W attempt st).1 with
      | None => if attempt <? mt5_retries (settings W) - 1 then 1%nat else 0%nat
      | Some _ => 0%nat
      end.
Proof.
  intros Hlogin.
  unfold connect_attempt, on_exception, on_value_error, sleep_before_retry,
    set_error, bind, interact, modify, ret.
  rewrite Hlogin; simpl.
  repeat (case_match; simplify_eq/=);
    (eexists; split; [rewrite <- ?app_assoc; reflexivity | done]).
Qed.

Lemma connect_loop_calls login : forall n attempt st,
  int_of_login (mt5_login (settings W)) = IntOk login ->
  attempt + Z.of_nat n = mt5_retries (settings W) ->
  exists new,
    trace (connect_loop W n attempt st).2 = trace st ++ new /\
    match (connect_loop W n attempt st).1 with
    | Some _ => (1 <= count_calls is_initialize new <= n)%nat /\
                count_calls is_sleep new = pred (count_calls is_initialize new)
    | None => count_calls is_initialize new = n /\
              count_calls is_sleep new = pred n
    end.
Proof.
  induction n as [|n IH]; intros attempt st Hlogin Hn; simpl.
  - exists []. unfold ret; simpl. by rewrite app_nil_r.
  - unfold bind.
    destruct (connect_attempt_calls attempt st login Hlogin) as (new1 & Ht1 & Hi1 & Hs1).
    destruct (connect_attempt W attempt st) as [r st1]; simpl in *.
    destruct r as [b|].
    + exists new1. unfold ret; simpl. split; [done|]. rewrite Hi1, Hs1. lia.
    + destruct (IH (attempt + 1) st1 Hlogin ltac:(lia)) as (new2 & Ht2 & H2).
      exists (new1 ++ new2). rewrite Ht2, Ht1, app_assoc. split; [done|].
      rewrite !count_calls_app, Hi1, Hs1.
      destruct (Z.ltb_spec attempt (mt5_retries (settings W) - 1));
        destruct (connect_loop W n (attempt + 1) st1).1; lia.
Qed.

(** A pass that lets the loop go on leaves a reason behind. *)
Lemma connect_attempt_reason attempt st :
  (connect_attempt W attempt st).1 = None ->
  text_empty (last_raw_error_message (connect_attempt W attempt st).2) = false.
Proof.
  unfold connect_attempt, on_exception, on_value_error, sleep_before_retry,
    set_error, bind, interact, modify, ret.
  repeat (case_match; simplify_eq/=); done.
Qed.

(** When the loop runs out, its final state is the one left by the
    last pass. *)
Lemma connect_loop_exhausted : forall n attempt st st',
  connect_loop W (S n) attempt st = (None, st') ->
  exists before_last,
    connect_attempt W (attempt + Z.of_nat n) before_last = (None, st').
Proof.
  induction n as [|n IH]; intros attempt st st' H.
  - exists st. replace (attempt + Z.of_nat 0) with attempt by lia.
    simpl in H. unfold bind in H.
    destruct (connect_attempt W attempt st) as [[b|] st1]; [done|].
    unfold ret in H. by inversion H.
  - change (connect_loop W (S (S n)) attempt st)
      with (bind (connect_attempt W attempt)
              (fun r => match r with
                        | Some b => ret (Some b)
                        | None => connect_loop W (S n) (attempt + 1)
                        end) st) in H.
    unfold bind in H.
    destruct (connect_attempt W attempt st) as [[b|] st1]; [done|].
    destruct (IH _ _ _ H) as (before_last & Hlast).
    exists before_last. by replace (attempt + Z.of_nat (S n))
      with (attempt + 1 + Z.of_nat n) by lia.
Qed.

End Connect.



(** ** Lot sizing *)

Section FloatFacts.

Lemma ltb_irrefl x : (x <? x)%float = false.
Proof.
  rewrite FloatAxioms.ltb_spec. unfold SFltb, SFcompare.
  destruct (Prim2SF x) as [s| s| |s m e]; try done; destruct s; try done;
    by rewrite Z.compare_refl, Pos.compare_refl.
Qed.

Lemma positive_not_zero a : (0 <? a)%float = true -> (a =? 0)%float = false.
Proof.
  rewrite FloatAxioms.ltb_spec, FloatAxioms.eqb_spec.
  change (Prim2SF 0) with (S754_zero false).
  unfold SFltb, SFeqb, SFcompare.
  destruct (Prim2SF a) as [s| s| |s m e]; try done; by destruct s.
Qed.

Lemma py_round_finite q :
  is_nan q = false -> is_infinity q = false -> exists k, py_round q = Ok k.
Proof.
  intros Hnan Hinf. unfold py_round, Prim2SF. rewrite Hnan, Hinf.
  destruct (is_zero q); [by eauto|].
  destruct (Z.frexp q) as [r e].
  destruct (shr_fexp _ _ _ _ _) as [shr e'].
  destruct (shr_m shr); by eauto.
Qed.

Lemma py_round_ndigits_total x n : 0 <= n -> exists r, py_round_ndigits x n = Ok r.
Proof.
  intros Hn. unfold py_round_ndigits.
  destruct (Prim2SF x) as [s| s| |s m e]; eauto.
  destruct (323 <? n); eauto.
  destruct (n <? -308); eauto.
  unfold double_round. destruct (Z.leb_spec 0 n); [|lia].
  destruct (scaled_rne m e (10 ^ n)); eauto.
Qed.

Lemma py_div_hundred x : py_div x 100 = Ok (x / 100)%float.
Proof. reflexivity. Qed.

Lemma py_div_nonzero x y : (y =? 0)%float = false -> py_div x y = Ok (x / y)%float.
Proof. intros H. unfold py_div. by rewrite H. Qed.

Lemma volume_digits_precision_nonneg info : 0 <= volume_digits_precision info.
Proof.
  unfold volume_digits_precision.
  assert (0 <= match fixed10_fraction_digits (volume_step info) with
               | Some d => if 0 <? d then d else 2
               | None => 2
               end).
  { destruct (fixed10_fraction_digits (volume_step info)) as [d|]; [|lia].
    destruct (Z.ltb_spec 0 d); lia. }
  destruct (volume_digits info) as [d|]; [|done].
  destruct (Z.leb_spec 0 d); lia.
Qed.

End FloatFacts.

Section LotSize.

Variable W : World.

Lemma convert_point_value_total value profit account st :
  exists v, (convert_point_value W value profit account st).1 = Ok v.
Proof.
  unfold convert_point_value, bind, ret.
  destruct (negb (String.eqb profit account)); [|by eauto].
  destruct (get_tick W (profit +:+ account) st) as [tick1 st1]; simpl.
  destruct (tick1 ≫= _); [by eauto|].
  destruct (get_tick W (account +:+ profit) st1) as [tick2 st2]; simpl.
  destruct tick2 as [t|]; simpl; [|by eauto].
  destruct (0 <? ask t)%float eqn:Hask; simpl; [|by eauto].
  rewrite (py_div_nonzero _ _ (positive_not_zero _ Hask)). simpl. by eauto.
Qed.

(** The lot returned when the stop-loss distance or a divisor is
    unusable: [round(max(volume_min, 0.01), volume_digits_precision)]. *)
Definition minimum_lot (info : SymbolInfo) : pyres float :=
  py_round_ndigits
    (py_max (if (volume_min info <=? 0)%float then 0.01%float else volume_min info)
            0.01)
    (volume_digits_precision info).

(** The state in which the point value is converted: the account and
    the symbol have been asked for. *)
Definition after_lookups (symbol : string) (st : State) : State :=
  set_trace ((trace st ++ [CallAccountInfo]) ++ [CallSymbolInfo symbol])
    (set_trace (trace st ++ [CallAccountInfo]) st).

(** What [calculate_lot_size_advanced] computes once the account and
    the symbol are known. *)
Lemma calculate_lot_size_known symbol risk sl st acc info :
  connected st = true ->
  (risk <=? 0)%float = false ->
  mt5_account_info W (length (trace st)) = Some acc ->
  mt5_symbol_info W (S (length (trace st))) symbol = Some info ->
  (calculate_lot_size_advanced W symbol risk sl st).1 =
    if (sl <=? 0)%float then minimum_lot info
    else if (trade_contract_size info =? 0)%float || (point info =? 0)%float
    then minimum_lot info
    else if (trade_contract_size info * point info =? 0)%float
    then minimum_lot info
    else
      match (convert_point_value W (trade_contract_size info * point info)
               (currency_profit info) (currency acc) (after_lookups symbol st)).1 with
      | Raise e => Raise e
      | Ok value_account_curr =>
          if (value_account_curr =? 0)%float then minimum_lot info
          else if (sl * value_account_curr =? 0)%float then minimum_lot info
          else adjust_lot (balance acc * risk / 100 / (sl * value_account_curr))
                 (if (volume_min info <=? 0)%float then 0.01%float
                  else volume_min info)
                 (volume_max info)
                 (if (volume_step info <=? 0)%float then 0.01%float
                  else volume_step info)
                 (volume_digits_precision info)
      end.
Proof.
  intros Hc Hrisk Hacc Hinfo.
  unfold calculate_lot_size_advanced, get_account_info, get_symbol_info,
    is_connected, bind, get, interact, ret; simpl.
  repeat (first [rewrite Hc | rewrite Hrisk | rewrite Hacc | rewrite Hinfo
                 | rewrite length_app, Nat.add_1_r]; simpl).
  fold (minimum_lot info). fold (after_lookups symbol st).
  destruct (sl <=? 0)%float; [done|].
  rewrite ?py_div_hundred; simpl.
  destruct ((trade_contract_size info =? 0)%float || (point info =? 0)%float);
    [done|].
  destruct (trade_contract_size info * point info =? 0)%float; [done|].
  destruct (convert_point_value W _ _ _ (after_lookups symbol st)) as [[x|e] st'];
    simpl; [|done].
  destruct (x =? 0)%float; [done|].
  destruct (sl * x =? 0)%float eqn:Hz; [done|].
  by rewrite (py_div_nonzero _ _ Hz).
Qed.

(** Lines 722-740 on a raw lot whose clamped value divides by the step
    into a finite number. *)
Lemma adjust_lot_bounds raw vmin vmax step digits :
  0 <= digits ->
  (0 <? step)%float = true ->
  let q := (py_min (py_max raw vmin) vmax / step)%float in
  is_nan q = false ->
  is_infinity q = false ->
  exists k v,
    py_round q = Ok k /\
    adjust_lot raw vmin vmax step digits = Ok v /\
    (v <? vmin)%float = false /\
    (v = vmin \/ py_round_ndigits (float_of_Z k * step) digits = Ok v).
Proof.
  intros Hd Hstep q Hnan Hinf.
  destruct (py_round_finite q Hnan Hinf) as [k Hk].
  destruct (py_round_ndigits_total (float_of_Z k * step) digits Hd) as [r Hr].
  unfold adjust_lot. rewrite Hstep.
  rewrite (py_div_nonzero _ _ (positive_not_zero _ Hstep)). simpl.
  fold q. rewrite Hk; simpl. rewrite Hr; simpl.
  exists k. eexists. split; [done|]. split; [done|].
  destruct (r <? vmin)%float eqn:Hlt.
  - destruct ((vmin =? 0)%float && (0 <? vmin)%float);
      (split; [apply ltb_irrefl|by left]).
  - destruct ((r =? 0)%float && (0 <? vmin)%float).
    + split; [apply ltb_irrefl|by left].
    + split; [done|by right].
Qed.

End LotSize.

(** C3, as stated, fails: for a symbol whose smallest lot is 0.001 a
    zero stop-loss distance gives 0.01, not the symbol's minimum. *)
Lemma lot_size_fallback_not_volume_min :
  (calculate_lot_size_advanced (LotExample.world LotExample.micro_info)
     "BTCUSD" 1 0 (Examples.idle true [])).1 = Ok 0.01%float /\
  volume_min LotExample.micro_info = 0.001%float /\
  (0.001 <? 0.01)%float = true.
Proof. by vm_compute. Qed.

(** C3, amended: with the venue connected, a positive risk percent and
    the account and symbol information available, a stop-loss distance
    that is not positive, and likewise a zero contract size or point
    size, makes the computation return, without raising,
    [max(m, 0.01)] rounded to the volume-precision digits, where [m] is
    the symbol's minimum volume, or 0.01 when that minimum is not
    positive. *)
Theorem lot_size_minimum_fallback :
  forall W symbol risk sl st acc info,
    connected st = true ->
    (risk <=? 0)%float = false ->
    mt5_account_info W (length (trace st)) = Some acc ->
    mt5_symbol_info W (S (length (trace st))) symbol = Some info ->
    (sl <=? 0)%float = true \/
    (trade_contract_size info =? 0)%float = true \/
    (point info =? 0)%float = true ->
    exists v,
      (calculate_lot_size_advanced W symbol risk sl st).1 = Ok v /\
      py_round_ndigits
        (py_max (if (volume_min info <=? 0)%float then 0.01%float
                 else volume_min info) 0.01)
        (volume_digits_precision info) = Ok v.
Proof.
  intros W symbol risk sl st acc info Hc Hrisk Hacc Hinfo Hcase.
  pose proof (calculate_lot_size_known W symbol risk sl st acc info
                Hc Hrisk Hacc Hinfo) as Hx.
  destruct (py_round_ndigits_total
              (py_max (if (volume_min info <=? 0)%float then 0.01%float
                       else volume_min info) 0.01)
              (volume_digits_precision info)
              (volume_digits_precision_nonneg info)) as [v Hv].
  exists v. split; [|done]. rewrite Hx. unfold minimum_lot. rewrite Hv.
  destruct (sl <=? 0)%float; [done|].
  destruct Hcase as [?|[->| ->]]; [done|done|].
  by rewrite orb_true_r.
Qed.

Lemma lot_size_minimum_fallback_witness :
  exists v,
    (calculate_lot_size_advanced (LotExample.world Examples.gold_info)
       "XAUUSD" 1 0 (Examples.idle true [])).1 = Ok v /\
    py_round_ndigits (py_max 0.01 0.01) 2 = Ok v.
Proof.
  apply (lot_size_minimum_fallback (LotExample.world Examples.gold_info)
           "XAUUSD" 1 0 (Examples.idle true [])
           Examples.usd_account Examples.gold_info);
    try (by vm_compute).
  left. by vm_compute.
Defined.


(** The clamped lot is rounded to the step after the clamp, and only
    the minimum is checked again: with maximum 1.06 and step 0.1 the
    computation returns 1.1. *)
Example lot_size_above_volume_max :
  (calculate_lot_size_advanced (LotExample.world LotExample.odd_max_info)
     "XAUUSD" 1 50 (Examples.idle true [])).1 = Ok 1.1%float /\
  (volume_max LotExample.odd_max_info <? 1.1)%float = true.
Proof. by vm_compute. Qed.



(** ** Operations that only talk to the outside *)

(** [st'] is [st] after some interactions, none of them an order
    submission. *)
Definition quiet (st st' : State) : Prop :=
  exists t, st' = set_trace (trace st ++ t) st /\ count_calls is_order_send t = 0%nat.

Definition quiet_op {A} (m : M A) : Prop := forall st, quiet st (m st).2.

Lemma quiet_refl st : quiet st st.
Proof. exists []. rewrite app_nil_r. by destruct st. Qed.

Lemma quiet_trans st1 st2 st3 : quiet st1 st2 -> quiet st2 st3 -> quiet st1 st3.
Proof.
  intros (t1 & -> & H1) (t2 & -> & H2). exists (t1 ++ t2). split.
  - simpl. by rewrite app_assoc.
  - rewrite count_calls_app. lia.
Qed.

Lemma quiet_op_ret {A} (a : A) : quiet_op (ret a).
Proof. intros st. apply quiet_refl. Qed.

Lemma quiet_op_get {A} (f : State -> A) : quiet_op (get f).
Proof. intros st. apply quiet_refl. Qed.

Lemma quiet_op_bind {A B} (m : M A) (k : A -> M B) :
  quiet_op m -> (forall a, quiet_op (k a)) -> quiet_op (bind m k).
Proof.
  intros Hm Hk st. unfold bind. specialize (Hm st).
  destruct (m st) as [a st1]. eapply quiet_trans; [done|apply Hk].
Qed.

Lemma quiet_op_interact {A} c (answer : nat -> A) :
  is_order_send c = false -> quiet_op (interact c answer).
Proof.
  intros Hc st. exists [c]. split; [done|].
  unfold count_calls; simpl. by rewrite Hc.
Qed.

Lemma quiet_op_if {A} (b : bool) (m1 m2 : M A) :
  quiet_op m1 -> quiet_op m2 -> quiet_op (if b then m1 else m2).
Proof. by destruct b. Qed.

Ltac quiet_tac :=
  repeat first
    [ apply quiet_op_ret
    | apply quiet_op_get
    | apply quiet_op_interact; reflexivity
    | apply quiet_op_bind; [|intros ?]
    | apply quiet_op_if
    | progress case_match ].

Section QuietOps.

Variable W : World.

Lemma quiet_get_symbol_info symbol : quiet_op (get_symbol_info W symbol).
Proof. unfold get_symbol_info, is_connected. quiet_tac. Qed.

Lemma quiet_get_tick symbol : quiet_op (get_tick W symbol).
Proof. unfold get_tick, is_connected. quiet_tac. Qed.

Lemma quiet_get_account_info : quiet_op (get_account_info W).
Proof. unfold get_account_info, is_connected. quiet_tac. Qed.

Lemma quiet_get_current_spread symbol : quiet_op (get_current_spread W symbol).
Proof.
  unfold get_current_spread, is_connected.
  quiet_tac; auto using quiet_get_tick, quiet_get_symbol_info.
Qed.

Lemma quiet_is_trading_time_allowed : quiet_op (is_trading_time_allowed W).
Proof. unfold is_trading_time_allowed, trading_time_check. quiet_tac. Qed.

Lemma quiet_convert_point_value value profit account :
  quiet_op (convert_point_value W value profit account).
Proof. unfold convert_point_value. quiet_tac; auto using quiet_get_tick. Qed.

Lemma quiet_calculate_lot_size_advanced symbol risk sl :
  quiet_op (calculate_lot_size_advanced W symbol risk sl).
Proof.
  unfold calculate_lot_size_advanced, is_connected.
  quiet_tac;
    auto using quiet_get_symbol_info, quiet_get_account_info,
      quiet_convert_point_value.
Qed.

Lemma quiet_min_interval_verdict is_auto_trade symbol :
  quiet_op (min_interval_verdict W is_auto_trade symbol).
Proof. unfold min_interval_verdict. quiet_tac. Qed.

End QuietOps.

(** ** The execution attempt, step by step *)

Definition wpE {A} (m : E A) (Q : A -> State -> Prop)
    (R : outcome -> State -> Prop) (st : State) : Prop :=
  wp m (fun f st' =>
          match f with
          | Continue a => Q a st'
          | Return r => R r st'
          end) st.

Lemma wpE_ebind {A B} (m : E A) (k : A -> E B) (Q1 : A -> State -> Prop) Q R st :
  wpE m Q1 R st ->
  (forall a st', Q1 a st' -> wpE (k a) Q R st') ->
  wpE (ebind m k) Q R st.
Proof.
  unfold wpE, wp, ebind, bind. intros Hm Hk.
  destruct (m st) as [[a|r] st1]; simpl in *; [by apply Hk|done].
Qed.

Lemma wpE_raise {A} (r : pyres A) (Q : A -> State -> Prop)
    (R : outcome -> State -> Prop) st :
  (forall a, r = Ok a -> Q a st) -> (forall e, r = Raise e -> R (Raise e) st) ->
  wpE (raise r) Q R st.
Proof. unfold wpE, wp, raise. destruct r; simpl; auto. Qed.

Lemma wp_quiet {A} (m : M A) (Q : A -> State -> Prop) st :
  quiet_op m -> (forall a st', quiet st st' -> Q a st') -> wp m Q st.
Proof. intros Hm HQ. apply HQ, Hm. Qed.

(** What an attempt has not touched so far: the program points it
    went through are [path], the last-trade times are as they were,
    and no order was submitted. *)
Definition Frame (st0 : State) (path : list step) (st : State) : Prop :=
  steps st = steps st0 ++ path /\
  last_trade_time st = last_trade_time st0 /\
  exists t, trace st = trace st0 ++ t /\ count_calls is_order_send t = 0%nat.

(** The same, with the rows of the ledger untouched as well. *)
Definition Inv (st0 : State) (path : list step) (st : State) : Prop :=
  Frame st0 path st /\ df_signals st = df_signals st0.

Lemma Frame_start st : Frame st [] st.
Proof.
  unfold Frame. rewrite app_nil_r. repeat split.
  exists []. by rewrite app_nil_r.
Qed.

Lemma Frame_quiet st0 path st st' : Frame st0 path st -> quiet st st' -> Frame st0 path st'.
Proof.
  intros (Hs & Hl & t & Ht & Hn) (t' & -> & Hn'). repeat split; try done.
  exists (t ++ t'). simpl. rewrite Ht, app_assoc. split; [done|].
  rewrite count_calls_app. lia.
Qed.

Lemma Inv_quiet st0 path st st' : Inv st0 path st -> quiet st st' -> Inv st0 path st'.
Proof.
  intros [HF Hd] Hq. split; [by eapply Frame_quiet|].
  by destruct Hq as (t' & -> & _).
Qed.

Lemma Frame_reach st0 path st s :
  Frame st0 path st -> Frame st0 (path ++ [s]) (set_steps (steps st ++ [s]) st).
Proof.
  intros (Hs & Hl & Ht). repeat split; try done.
  simpl. by rewrite Hs, app_assoc.
Qed.

Lemma Inv_reach st0 path st s :
  Inv st0 path st -> Inv st0 (path ++ [s]) (set_steps (steps st ++ [s]) st).
Proof. intros [HF Hd]. split; [by apply Frame_reach|done]. Qed.

Lemma Frame_rows st0 path st rows :
  Frame st0 path st -> Frame st0 path (set_df_signals rows st).
Proof. by intros (Hs & Hl & Ht). Qed.

(** Writing a note leaves the frame alone. *)
Lemma wp_update_frame st0 path t symbol status note st :
  Frame st0 path st ->
  wp (_update_signal_status_in_df t symbol status note)
     (fun _ st' => Frame st0 path st') st.
Proof.
  intros HF. unfold _update_signal_status_in_df.
  destruct t; [apply wp_modify; by apply Frame_rows|by apply wp_ret].
Qed.

Lemma note_signal_rows s status note st :
  df_signals (note_signal s status note st).2
  = rows_after_note true s status note (df_signals st).
Proof.
  unfold note_signal, rows_after_note, time_truthy, _update_signal_status_in_df.
  destruct (time s); simpl; [|done].
  by destruct (string_truthy (Symbol s)).
Qed.

Lemma note_signal_frame st0 path s status note st :
  Frame st0 path st -> Frame st0 path (note_signal s status note st).2.
Proof.
  intros HF. unfold note_signal.
  destruct (time_truthy (time s) && string_truthy (Symbol s)); [|done].
  by apply (wp_update_frame st0 path (time s) (Symbol s) status note st).
Qed.

(** A blocked attempt that is not blamed on a gate keeps the frame. *)
Lemma wpE_block_frame {A} st0 path s note (Q : A -> State -> Prop) st :
  Frame st0 path st ->
  wpE (block s note) Q (fun _ st' => Frame st0 path st') st.
Proof.
  intros HF. unfold wpE, wp, block, bind, ret.
  pose proof (note_signal_frame st0 path s false note st HF).
  by destruct (note_signal s false note st).
Qed.

Section Pipeline.

Variable W : World.
Variable signal_data : option Signal.
Variable is_auto_trade : bool.
Variable st0 : State.

(** Where the signal of the attempt comes from: the caller, or the
    row picked in the table. *)
Definition origin (s : Signal) : Prop :=
  signal_data = Some s \/
  (signal_data = None /\
   exists i, ui_selected_row W i (df_signals st0) = RowSelected s).

(** The rows of the ledger after gate number [k] (from zero) blocked
    the attempt with [reason]. *)
Definition noted (k : nat) (reason : text) (st' : State) : Prop :=
  match signal_data with
  | Some s =>
      df_signals st' = rows_after_note (3 <=? k)%nat s false reason (df_signals st0)
  | None =>
      if (k <? 3)%nat then df_signals st' = df_signals st0
      else exists i s,
             ui_selected_row W i (df_signals st0) = RowSelected s /\
             df_signals st' = rows_after_note true s false reason (df_signals st0)
  end.

(** The ways an attempt ends. *)
Inductive attempt_end : outcome -> State -> Prop :=
| end_blocked k g reason st' :
    gate_order !! k = Some g ->
    Frame st0 (passed k ++ [Gate g false]) st' ->
    noted k reason st' ->
    attempt_end (Ok (false, Message reason)) st'
| end_stopped k r st' :
    (k <= 6)%nat ->
    Frame st0 (passed k) st' ->
    attempt_end r st'
| end_sized r st' :
    Frame st0 (passed 6 ++ [Sizing]) st' ->
    attempt_end r st'
| end_submitted r st' :
    steps st' = steps st0 ++ passed 6 ++ [Sizing; Submission] ->
    (last_trade_time st' = last_trade_time st0 \/
     exists res symbol now,
       r = Ok (true, Result res) /\
       last_trade_time st' = <[symbol := now]> (last_trade_time st0)) ->
    attempt_end r st'.

Lemma wpE_block_before_selection {A} k g note (Q : A -> State -> Prop) st :
  gate_order !! k = Some g -> (k < 3)%nat ->
  Inv st0 (passed k ++ [Gate g false]) st ->
  wpE (block_before_selection signal_data note) Q attempt_end st.
Proof.
  intros Hg Hk [HF Hd]. unfold wpE, wp, block_before_selection, bind, ret.
  destruct signal_data as [s|] eqn:Hsd; simpl.
  - pose proof (wp_update_frame st0 _ (time s) (Symbol s) false note st HF) as HF'.
    unfold wp in HF'.
    assert (Hrows : df_signals (_update_signal_status_in_df (time s) (Symbol s)
                                  false note st).2
                    = rows_after_note false s false note (df_signals st)).
    { unfold _update_signal_status_in_df, rows_after_note. by destruct (time s). }
    destruct (_update_signal_status_in_df (time s) (Symbol s) false note st)
      as [u st1]; simpl in *.
    eapply end_blocked; [done|done|]. unfold noted. rewrite Hsd, Hrows, Hd.
    by replace (3 <=? k)%nat with false by (symmetry; apply Nat.leb_gt; lia).
  - eapply end_blocked; [done|done|]. unfold noted. rewrite Hsd.
    by replace (k <? 3)%nat with true by (symmetry; apply Nat.ltb_lt; lia).
Qed.

Lemma wpE_block_gate {A} k g s note (Q : A -> State -> Prop) st :
  gate_order !! k = Some g -> (3 <= k)%nat ->
  origin s ->
  Inv st0 (passed k ++ [Gate g false]) st ->
  wpE (block s note) Q attempt_end st.
Proof.
  intros Hg Hk Ho [HF Hd]. unfold wpE, wp, block, bind, ret.
  pose proof (note_signal_frame st0 _ s false note st HF) as HF'.
  pose proof (note_signal_rows s false note st) as Hrows.
  destruct (note_signal s false note st) as [u st1]; simpl in *.
  eapply end_blocked; [done|done|]. unfold noted.
  replace (3 <=? k)%nat with true by (symmetry; apply Nat.leb_le; lia).
  replace (k <? 3)%nat with false by (symmetry; apply Nat.ltb_ge; lia).
  rewrite Hrows, Hd.
  destruct Ho as [-> | [-> (i & Hi)]]; [done|]. by exists i, s.
Qed.

(** 1. Check Time Filter *)
Lemma spec_check_time_filter st :
  Inv st0 (passed 0) st ->
  wpE (check_time_filter W signal_data is_auto_trade)
      (fun _ st' => Inv st0 (passed 1) st') attempt_end st.
Proof.
  intros HI. unfold check_time_filter, wpE.
  apply wp_bind, wp_quiet; [apply quiet_is_trading_time_allowed|].
  intros allowed st1 Hq. apply wp_bind, wp_reach.
  pose proof (Inv_reach _ _ _ (Gate TradingHours allowed) (Inv_quiet _ _ _ _ HI Hq)) as HI'.
  destruct allowed; simpl; [by apply wp_ret|].
  apply (wpE_block_before_selection 0 TradingHours); [done|lia|done].
Qed.

(** 2. Check News Filter *)
Lemma spec_check_news_filter st :
  Inv st0 (passed 1) st ->
  wpE (check_news_filter W signal_data is_auto_trade)
      (fun _ st' => Inv st0 (passed 2) st') attempt_end st.
Proof.
  intros HI. unfold check_news_filter, wpE.
  apply wp_bind, wp_get. apply wp_bind, wp_reach.
  set (halted := negb (trading_allowed_by_news st) && halt_trades_on_news (settings W)).
  pose proof (Inv_reach _ _ _ (Gate News (negb halted)) HI) as HI'.
  destruct halted; simpl; [|by apply wp_ret].
  apply (wpE_block_before_selection 1 News); [done|lia|done].
Qed.

(** 3. Check MT5 Connection *)
Lemma spec_check_connection st :
  Inv st0 (passed 2) st ->
  wpE (check_connection signal_data is_auto_trade)
      (fun _ st' => Inv st0 (passed 3) st') attempt_end st.
Proof.
  intros HI. unfold check_connection, wpE.
  apply wp_bind, wp_get. apply wp_bind, wp_reach.
  pose proof (Inv_reach _ _ _ (Gate Connectivity (connected st)) HI) as HI'.
  destruct (connected st); simpl; [by apply wp_ret|].
  apply (wpE_block_before_selection 2 Connectivity); [done|lia|done].
Qed.

(** 4. Get Signal Data if not provided *)
Lemma spec_get_signal_data st :
  Inv st0 (passed 3) st ->
  wpE (get_signal_data W signal_data)
      (fun s st' => Inv st0 (passed 3) st' /\ origin s) attempt_end st.
Proof.
  intros HI. unfold get_signal_data, wpE, origin.
  destruct signal_data as [s|]; [apply wp_ret; by auto|].
  apply wp_bind, wp_get. apply wp_bind, wp_interact.
  assert (Hq : quiet st (set_trace (trace st ++ [CallSelectedRow]) st)).
  { by exists [CallSelectedRow]. }
  pose proof (Inv_quiet _ _ _ _ HI Hq) as HI'.
  destruct HI as [_ Hd]. rewrite Hd.
  destruct (ui_selected_row W (length (trace st)) (df_signals st0)) eqn:Hsel;
    apply wp_ret.
  - apply (end_stopped 3); [lia|apply HI'].
  - apply (end_stopped 3); [lia|apply HI'].
  - split; [done|]. right. split; [done|]. by eexists.
Qed.

(** 5. Validate Signal Type and Symbol *)
Lemma spec_validate_signal s order_type_override st :
  Inv st0 (passed 3) st -> origin s ->
  wpE (validate_signal s order_type_override is_auto_trade)
      (fun _ st' => Inv st0 (passed 4) st') attempt_end st.
Proof.
  intros HI Ho. unfold validate_signal, wpE.
  apply wp_bind, wp_reach.
  match goal with
  | |- context [Gate SignalValidity ?b] =>
      pose proof (Inv_reach _ _ _ (Gate SignalValidity b) HI) as HI'
  end.
  destruct (order_type_valid (final_order_type s order_type_override)); simpl in *.
  - destruct (symbol_missing (Symbol s)); simpl in *; [|by apply wp_ret].
    apply (wpE_block_gate 3 SignalValidity); [done|lia|done|done].
  - apply (wpE_block_gate 3 SignalValidity); [done|lia|done|done].
Qed.

(** 6. Check Minimum Trade Interval *)
Lemma spec_check_min_interval s st :
  Inv st0 (passed 4) st -> origin s ->
  wpE (check_min_interval W s is_auto_trade)
      (fun _ st' => Inv st0 (passed 5) st') attempt_end st.
Proof.
  intros HI Ho. unfold check_min_interval, wpE.
  apply wp_bind, wp_quiet; [apply quiet_min_interval_verdict|].
  intros verdict st1 Hq. pose proof (Inv_quiet _ _ _ _ HI Hq) as HI1.
  destruct verdict as [note|]; apply wp_bind, wp_reach.
  - apply (wpE_block_gate 4 ReentryInterval); try done; [lia|].
    by apply Inv_reach.
  - apply wp_ret. by apply (Inv_reach st0 (passed 4) _ (Gate ReentryInterval true)).
Qed.

(** 7. Get Symbol Info from MT5 *)
Lemma spec_fetch_symbol_info s st :
  Inv st0 (passed 5) st ->
  wpE (fetch_symbol_info W s is_auto_trade)
      (fun _ st' => Inv st0 (passed 5) st') attempt_end st.
Proof.
  intros HI. unfold fetch_symbol_info, wpE.
  apply wp_bind, wp_quiet; [apply quiet_get_symbol_info|].
  intros info st1 Hq. pose proof (Inv_quiet _ _ _ _ HI Hq) as [HF1 Hd1].
  destruct info; [by apply wp_ret|].
  eapply wp_mono;
    [by apply (wpE_block_frame st0 (passed 5) _ _ (fun _ _ => False))|].
  intros [a|r] st2; [done|]. intros HF2. by apply (end_stopped 5); [lia|].
Qed.

(** 8. Check Spread *)
Lemma spec_check_spread s st :
  Inv st0 (passed 5) st -> origin s ->
  wpE (check_spread W s is_auto_trade)
      (fun _ st' => Inv st0 (passed 6) st') attempt_end st.
Proof.
  intros HI Ho. unfold check_spread, wpE.
  apply wp_bind, wp_quiet; [apply quiet_get_current_spread|].
  intros live st1 Hq. pose proof (Inv_quiet _ _ _ _ HI Hq) as HI1.
  destruct (match live with Some z => Some z | None => spread_pips s end)
    as [spread|].
  - destruct ((0 <? max_allowed_spread W (Symbol s))
              && (max_allowed_spread W (Symbol s) <? spread));
      apply wp_bind, wp_reach.
    + apply (wpE_block_gate 5 Spread); try done; [lia|]. by apply Inv_reach.
    + apply wp_ret. by apply (Inv_reach st0 (passed 5) _ (Gate Spread true)).
  - apply wp_bind, wp_reach.
    apply (wpE_block_gate 5 Spread); try done; [lia|]. by apply Inv_reach.
Qed.

End Pipeline.

(** ** Submission and its result *)

Section Submission.

Variable W : World.

Arguments _get_retcode_description : simpl never.
Arguments PyStr.take : simpl never.

(** [send_order] touches the error text and the trace only. *)
Lemma send_order_frame symbol order_type volume price sl tp comment st :
  let st' := (send_order W symbol order_type volume price sl tp comment st).2 in
  steps st' = steps st /\
  last_trade_time st' = last_trade_time st /\
  df_signals st' = df_signals st /\
  saved_signals st' = saved_signals st /\
  auto_trade_locked st' = auto_trade_locked st.
Proof.
  unfold send_order, is_connected, set_error, bind, get, modify, interact, ret.
  cbn.
  destruct (connected st); cbn; [|done].
  destruct (mt5_symbol_info_tick W _ _); cbn; [|done].
  destruct (if String.eqb _ _ then _ else _) as [[ty pr]|]; cbn; [|done].
  destruct (pr <=? 0)%float; cbn; [done|].
  destruct (mt5_order_check W _ _) as [c|]; cbn; [|done].
  destruct (negb _); cbn; [done|].
  destruct (mt5_order_send W _ _) as [r|]; cbn; [|done].
  by destruct (_ || _).
Qed.

Lemma lookup_new {A} (l new : list A) i x :
  (length l <= i)%nat -> (l ++ new) !! i = Some x ->
  exists j, i = (length l + j)%nat /\ new !! j = Some x.
Proof.
  intros Hi Hl. exists (i - length l)%nat. split; [lia|].
  by rewrite lookup_app_r in Hl.
Qed.

Definition order_send_failed (code : Z) (description : string) : text :=
  [Lit "Order send failed: "] ++ _get_retcode_description code
  ++ [Lit " ("; Lit description; Lit ")"].

Definition order_send_rejected (r : OrderSendResult) : text :=
  [Lit "Order send failed: "; Lit (result_comment r); Lit " (Code: ";
   Int (retcode r); Lit " - "]
  ++ _get_retcode_description (retcode r) ++ [Lit ")"].

(** No submission among the calls [new] made after [l]. *)
Ltac no_submission :=
  let Hi := fresh in let Hl := fresh in let j := fresh "j" in let Hj := fresh in
  intros ? ? Hi Hl; exfalso;
  rewrite <- ?app_assoc in Hl; cbn in Hl;
  first
    [ apply lookup_new in Hl as (j & _ & Hj); [|exact Hi];
      do 5 (try (destruct j as [|j]; [by inversion Hj|])); by inversion Hj
    | by rewrite lookup_ge_None_2 in Hl ].

(** What [send_order] returns is decided by the venue's answer to the
    submission it makes. *)
Lemma send_order_resolution symbol order_type volume price sl tp comment st :
  let sent := send_order W symbol order_type volume price sl tp comment st in
  (forall i req,
     (length (trace st) <= i)%nat ->
     trace sent.2 !! i = Some (CallOrderSend req) ->
     match mt5_order_send W i req with
     | None =>
         sent.1 = (false, Message (order_send_failed (mt5_last_error W (S i)).1
                                                     (mt5_last_error W (S i)).2))
     | Some r =>
         if (retcode r =? TRADE_RETCODE_DONE) || (retcode r =? TRADE_RETCODE_PLACED)
         then sent.1 = (true, Result r)
         else sent.1 = (false, Message (order_send_rejected r))
     end) /\
  (sent.1.1 = true ->
   exists i req r,
     (length (trace st) <= i)%nat /\
     trace sent.2 !! i = Some (CallOrderSend req) /\
     mt5_order_send W i req = Some r /\
     sent.1.2 = Result r) /\
  (forall r, sent.1.2 = Result r -> sent.1.1 = true).
Proof.
  unfold send_order, is_connected, set_error, bind, get, modify, interact, ret.
  cbn.
  destruct (connected st); cbn; [|split; [no_submission|done]].
  destruct (mt5_symbol_info_tick W _ _) as [tick|]; cbn;
    [|split; [no_submission|done]].
  destruct (if String.eqb _ _ then _ else _) as [[ty pr]|]; cbn;
    [|split; [no_submission|done]].
  destruct (pr <=? 0)%float; cbn; [split; [no_submission|done]|].
  destruct (mt5_order_check W _ _) as [c|]; cbn;
    [|split; [no_submission|done]].
  destruct (negb _); cbn; [split; [no_submission|done]|].
  rewrite !length_app; cbn [length].
  match goal with
  | |- context [mt5_order_send W ?n ?r] => set (req0 := r); set (n0 := n)
  end.
  assert (Hfound : forall i req new,
            (length (trace st) <= i)%nat ->
            (trace st ++ CallSymbolInfoTick symbol :: CallOrderCheck req0
               :: CallOrderSend req0 :: new) !! i = Some (CallOrderSend req) ->
            (forall x, x ∈ new -> is_order_send x = false) ->
            i = n0 /\ req = req0).
  { intros i req new Hi Hl Hnew.
    apply lookup_new in Hl as (j & -> & Hj); [|exact Hi].
    destruct j as [|[|[|j]]]; cbn in Hj; simplify_eq.
    - split; [unfold n0; lia|done].
    - apply list_elem_of_lookup_2, Hnew in Hj. done. }
  destruct (mt5_order_send W n0 req0) as [r|] eqn:Hsend; cbn.
  - destruct ((retcode r =? TRADE_RETCODE_DONE) || (retcode r =? TRADE_RETCODE_PLACED))
      eqn:Hcode; cbn.
    + split; [|split; [|done]].
      * intros i req Hi Hl. rewrite <- !app_assoc in Hl; cbn in Hl.
        apply Hfound in Hl as [-> ->]; [|done|by intros x Hx; inversion Hx].
        by rewrite Hsend, Hcode.
      * intros _. exists n0, req0, r. split; [unfold n0; lia|].
        split; [|done]. rewrite <- !app_assoc; cbn.
        rewrite lookup_app_r; [|unfold n0; lia].
        by replace (n0 - length (trace st))%nat with 2%nat by (unfold n0; lia).
    + split; [|split; [done|done]].
      intros i req Hi Hl. rewrite <- !app_assoc in Hl; cbn in Hl.
      apply Hfound in Hl as [-> ->]; [|done|by intros x Hx; inversion Hx].
      by rewrite Hsend, Hcode.
  - split; [|split; [done|done]].
    intros i req Hi Hl. rewrite <- !app_assoc in Hl; cbn in Hl.
    apply Hfound in Hl as [-> ->]; [|done|].
    + rewrite Hsend. rewrite !length_app; cbn [length]. fold n0.
      by replace (S n0) with (n0 + 1)%nat by lia.
    + intros x Hx. apply list_elem_of_singleton in Hx. by subst.
Qed.

Lemma note_signal_rest s status note st :
  let st' := (note_signal s status note st).2 in
  steps st' = steps st /\
  last_trade_time st' = last_trade_time st /\
  saved_signals st' = saved_signals st /\
  trace st' = trace st /\
  auto_trade_locked st' = auto_trade_locked st.
Proof.
  unfold note_signal, _update_signal_status_in_df.
  destruct (time_truthy (time s) && string_truthy (Symbol s)); [|done].
  by destruct (time s).
Qed.

Definition executed_note (is_auto_trade : bool) (r : OrderSendResult) : text :=
  [source_log_prefix is_auto_trade; Lit ": Executed. Order ID: "; Int (order r)].

Definition failed_note (is_auto_trade : bool) (error_message : text) : text :=
  [source_log_prefix is_auto_trade; Lit ": Failed - "] ++ error_message.

(** Steps 12 and 13: the attempt succeeds exactly when [send_order]
    succeeded with a positive order id. *)
Lemma send_and_process_spec s final_order_type_str lot prices is_auto_trade st :
  let sent :=
    send_order W (Symbol s) final_order_type_str lot None
      (positive_or_zero prices.1) (positive_or_zero prices.2)
      (trade_comment_of W s is_auto_trade final_order_type_str)
      (set_steps (steps st ++ [Submission]) st) in
  let out := send_and_process W s final_order_type_str lot prices is_auto_trade st in
  steps out.2 = steps st ++ [Submission] /\
  auto_trade_locked out.2 = auto_trade_locked st /\
  ((exists r,
      sent.1 = (true, Result r) /\ 0 < order r /\
      out.1 = Ok (true, Result r) /\
      last_trade_time out.2
      = <[Symbol s := now_utc W (length (trace sent.2))]> (last_trade_time st) /\
      df_signals out.2
      = rows_after_note true s true (executed_note is_auto_trade r) (df_signals st) /\
      saved_signals out.2 = Some (df_signals out.2)) \/
   ((forall r, sent.1 = (true, Result r) -> order r <= 0) /\
    out.1 = Ok (false, Message (order_error_message sent.1.2)) /\
    last_trade_time out.2 = last_trade_time st /\
    df_signals out.2
    = rows_after_note true s false
        (failed_note is_auto_trade (order_error_message sent.1.2)) (df_signals st) /\
    saved_signals out.2 = saved_signals st)).
Proof.
  intros sent out. subst out.
  pose proof (send_order_frame (Symbol s) final_order_type_str lot None
                (positive_or_zero prices.1) (positive_or_zero prices.2)
                (trade_comment_of W s is_auto_trade final_order_type_str)
                (set_steps (steps st ++ [Submission]) st))
    as (Hsteps & Hltt & Hdf & Hsaved & Hlock).
  fold sent in Hsteps, Hltt, Hdf, Hsaved, Hlock.
  unfold send_and_process, bind, reach, modify, interact, ret.
  cbn -[send_order]. fold sent.
  clearbody sent.
  destruct sent as [[ok p] st2]; cbn in *.
  assert (Hcases : (exists r, p = Result r /\ ok = true /\ 0 < order r /\
                      order_accepted ok p = Some r) \/
                   ((forall r, (ok, p) = (true, Result r) -> order r <= 0) /\
                    order_accepted ok p = None)).
  { destruct p as [r|m]; cbn; [|right; split; [by intros|done]].
    destruct ok; cbn; [|right; split; [by intros|done]].
    destruct (Z.ltb_spec 0 (order r)).
    - left. by exists r.
    - right. split; [|done]. intros r' Hr'. by simplify_eq. }
  destruct Hcases as [(r & -> & -> & Hpos & ->) | [Hneg ->]].
  - match goal with
    | |- context [note_signal s true ?n ?x] =>
        pose proof (note_signal_rows s true n x) as Hrows;
        pose proof (note_signal_rest s true n x) as (Hs' & Hl' & Hsv' & Ht' & Hk');
        destruct (note_signal s true n x) as [u st3]
    end.
    cbn in *. split; [congruence|]. split; [congruence|]. left. exists r.
    repeat split; try done.
    + by rewrite Hl', Hltt.
    + by rewrite Hrows, Hdf.
  - match goal with
    | |- context [note_signal s false ?n ?x] =>
        pose proof (note_signal_rows s false n x) as Hrows;
        pose proof (note_signal_rest s false n x) as (Hs' & Hl' & Hsv' & Ht' & Hk');
        destruct (note_signal s false n x) as [u st3]
    end.
    cbn in *. split; [congruence|]. split; [congruence|]. right.
    repeat split; try done; try congruence.
Qed.

End Submission.

(** ** The whole attempt *)

Section Attempt.

Variable W : World.
Variable signal_data : option Signal.
Variable is_auto_trade : bool.
Variable st0 : State.

Abbreviation ends := (attempt_end W signal_data st0).

Lemma wpE_sized {A} s note (Q : A -> State -> Prop) st :
  Frame st0 (passed 6 ++ [Sizing]) st ->
  wpE (block s note) Q ends st.
Proof.
  intros HF. eapply wp_mono;
    [by apply (wpE_block_frame st0 (passed 6 ++ [Sizing]) _ _ (fun _ _ => False))|].
  intros [a|r] st2; [done|]. by apply end_sized.
Qed.

Lemma wpE_raise_sized {A} (r : pyres A) st :
  Frame st0 (passed 6 ++ [Sizing]) st ->
  wpE (raise r) (fun _ st' => Frame st0 (passed 6 ++ [Sizing]) st') ends st.
Proof. intros HF. apply wpE_raise; intros; [done|by apply end_sized]. Qed.

(** 9. Calculate Lot Size *)
Lemma spec_compute_lot s symbol_info st :
  Inv st0 (passed 6) st ->
  wpE (compute_lot W s symbol_info)
      (fun _ st' => Frame st0 (passed 6 ++ [Sizing]) st') ends st.
Proof.
  intros [HF _]. unfold compute_lot, wpE.
  apply wp_bind, wp_reach.
  apply wp_bind, wp_quiet; [apply quiet_calculate_lot_size_advanced|].
  intros lot st1 Hq.
  pose proof (Frame_quiet _ _ _ _ (Frame_reach _ _ _ Sizing HF) Hq) as HF1.
  eapply wpE_ebind; [by apply wpE_raise_sized|].
  intros lot' st2 HF2. by apply wpE_raise_sized.
Qed.

(** 10. Determine SL/TP Prices *)
Lemma spec_determine_prices s symbol_info final_order_type_str st :
  Frame st0 (passed 6 ++ [Sizing]) st ->
  wpE (determine_prices W s symbol_info final_order_type_str is_auto_trade)
      (fun _ st' => Frame st0 (passed 6 ++ [Sizing]) st') ends st.
Proof.
  intros HF. unfold determine_prices, wpE.
  apply wp_bind, wp_quiet; [apply quiet_get_tick|].
  intros tick st1 Hq. pose proof (Frame_quiet _ _ _ _ HF Hq) as HF1.
  destruct tick as [tick|]; [|by apply wpE_sized].
  match goal with |- context [if ?b then block _ _ else _] => destruct b end;
    [by apply wpE_sized|].
  eapply wpE_ebind; [by apply wpE_raise_sized|].
  intros sl st2 HF2.
  eapply wpE_ebind; [by apply wpE_raise_sized|].
  intros tp st3 HF3. by apply wp_ret.
Qed.

(** 11. Prepare and Confirm Trade (if manual) *)
Lemma spec_confirm_trade s st :
  Frame st0 (passed 6 ++ [Sizing]) st ->
  wpE (confirm_trade W s is_auto_trade)
      (fun _ st' => Frame st0 (passed 6 ++ [Sizing]) st') ends st.
Proof.
  intros HF. unfold confirm_trade, wpE.
  destruct (negb is_auto_trade); [|by apply wp_ret].
  apply wp_bind, wp_interact.
  assert (HF1 : Frame st0 (passed 6 ++ [Sizing])
                  (set_trace (trace st ++ [CallConfirm]) st)).
  { eapply Frame_quiet; [done|]. by exists [CallConfirm]. }
  destruct (ui_confirm W (length (trace st)));
    [apply wp_ret; exact HF1|by apply wpE_sized].
Qed.

(** 12. Send Order and 13. Process Result *)
Lemma spec_send_and_process s final_order_type_str lot prices st :
  Frame st0 (passed 6 ++ [Sizing]) st ->
  wp (send_and_process W s final_order_type_str lot prices is_auto_trade)
     ends st.
Proof.
  intros (Hs & Hl & _). unfold wp.
  pose proof (send_and_process_spec W s final_order_type_str lot prices
                is_auto_trade st) as (Hsteps & _ & Hres).
  apply end_submitted.
  - rewrite Hsteps, Hs. by rewrite <- !app_assoc.
  - destruct Hres as [(r & _ & _ & Hout & Hltt & _) | (_ & _ & Hltt & _)].
    + right. eexists r, _, _. split; [done|]. by rewrite Hltt, Hl.
    + left. by rewrite Hltt.
Qed.

(** However an attempt runs, it ends in one of the four ways. *)
Lemma execute_ends order_type_override :
  ends (execute_trade_from_signal_data W signal_data order_type_override
          is_auto_trade st0).1
       (execute_trade_from_signal_data W signal_data order_type_override
          is_auto_trade st0).2.
Proof.
  change (wp (execute_trade_from_signal_data W signal_data order_type_override
                is_auto_trade) ends st0).
  unfold execute_trade_from_signal_data.
  apply wp_bind.
  assert (HI0 : Inv st0 (passed 0) st0) by (split; [apply Frame_start|done]).
  eapply wp_mono.
  { eapply (wpE_ebind _ _ _ (fun r st' => ends r st') ends);
      [by apply spec_check_time_filter|]. intros ? st1 H1.
    eapply wpE_ebind; [by apply spec_check_news_filter|]. intros ? st2 H2.
    eapply wpE_ebind; [by apply spec_check_connection|]. intros ? st3 H3.
    eapply wpE_ebind; [by apply spec_get_signal_data|]. intros s st4 [H4 Ho].
    eapply wpE_ebind; [by apply spec_validate_signal|]. intros ty st5 H5.
    eapply wpE_ebind; [by apply spec_check_min_interval|]. intros ? st6 H6.
    eapply wpE_ebind; [by apply spec_fetch_symbol_info|]. intros info st7 H7.
    eapply wpE_ebind; [by apply spec_check_spread|]. intros ? st8 H8.
    eapply wpE_ebind; [by apply spec_compute_lot|]. intros lot st9 H9.
    eapply wpE_ebind; [by apply spec_determine_prices|]. intros prices st10 H10.
    eapply wpE_ebind; [by apply spec_confirm_trade|]. intros ? st11 H11.
    unfold lift, wpE. apply wp_bind.
    eapply wp_mono; [by apply spec_send_and_process|].
    intros r st12 Hend. by apply wp_ret. }
  intros [r|r] st' Hend; by apply wp_ret.
Qed.

End Attempt.

(** ** The admission gates *)

Lemma passed_false_unique k k' g g' :
  (k <= 6)%nat -> (k' <= 6)%nat ->
  passed k' ++ [Gate g' false] = passed k ++ [Gate g false] -> k' = k /\ g' = g.
Proof.
  intros Hk Hk' H.
  do 7 (try destruct k as [|k]); try lia;
    do 7 (try destruct k' as [|k']); try lia;
    cbn in H; by simplify_eq.
Qed.

Lemma passed_not_blocked k k' g tail :
  (k <= 6)%nat -> (k' <= 6)%nat ->
  tail = [] \/ tail = [Sizing] \/ tail = [Sizing; Submission] ->
  passed k' ++ tail = passed k ++ [Gate g false] -> False.
Proof.
  intros Hk Hk' Ht H.
  do 7 (try destruct k as [|k]); try lia;
    do 7 (try destruct k' as [|k']); try lia;
    destruct Ht as [->|[->| ->]]; cbn in H; by simplify_eq.
Qed.

Lemma gate_order_bound k g : gate_order !! k = Some g -> (k < 6)%nat.
Proof. intros H. apply lookup_lt_Some in H. by cbn in H. Qed.



(** ** The re-entry interval *)

(** Ten minutes after an order on gold, with the default interval of
    fifteen minutes, an automatic signal is told to wait five
    minutes; five minutes later it passes. *)
Example reentry_blocked_after_ten_minutes :
  (min_interval_verdict (AttemptExample.open_market (Examples.at_time 12 10))
     true "XAUUSD" AttemptExample.traded_at_noon).1
  = Some [Lit "AutoTrade"; Lit ": Min interval for "; Lit "XAUUSD"; Lit " (";
          Int 15; Lit "m) not met. Wait "; Int 5; Lit "m "; Int 0; Lit "s."] /\
  (min_interval_verdict (AttemptExample.open_market (Examples.at_time 12 15))
     true "XAUUSD" AttemptExample.traded_at_noon).1 = None.
Proof. by vm_compute. Qed.


(** ** Resolution of a submission *)

(** With a venue that takes the order and gives it an id, the
    automatic attempt succeeds, records the time of the trade and
    marks the signal executed. *)
Example accepted_order_recorded :
  (SubmissionExample.auto_attempt
     (AttemptExample.open_market (Examples.at_time 12 0))).1
  = Ok (true, Result Examples.done_result) /\
  last_trade_time (SubmissionExample.auto_attempt
                     (AttemptExample.open_market (Examples.at_time 12 0))).2
    !! "XAUUSD"%string = Some (Examples.at_time 12 0) /\
  map (fun r => (executed r, notes r))
      (df_signals (SubmissionExample.auto_attempt
                     (AttemptExample.open_market (Examples.at_time 12 0))).2)
  = [(true, [Lit "AutoTrade"; Lit ": Executed. Order ID: "; Int 9001])].
Proof. by vm_compute. Qed.

(** C8, as stated, fails: the venue answers the submission with the
    result code done, but without an order id; the attempt returns
    failure with an unknown-error message, records no trade time and
    leaves the signal not executed. *)
Lemma done_without_order_id_fails :
  trace (SubmissionExample.auto_attempt AttemptExample.no_order_id).2 !! 8%nat
  = Some (CallOrderSend SubmissionExample.gold_request) /\
  mt5_order_send AttemptExample.no_order_id 8 SubmissionExample.gold_request
  = Some AttemptExample.done_without_order /\
  retcode AttemptExample.done_without_order = TRADE_RETCODE_DONE /\
  (SubmissionExample.auto_attempt AttemptExample.no_order_id).1
  = Ok (false, Message [Lit "Unknown order send error"; Lit " (Broker: ";
                        Lit "Request executed"; Lit ")"]) /\
  last_trade_time (SubmissionExample.auto_attempt AttemptExample.no_order_id).2
    !! "XAUUSD"%string = None /\
  map (fun r => (executed r, notes r))
      (df_signals (SubmissionExample.auto_attempt AttemptExample.no_order_id).2)
  = [(false, [Lit "AutoTrade"; Lit ": Failed - "; Lit "Unknown order send error";
              Lit " (Broker: "; Lit "Request executed"; Lit ")"])].
Proof. by vm_compute. Qed.

(** C8, amended: [send_order] resolves the submission it makes to
    success exactly when the venue's result code is done or placed:
    then it returns (true, the venue's result); any other code gives
    (false, a message with the venue's comment, the code and its
    description), and no answer from the venue gives (false, a
    message with the last error); success is returned only for such
    an answer.  The attempt itself succeeds exactly when [send_order]
    succeeded and the result has a positive order id: then the last
    trade time of the symbol is set to the current time, the ledger
    rows with the signal's time and symbol get executed = true and
    the note with the order id, and the ledger is saved; otherwise
    the attempt returns (false, the error message), the last trade
    times are unchanged and the rows get executed = false and the
    failure note. *)
Theorem order_resolution :
  (forall W symbol order_type volume price sl tp comment st,
     let sent := send_order W symbol order_type volume price sl tp comment st in
     (forall i req,
        (length (trace st) <= i)%nat ->
        trace sent.2 !! i = Some (CallOrderSend req) ->
        match mt5_order_send W i req with
        | None =>
            sent.1 = (false, Message (order_send_failed (mt5_last_error W (S i)).1
                                                        (mt5_last_error W (S i)).2))
        | Some r =>
            if (retcode r =? TRADE_RETCODE_DONE) || (retcode r =? TRADE_RETCODE_PLACED)
            then sent.1 = (true, Result r)
            else sent.1 = (false, Message (order_send_rejected r))
        end) /\
     (sent.1.1 = true ->
      exists i req r,
        (length (trace st) <= i)%nat /\
        trace sent.2 !! i = Some (CallOrderSend req) /\
        mt5_order_send W i req = Some r /\
        sent.1.2 = Result r) /\
     (forall r, sent.1.2 = Result r -> sent.1.1 = true)) /\
  (forall W s final_order_type_str lot prices is_auto_trade st,
     let sent :=
       send_order W (Symbol s) final_order_type_str lot None
         (positive_or_zero prices.1) (positive_or_zero prices.2)
         (trade_comment_of W s is_auto_trade final_order_type_str)
         (set_steps (steps st ++ [Submission]) st) in
     let out := send_and_process W s final_order_type_str lot prices
                  is_auto_trade st in
     (exists r,
        sent.1 = (true, Result r) /\ 0 < order r /\
        out.1 = Ok (true, Result r) /\
        last_trade_time out.2
        = <[Symbol s := now_utc W (length (trace sent.2))]> (last_trade_time st) /\
        df_signals out.2
        = rows_after_note true s true (executed_note is_auto_trade r)
            (df_signals st) /\
        saved_signals out.2 = Some (df_signals out.2)) \/
     ((forall r, sent.1 = (true, Result r) -> order r <= 0) /\
      out.1 = Ok (false, Message (order_error_message sent.1.2)) /\
      last_trade_time out.2 = last_trade_time st /\
      df_signals out.2
      = rows_after_note true s false
          (failed_note is_auto_trade (order_error_message sent.1.2))
          (df_signals st) /\
      saved_signals out.2 = saved_signals st)).
Proof.
  split.
  - intros. apply send_order_resolution.
  - intros W s final_order_type_str lot prices is_auto_trade st sent out.
    by destruct (send_and_process_spec W s final_order_type_str lot prices
                   is_auto_trade st) as (_ & _ & H).
Qed.

(** ** Independence from the lock of automatic trading *)

(** [m] neither reads nor writes the lock: run with the lock set to
    [b], it returns what it returns otherwise and leaves the lock at
    [b]. *)
Definition lock_blind {A} (m : M A) : Prop :=
  forall b st,
    m (set_auto_trade_locked b st) = ((m st).1, set_auto_trade_locked b (m st).2).

Lemma lock_blind_ret {A} (a : A) : lock_blind (ret a).
Proof. by intros b st. Qed.

Lemma lock_blind_get {A} (f : State -> A) :
  (forall b st, f (set_auto_trade_locked b st) = f st) -> lock_blind (get f).
Proof. intros H b st. unfold get. by rewrite H. Qed.

Lemma lock_blind_modify (f : State -> State) :
  (forall b st, f (set_auto_trade_locked b st) = set_auto_trade_locked b (f st)) ->
  lock_blind (modify f).
Proof. intros H b st. unfold modify. by rewrite H. Qed.

Lemma lock_blind_interact {A} c (answer : nat -> A) : lock_blind (interact c answer).
Proof. by intros b st. Qed.

Lemma lock_blind_reach s : lock_blind (reach s).
Proof. by intros b st. Qed.

Lemma lock_blind_bind {A B} (m : M A) (k : A -> M B) :
  lock_blind m -> (forall a, lock_blind (k a)) -> lock_blind (bind m k).
Proof.
  intros Hm Hk b st. unfold bind. rewrite Hm.
  destruct (m st) as [a st1]. apply Hk.
Qed.

Lemma lock_blind_if {A} (b : bool) (m1 m2 : M A) :
  lock_blind m1 -> lock_blind m2 -> lock_blind (if b then m1 else m2).
Proof. by destruct b. Qed.

Create HintDb lock_blind.

Ltac lock_blind_tac :=
  repeat first
    [ solve [auto 1 with lock_blind nocore]
    | apply lock_blind_ret
    | apply lock_blind_reach
    | apply lock_blind_interact
    | apply lock_blind_get; intros ? ?; reflexivity
    | apply lock_blind_modify; intros ? ?; reflexivity
    | apply lock_blind_bind; [|intros ?]
    | apply lock_blind_if
    | progress case_match ].

Section LockBlind.

Variable W : World.

Lemma lock_blind_get_symbol_info symbol : lock_blind (get_symbol_info W symbol).
Proof. unfold get_symbol_info, is_connected. lock_blind_tac. Qed.
#[local] Hint Resolve lock_blind_get_symbol_info : lock_blind.

Lemma lock_blind_get_tick symbol : lock_blind (get_tick W symbol).
Proof. unfold get_tick, is_connected. lock_blind_tac. Qed.
#[local] Hint Resolve lock_blind_get_tick : lock_blind.

Lemma lock_blind_get_account_info : lock_blind (get_account_info W).
Proof. unfold get_account_info, is_connected. lock_blind_tac. Qed.
#[local] Hint Resolve lock_blind_get_account_info : lock_blind.

Lemma lock_blind_get_current_spread symbol : lock_blind (get_current_spread W symbol).
Proof.
  unfold get_current_spread, is_connected.
  lock_blind_tac.
Qed.
#[local] Hint Resolve lock_blind_get_current_spread : lock_blind.

Lemma lock_blind_is_trading_time_allowed : lock_blind (is_trading_time_allowed W).
Proof. unfold is_trading_time_allowed, trading_time_check. lock_blind_tac. Qed.
#[local] Hint Resolve lock_blind_is_trading_time_allowed : lock_blind.

Lemma lock_blind_convert_point_value value profit account :
  lock_blind (convert_point_value W value profit account).
Proof. unfold convert_point_value. lock_blind_tac. Qed.
#[local] Hint Resolve lock_blind_convert_point_value : lock_blind.

Lemma lock_blind_calculate_lot_size_advanced symbol risk sl :
  lock_blind (calculate_lot_size_advanced W symbol risk sl).
Proof.
  unfold calculate_lot_size_advanced, is_connected.
  lock_blind_tac.
Qed.
#[local] Hint Resolve lock_blind_calculate_lot_size_advanced : lock_blind.

Lemma lock_blind_update signal_time symbol executed_status note :
  lock_blind (_update_signal_status_in_df signal_time symbol executed_status note).
Proof. unfold _update_signal_status_in_df. lock_blind_tac. Qed.
#[local] Hint Resolve lock_blind_update : lock_blind.

Lemma lock_blind_note_signal s executed_status note :
  lock_blind (note_signal s executed_status note).
Proof. unfold note_signal. lock_blind_tac. Qed.
#[local] Hint Resolve lock_blind_note_signal : lock_blind.

Lemma lock_blind_block {A} s note : lock_blind (block (A:=A) s note).
Proof. unfold block. lock_blind_tac. Qed.
#[local] Hint Resolve lock_blind_block : lock_blind.

Lemma lock_blind_block_before_selection {A} signal_data note :
  lock_blind (block_before_selection (A:=A) signal_data note).
Proof. unfold block_before_selection. lock_blind_tac. Qed.
#[local] Hint Resolve lock_blind_block_before_selection : lock_blind.

Lemma lock_blind_ebind {A B} (m : E A) (k : A -> E B) :
  lock_blind m -> (forall a, lock_blind (k a)) -> lock_blind (ebind m k).
Proof.
  intros Hm Hk. unfold ebind. apply lock_blind_bind; [done|].
  intros [a|r]; [apply Hk|apply lock_blind_ret].
Qed.

Lemma lock_blind_raise {A} (r : pyres A) : lock_blind (raise r).
Proof. destruct r; apply lock_blind_ret. Qed.
#[local] Hint Resolve lock_blind_raise : lock_blind.

Lemma lock_blind_send_order symbol order_type volume price sl tp comment :
  lock_blind (send_order W symbol order_type volume price sl tp comment).
Proof.
  unfold send_order, is_connected, set_error.
  lock_blind_tac.
Qed.
#[local] Hint Resolve lock_blind_send_order : lock_blind.

Lemma lock_blind_min_interval_verdict is_auto_trade symbol :
  lock_blind (min_interval_verdict W is_auto_trade symbol).
Proof. unfold min_interval_verdict. lock_blind_tac. Qed.
#[local] Hint Resolve lock_blind_min_interval_verdict : lock_blind.

Lemma lock_blind_send_and_process s final_order_type_str lot prices is_auto_trade :
  lock_blind (send_and_process W s final_order_type_str lot prices is_auto_trade).
Proof. unfold send_and_process. lock_blind_tac. Qed.

(** The whole attempt: whatever the lock is, it returns the same and
    leaves the lock as it was. *)
Lemma lock_blind_execute signal_data order_type_override is_auto_trade :
  lock_blind (execute_trade_from_signal_data W signal_data order_type_override
                is_auto_trade).
Proof.
  unfold execute_trade_from_signal_data.
  apply lock_blind_bind; [|intros [r|r]; apply lock_blind_ret].
  repeat (apply lock_blind_ebind; [|intros ?]).
  - unfold check_time_filter. lock_blind_tac.
  - unfold check_news_filter. lock_blind_tac.
  - unfold check_connection, is_connected. lock_blind_tac.
  - unfold get_signal_data. lock_blind_tac.
  - unfold validate_signal. lock_blind_tac.
  - unfold check_min_interval. lock_blind_tac.
  - unfold fetch_symbol_info. lock_blind_tac.
  - unfold check_spread. lock_blind_tac.
  - unfold compute_lot. apply lock_blind_bind; [apply lock_blind_reach|intros _].
    apply lock_blind_bind; [apply lock_blind_calculate_lot_size_advanced|intros lot].
    apply lock_blind_ebind; [apply lock_blind_raise|intros ?].
    apply lock_blind_raise.
  - unfold determine_prices.
    apply lock_blind_bind; [apply lock_blind_get_tick|intros [tick|]];
      [|apply lock_blind_block].
    case_match; [apply lock_blind_block|].
    repeat (apply lock_blind_ebind; [apply lock_blind_raise|intros ?]).
    apply lock_blind_ret.
  - unfold confirm_trade. lock_blind_tac.
  - unfold lift. apply lock_blind_bind; [apply lock_blind_send_and_process|].
    intros ?. apply lock_blind_ret.
Qed.

End LockBlind.

(** ** The lock between concurrent calls *)

Section LockProtocol.

Import AutoTradeLock.

Lemma in_flight_insert calls i p p' :
  calls !! i = Some p ->
  (in_flight (<[i := p']> calls) + (if executing p then 1 else 0)
   = in_flight calls + (if executing p' then 1 else 0))%nat.
Proof.
  revert i. induction calls as [|q rest IH]; intros [|i] H; simplify_eq/=.
  - lia.
  - specialize (IH i H). lia.
Qed.

Lemma in_flight_start n : in_flight (replicate n AtCheck) = 0%nat.
Proof. induction n as [|n IH]; [done|]. simpl. by rewrite IH. Qed.

(** The lock is held exactly when one call is executing. *)
Definition lock_counts (s : system) : Prop :=
  in_flight s.2 = if s.1 then 1%nat else 0%nat.

Lemma step_lock_counts s s' : step s s' -> lock_counts s -> lock_counts s'.
Proof.
  intros [l l' i p p' calls Hi Hstep]. unfold lock_counts. simpl. intros H.
  pose proof (in_flight_insert calls i p p' Hi) as Hins.
  destruct Hstep as [| | |l]; simpl in *; try lia.
  destruct l; lia.
Qed.

Lemma reachable_lock_counts n s : rtc step (start n) s -> lock_counts s.
Proof.
  intros H. apply (rtc_ind_r (R := step) lock_counts (start n)); [| |done].
  - unfold lock_counts, start. simpl. apply in_flight_start.
  - eauto using step_lock_counts.
Qed.

(** Two calls that both made their check while the lock was free:
    the first executes, the second is not rejected, it waits at the
    acquisition. *)
Remark second_call_can_wait :
  rtc step (start 2) (true, [Executing; AtAcquire]).
Proof.
  eapply rtc_l; [apply (step_call false false 0 AtCheck AtAcquire); [done|constructor]|].
  eapply rtc_l; [apply (step_call false false 1 AtCheck AtAcquire); [done|constructor]|].
  eapply rtc_l; [apply (step_call false true 0 AtAcquire Executing); [done|constructor]|].
  done.
Qed.

End LockProtocol.

(** ** The lock in [auto_execute_model_signal_if_conditions_met] *)

(** The gold signal, arriving while the lock is held, gets the
    lock-active note; no gate is evaluated and nothing is asked of the
    venue. *)
Example signal_skipped_while_locked :
  (auto_execute_model_signal_if_conditions_met LockExample.market
     Examples.gold_signal LockExample.lock_held).1 = Ok tt /\
  map (fun r => (executed r, notes r))
      (df_signals (auto_execute_model_signal_if_conditions_met LockExample.market
                     Examples.gold_signal LockExample.lock_held).2)
  = [(false, lock_active_note)] /\
  steps (auto_execute_model_signal_if_conditions_met LockExample.market
           Examples.gold_signal LockExample.lock_held).2 = [] /\
  trace (auto_execute_model_signal_if_conditions_met LockExample.market
           Examples.gold_signal LockExample.lock_held).2 = [] /\
  auto_trade_locked (auto_execute_model_signal_if_conditions_met LockExample.market
                       Examples.gold_signal LockExample.lock_held).2 = true.
Proof. by vm_compute. Qed.

(** A manual attempt on the same signal, the lock being held, goes
    through the gates and is submitted. *)
Example manual_attempt_while_locked :
  (execute_trade_from_signal_data LockExample.market (Some Examples.gold_signal)
     (Some "buy"%string) false LockExample.lock_held).1
  = Ok (true, Result Examples.done_result) /\
  steps (execute_trade_from_signal_data LockExample.market (Some Examples.gold_signal)
           (Some "buy"%string) false LockExample.lock_held).2
  = passed 6 ++ [Sizing; Submission].
Proof. by vm_compute. Qed.


(** * Further properties of [MT5Manager] *)

Section Disconnected.

Variable W : World.

(** X1: [disconnect] shuts the terminal down exactly when the manager
    was connected and leaves it disconnected; a second [disconnect]
    does nothing; and from then on every query and every order of the
    manager fails at once, without one call to the terminal. *)
Theorem disconnect_then_inert :
  forall st,
    let st' := (disconnect st).2 in
    connected st' = false /\
    trace st' = trace st ++ (if connected st then [CallShutdown] else []) /\
    disconnect st' = (tt, st') /\
    get_account_info W st' = (None, st') /\
    (forall symbol,
       get_symbol_info W symbol st' = (None, st') /\
       get_tick W symbol st' = (None, st') /\
       get_current_spread W symbol st' = (None, st')) /\
    (forall symbol magic,
       get_open_positions W symbol magic st' = ([], st') /\
       get_open_positions_count W symbol magic st' = (0, st')) /\
    (forall symbol order_type volume price sl tp comment,
       send_order W symbol order_type volume price sl tp comment st'
       = ((false, Message [Lit "Not connected to MT5"]),
          set_last_raw_error_message [Lit "Not connected to MT5"] st')) /\
    (forall magic comment,
       close_all_trades W magic comment st'
       = ((false, [Lit "Not connected to MT5"]),
          set_last_raw_error_message [Lit "Not connected to MT5"] st')).
Proof.
  intros st st'.
  assert (Hc : connected st' = false).
  { subst st'. unfold disconnect, bind, get, interact, modify, ret.
    by destruct (connected st) eqn:E. }
  split; [done|]. split.
  { subst st'. unfold disconnect, bind, get, interact, modify, ret.
    destruct (connected st); simpl; [done|by rewrite app_nil_r]. }
  clearbody st'.
  unfold disconnect, get_account_info, get_symbol_info, get_tick,
    get_current_spread, get_open_positions_count, get_open_positions,
    send_order, close_all_trades, is_connected, set_error, bind, get, modify, ret.
  rewrite Hc. cbn [negb]. done.
Qed.

End Disconnected.

(** ** The calls made by [send_order] *)

Section SendOrderCalls.

Variable W : World.

#[local] Arguments _get_retcode_description : simpl never.
#[local] Arguments PyStr.take : simpl never.

(** Either no order is submitted, or the calls are the tick, the check
    of the request and its submission, in this order. *)
Lemma send_order_calls symbol order_type volume price sl tp comment st :
  let out := send_order W symbol order_type volume price sl tp comment st in
  let n := length (trace st) in
  exists new,
    trace out.2 = trace st ++ new /\
    (count_calls is_order_send new = 0%nat \/
     exists tick req c tail,
       new = [CallSymbolInfoTick symbol; CallOrderCheck req; CallOrderSend req]
             ++ tail /\
       count_calls is_order_send tail = 0%nat /\
       mt5_symbol_info_tick W n symbol = Some tick /\
       mt5_order_check W (S n) req = Some c /\
       check_retcode c = TRADE_RETCODE_DONE /\
       req = {| req_action := TRADE_ACTION_DEAL; req_symbol := symbol;
                req_volume := volume; req_type := req_type req;
                req_position := None; req_price := req_price req;
                req_sl := Some sl; req_tp := Some tp; req_deviation := 20;
                req_magic := mt5_magic_number (settings W);
                req_comment := PyStr.take 31 comment;
                req_type_time := ORDER_TIME_GTC;
                req_type_filling := ORDER_FILLING_IOC |} /\
       (req_price req <=? 0)%float = false /\
       ((PyStr.lower order_type = "buy"%string /\
         req_type req = ORDER_TYPE_BUY /\
         req_price req = default (ask tick) price) \/
        (PyStr.lower order_type = "sell"%string /\
         req_type req = ORDER_TYPE_SELL /\
         req_price req = default (bid tick) price))).
Proof.
  unfold send_order, is_connected, set_error, bind, get, modify, interact, ret.
  cbn.
  destruct (connected st); cbn;
    [|exists []; by rewrite app_nil_r; auto].
  destruct (mt5_symbol_info_tick W _ _) as [tick|] eqn:Htick; cbn;
    [|eexists; split; [done|by left]].
  destruct (String.eqb (PyStr.lower order_type) "buy") eqn:Hbuy;
    [|destruct (String.eqb (PyStr.lower order_type) "sell") eqn:Hsell];
    cbn; [| |eexists; split; [done|by left]].
  - destruct (default (ask tick) price <=? 0)%float eqn:Hprice; cbn;
      [eexists; split; [done|by left]|].
    destruct (mt5_order_check W _ _) as [c|] eqn:Hcheck; cbn;
      [|eexists; split; [by rewrite <- !app_assoc|by left]].
    destruct (check_retcode c =? TRADE_RETCODE_DONE) eqn:Hdone; cbn;
      [|eexists; split; [by rewrite <- !app_assoc|by left]].
    rewrite !length_app in *. cbn in *. rewrite !Nat.add_1_r in *.
    apply Z.eqb_eq in Hdone. apply String.eqb_eq in Hbuy.
    destruct (mt5_order_send W _ _) as [r|]; cbn;
      [destruct (_ || _); cbn|];
      (eexists; split; [by rewrite <- !app_assoc|]); right;
      eexists tick, _, c, _; (split; [by cbn|]);
      repeat split; try done; by left.
  - destruct (default (bid tick) price <=? 0)%float eqn:Hprice; cbn;
      [eexists; split; [done|by left]|].
    destruct (mt5_order_check W _ _) as [c|] eqn:Hcheck; cbn;
      [|eexists; split; [by rewrite <- !app_assoc|by left]].
    destruct (check_retcode c =? TRADE_RETCODE_DONE) eqn:Hdone; cbn;
      [|eexists; split; [by rewrite <- !app_assoc|by left]].
    rewrite !length_app in *. cbn in *. rewrite !Nat.add_1_r in *.
    apply Z.eqb_eq in Hdone. apply String.eqb_eq in Hsell.
    destruct (mt5_order_send W _ _) as [r|]; cbn;
      [destruct (_ || _); cbn|];
      (eexists; split; [by rewrite <- !app_assoc|]); right;
      eexists tick, _, c, _; (split; [by cbn|]);
      repeat split; try done; by right.
Qed.

End SendOrderCalls.

Lemma count_calls_zero_lookup p (t : list ext_call) j c :
  count_calls p t = 0%nat -> t !! j = Some c -> p c = false.
Proof.
  unfold count_calls. revert j. induction t as [|x t IH]; intros j H Hj; [done|].
  simpl in H. destruct (p x) eqn:Hx; [done|].
  destruct j as [|j]; simplify_eq/=; [done|]. by eapply IH.
Qed.

Lemma take_prefix n s : String.prefix (PyStr.take n s) s = true.
Proof.
  revert s. induction n as [|n IH]; intros [|c s]; simpl; try done.
  destruct (ascii_dec c c); [apply IH|done].
Qed.

Lemma take_length n s : (String.length (PyStr.take n s) <= n)%nat.
Proof.
  revert s. induction n as [|n IH]; intros [|c s]; simpl; try lia.
  specialize (IH s). lia.
Qed.

Section SendOrderRequest.

#[local] Arguments PyStr.take : simpl never.

(** X2: [send_order] submits at most one order, and only a request
    that [order_check] has just accepted: the submission comes right
    after the check of the very same request, and that check answered
    with the result code done. *)
Theorem send_order_checked_first :
  forall W symbol order_type volume price sl tp comment st,
    let out := send_order W symbol order_type volume price sl tp comment st in
    exists new,
      trace out.2 = trace st ++ new /\
      (count_calls is_order_send new <= 1)%nat /\
      forall j req,
        new !! j = Some (CallOrderSend req) ->
        exists i c,
          j = S i /\
          new !! i = Some (CallOrderCheck req) /\
          mt5_order_check W (length (trace st) + i) req = Some c /\
          check_retcode c = TRADE_RETCODE_DONE.
Proof.
  intros W symbol order_type volume price sl tp comment st out.
  destruct (send_order_calls W symbol order_type volume price sl tp comment st)
    as (new & Hnew & Hcases).
  exists new. split; [done|].
  destruct Hcases as [H0 | (tick & req' & c & tail & -> & Htail & _ & Hc & Hdone & _)].
  - split; [lia|]. intros j req Hj.
    by pose proof (count_calls_zero_lookup _ _ _ _ H0 Hj).
  - split.
    { unfold count_calls in *. simpl. rewrite Htail. lia. }
    intros j req Hj.
    destruct j as [|[|[|j]]]; simplify_eq/=.
    + exists 1%nat, c. by rewrite Nat.add_1_r.
    + by pose proof (count_calls_zero_lookup _ _ _ _ Htail Hj).
Qed.



End SendOrderRequest.

(** ** Spread and open positions *)

(** X4: a spread returned by [get_current_spread] is never negative;
    it is the tick's spread when the tick has a valid one, and only
    otherwise the spread of the symbol information. *)
Theorem current_spread_source :
  forall W symbol st z,
    (get_current_spread W symbol st).1 = Some z ->
    let n := length (trace st) in
    0 <= z /\
    connected st = true /\
    ((exists tick, mt5_symbol_info_tick W n symbol = Some tick /\
                   tick_spread tick = Some z) \/
     ((mt5_symbol_info_tick W n symbol ≫= fun t => valid_spread (tick_spread t))
      = None /\
      exists info, mt5_symbol_info W (S n) symbol = Some info /\
                   info_spread info = Some z)).
Proof.
  intros W symbol st z. unfold get_current_spread, get_tick, get_symbol_info,
    is_connected, bind, get, interact, ret, valid_spread.
  destruct (connected st) eqn:Hc; cbn; [|done].
  rewrite Hc. cbn.
  destruct (mt5_symbol_info_tick W (length (trace st)) symbol) as [tick|] eqn:Ht; cbn.
  - destruct (tick_spread tick) as [s|] eqn:Hs; cbn.
    + destruct (0 <=? s) eqn:Hpos; cbn.
      * intros [= ->]. repeat split; [lia|]. left. by exists tick.
      * rewrite Hc. cbn. rewrite length_app, Nat.add_1_r. cbn.
        destruct (mt5_symbol_info W _ symbol) as [info|]; cbn; [|done].
        destruct (info_spread info) as [s'|] eqn:Hs'; cbn; [|done].
        destruct (0 <=? s') eqn:Hpos'; [|done].
        intros [= ->]. repeat split; [lia|]. right. split; [done|]. by exists info.
    + rewrite Hc. cbn. rewrite length_app, Nat.add_1_r. cbn.
      destruct (mt5_symbol_info W _ symbol) as [info|]; cbn; [|done].
      destruct (info_spread info) as [s'|] eqn:Hs'; cbn; [|done].
      destruct (0 <=? s') eqn:Hpos'; [|done].
      intros [= ->]. repeat split; [lia|]. right. split; [done|]. by exists info.
  - rewrite Hc. cbn. rewrite length_app, Nat.add_1_r. cbn.
    destruct (mt5_symbol_info W _ symbol) as [info|]; cbn; [|done].
    destruct (info_spread info) as [s'|] eqn:Hs'; cbn; [|done].
    destruct (0 <=? s') eqn:Hpos'; [|done].
    intros [= ->]. repeat split; [lia|]. right. split; [done|]. by exists info.
Qed.

Lemma current_spread_source_witness :
  0 <= 20 /\
  connected (Examples.idle true []) = true /\
  ((exists tick, mt5_symbol_info_tick LockExample.market 0 "XAUUSD" = Some tick /\
                 tick_spread tick = Some 20) \/
   ((mt5_symbol_info_tick LockExample.market 0 "XAUUSD"
       ≫= fun t => valid_spread (tick_spread t)) = None /\
    exists info, mt5_symbol_info LockExample.market 1 "XAUUSD" = Some info /\
                 info_spread info = Some 20)).
Proof.
  apply (current_spread_source LockExample.market "XAUUSD" (Examples.idle true []) 20).
  by vm_compute.
Defined.

Lemma filter_sublist {A} (p : A -> bool) (l : list A) : sublist (List.filter p l) l.
Proof.
  induction l as [|x l IH]; simpl; [constructor|].
  destruct (p x); by constructor.
Qed.

Lemma filter_Forall {A} (p : A -> bool) (l : list A) :
  Forall (fun x => p x = true) (List.filter p l).
Proof.
  induction l as [|x l IH]; simpl; [constructor|].
  destruct (p x) eqn:Hx; [by constructor|done].
Qed.

Lemma open_positions_spec :
  forall W symbol magic st,
    let asked := symbol ≫= fun s => if string_truthy s then Some s else None in
    let found := (get_open_positions W symbol magic st).1 in
    (connected st = true ->
     match mt5_positions_get W (length (trace st)) asked with
     | Some venue =>
         sublist found venue /\
         (magic = None -> found = venue) /\
         (forall m, magic = Some m ->
                    forall p, p ∈ found <-> p ∈ venue /\ pos_magic p = m)
     | None => found = []
     end) /\
    (connected st = false -> found = []) /\
    (symbol = Some ""%string -> asked = None) /\
    (get_open_positions_count W symbol magic st).1 = Z.of_nat (length found).
Proof.
  intros W symbol magic st asked found. subst found.
  unfold get_open_positions_count, get_open_positions, is_connected, bind, get,
    interact, ret.
  fold asked. repeat split.
  - intros Hc. rewrite Hc. cbn.
    destruct (mt5_positions_get W (length (trace st)) asked) as [venue|]; cbn; [|done].
    destruct magic as [m|]; cbn.
    + split; [apply filter_sublist|]. split; [done|].
      intros m' [= <-] p. rewrite !list_elem_of_In, filter_In.
      by rewrite Z.eqb_eq.
    + split; [done|]. split; [done|]. done.
  - intros Hc. by rewrite Hc.
  - intros ->. done.
  - destruct (connected st); cbn; [|done].
    destruct (mt5_positions_get W (length (trace st)) asked) as [venue|]; cbn; [|done].
    by destruct magic.
Qed.

(** X5: the positions returned by [get_open_positions] are positions
    reported by the venue, in the venue's order; with a magic number
    given, they are exactly those carrying it; an empty symbol asks
    for the positions of all symbols; and when the venue gives no
    answer the list is empty.  [get_open_positions_count] is the
    length of that list. *)
Theorem open_positions_filtered :
  forall W symbol magic st,
    let asked := symbol ≫= fun s => if string_truthy s then Some s else None in
    let found := (get_open_positions W symbol magic st).1 in
    (connected st = true ->
     match mt5_positions_get W (length (trace st)) asked with
     | Some venue =>
         sublist found venue /\
         (magic = None -> found = venue) /\
         (forall m, magic = Some m ->
                    forall p, p ∈ found <-> p ∈ venue /\ pos_magic p = m)
     | None => found = []
     end) /\
    (connected st = false -> found = []) /\
    (symbol = Some ""%string -> asked = None) /\
    (get_open_positions_count W symbol magic st).1 = Z.of_nat (length found).
Proof. apply open_positions_spec. Qed.

(** ** The orders sent by [close_all_trades] *)

Section CloseRequests.

Variable W : World.

#[local] Arguments PyStr.take : simpl never.

Lemma close_position_calls comment p t st :
  exists new,
    trace (close_position W comment p t st).2 = trace st ++ new /\
    (count_calls is_order_send new <= 1)%nat /\
    forall j req, new !! j = Some (CallOrderSend req) -> closes comment p req.
Proof.
  unfold close_position, bind, interact, ret. cbn.
  destruct (mt5_symbol_info_tick W _ _) as [tick|]; cbn.
  2: { exists [CallSymbolInfoTick (pos_symbol p)]. split; [done|].
       split; [unfold count_calls; simpl; lia|].
       intros [|j] req Hj; by simplify_eq/=. }
  match goal with
  | |- context [if (?x <=? 0)%float then _ else _] =>
      destruct (x <=? 0)%float eqn:Hprice
  end; cbn.
  { exists [CallSymbolInfoTick (pos_symbol p)]. split; [done|].
    split; [unfold count_calls; simpl; lia|].
    intros [|j] req Hj; by simplify_eq/=. }
  destruct (mt5_order_send W _ _) as [r|]; cbn; [destruct (retcode r =? _)|]; cbn;
    (eexists; split; [by rewrite <- !app_assoc|]);
    (split; [unfold count_calls; cbn; lia|]);
    intros [|[|[|j]]] req Hj; simplify_eq/=; by repeat split.
Qed.

Lemma close_positions_calls comment positions t st :
  exists new,
    trace (close_positions W comment positions t st).2 = trace st ++ new /\
    (count_calls is_order_send new <= length positions)%nat /\
    forall j req,
      new !! j = Some (CallOrderSend req) ->
      exists p, p ∈ positions /\ closes comment p req.
Proof.
  revert t st. induction positions as [|p rest IH]; intros t st; simpl.
  { exists []. rewrite app_nil_r. split; [done|]. split; [done|]. by intros []. }
  unfold bind.
  destruct (close_position_calls comment p t st) as (new1 & H1 & Hn1 & Hr1).
  destruct (close_position W comment p t st) as [t1 st1]; simpl in *.
  destruct (IH t1 st1) as (new2 & H2 & Hn2 & Hr2).
  exists (new1 ++ new2). split; [by rewrite H2, H1, app_assoc|].
  split; [rewrite count_calls_app; lia|].
  intros j req Hj. apply lookup_app_Some in Hj as [Hj|[_ Hj]].
  - exists p. split; [by left|by eapply Hr1].
  - destruct (Hr2 _ _ Hj) as (q & Hq & Hc). exists q. split; [by right|done].
Qed.

End CloseRequests.

Lemma close_all_calls :
  forall W magic comment st,
    let found := (get_open_positions W None magic st).1 in
    exists new,
      trace (close_all_trades W magic comment st).2 = trace st ++ new /\
      (count_calls is_order_send new <= length found)%nat /\
      forall j req,
        new !! j = Some (CallOrderSend req) ->
        exists p,
          p ∈ found /\ closes comment p req /\
          (forall m, magic = Some m -> req_magic req = m).
Proof.
  intros W magic comment st found.
  pose proof (open_positions_spec W None magic st) as (Hvenue & _).
  fold found in Hvenue. cbn in Hvenue.
  subst found.
  unfold close_all_trades, is_connected, set_error, bind, get, modify, ret.
  destruct (connected st) eqn:Hc; cbn -[get_open_positions close_positions].
  2: { exists []. rewrite app_nil_r. split; [done|].
       split; [unfold count_calls; simpl; lia|].
       intros j req Hj. by rewrite lookup_nil in Hj. }
  specialize (Hvenue eq_refl).
  assert (Hquiet : exists new0,
             trace (get_open_positions W None magic st).2 = trace st ++ new0 /\
             count_calls is_order_send new0 = 0%nat).
  { unfold get_open_positions, is_connected, bind, get, interact, ret.
    rewrite Hc. cbn.
    destruct (mt5_positions_get W _ _) as [venue|]; cbn.
    - destruct magic; eexists; by split.
    - eexists. split; [by rewrite <- app_assoc|done]. }
  destruct Hquiet as (new0 & H0 & Hn0).
  destruct (get_open_positions W None magic st) as [found st1];
    cbn -[close_positions] in *.
  destruct found as [|p0 rest] eqn:Hfound; cbn -[close_positions].
  { exists new0. split; [done|]. split; [lia|].
    intros j req Hj. by pose proof (count_calls_zero_lookup _ _ _ _ Hn0 Hj). }
  rewrite <- Hfound in *.
  destruct (close_positions_calls W comment found
              {| closed_count := 0; failed_count := 0; summary_messages := [] |} st1)
    as (new1 & H1 & Hn1 & Hr1).
  destruct (close_positions W comment found _ st1) as [t st2]; cbn in *.
  exists (new0 ++ new1). split; [by rewrite H1, H0, app_assoc|].
  split; [rewrite count_calls_app, Hfound in *; simpl in *; lia|].
  intros j req Hj. apply lookup_app_Some in Hj as [Hj|[_ Hj]].
  { by pose proof (count_calls_zero_lookup _ _ _ _ Hn0 Hj). }
  destruct (Hr1 _ _ Hj) as (p & Hp & Hcl). exists p. split; [done|]. split; [done|].
  intros m ->. destruct Hcl as (_ & _ & _ & _ & -> & _).
  destruct (mt5_positions_get W _ _) as [venue|]; [|by rewrite Hvenue in Hp; inversion Hp].
  destruct Hvenue as (_ & _ & Hm). by apply (Hm m eq_refl p).
Qed.


(** X7: when [close_all_trades] finds no position to close, be it
    that none matches or that the venue gave no answer, it submits
    nothing, leaves the recorded error as it was and reports success
    with the message that no open positions were found. *)
Theorem close_all_nothing_to_close :
  forall W magic comment st,
    connected st = true ->
    (get_open_positions W None magic st).1 = [] ->
    (close_all_trades W magic comment st).1
    = (true, [Lit "No open positions found to close (Magic: "; magic_text magic;
              Lit ")."]) /\
    last_raw_error_message (close_all_trades W magic comment st).2
    = last_raw_error_message st /\
    exists new,
      trace (close_all_trades W magic comment st).2 = trace st ++ new /\
      count_calls is_order_send new = 0%nat.
Proof.
  intros W magic comment st Hc Hnone.
  unfold close_all_trades, is_connected, set_error, bind, get, modify, ret.
  rewrite Hc. cbn -[get_open_positions].
  assert (Hquiet : last_raw_error_message (get_open_positions W None magic st).2
                   = last_raw_error_message st /\
                   exists new0,
                     trace (get_open_positions W None magic st).2 = trace st ++ new0 /\
                     count_calls is_order_send new0 = 0%nat).
  { unfold get_open_positions, is_connected, bind, get, interact, ret.
    rewrite Hc. cbn.
    destruct (mt5_positions_get W _ _) as [venue|]; cbn.
    - destruct magic; (split; [done|]); eexists; by split.
    - split; [done|]. eexists. split; [by rewrite <- app_assoc|done]. }
  destruct (get_open_positions W None magic st) as [found st1]; cbn in *.
  subst found. by cbn.
Qed.

Lemma close_all_nothing_to_close_witness :
  (close_all_trades ConnectExample.refused (Some 234000) "ManCloseAll M234000"
     (Examples.idle true [])).1
  = (true, [Lit "No open positions found to close (Magic: "; Int 234000; Lit ")."]) /\
  last_raw_error_message
    (close_all_trades ConnectExample.refused (Some 234000) "ManCloseAll M234000"
       (Examples.idle true [])).2
  = [] /\
  exists new,
    trace (close_all_trades ConnectExample.refused (Some 234000)
             "ManCloseAll M234000" (Examples.idle true [])).2 = [] ++ new /\
    count_calls is_order_send new = 0%nat.
Proof.
  apply (close_all_nothing_to_close ConnectExample.refused (Some 234000)
           "ManCloseAll M234000" (Examples.idle true [])); by vm_compute.
Defined.

(** ** What [connect] leaves behind *)

Section ConnectState.

Variable W : World.

(** What one pass, and the whole loop, leave behind when started
    disconnected. *)
Definition pass_left (r : option bool) (st : State) : Prop :=
  match r with
  | Some true => connected st = true /\ last_raw_error_message st = []
  | Some false =>
      connected st = false /\ text_empty (last_raw_error_message st) = false
  | None => connected st = false
  end.

Lemma sleep_before_retry_connected attempt st :
  connected (sleep_before_retry W attempt st).2 = connected st.
Proof. unfold sleep_before_retry. by case_match. Qed.

Lemma connect_attempt_left attempt st :
  connected st = false ->
  pass_left (connect_attempt W attempt st).1 (connect_attempt W attempt st).2.
Proof.
  intros Hc.
  unfold connect_attempt, on_value_error, on_exception, configuration_error,
    set_error, bind, modify, interact, ret.
  destruct (int_of_login _) as [login|details|details]; cbn.
  - destruct (mt5_initialize W _ _ _ _ _ _) as [[|]|[|] message]; cbn.
    + destruct (mt5_account_info W _); cbn; [done|].
      pose proof (sleep_before_retry_connected attempt) as Hs.
      match goal with |- context [sleep_before_retry W attempt ?s] =>
        specialize (Hs s); destruct (sleep_before_retry W attempt s) end.
      cbn in *; congruence.
    + pose proof (sleep_before_retry_connected attempt) as Hs.
      match goal with |- context [sleep_before_retry W attempt ?s] =>
        specialize (Hs s); destruct (sleep_before_retry W attempt s) end.
      cbn in *; congruence.
    + done.
    + destruct (mt5_terminal_info W _); cbn;
        pose proof (sleep_before_retry_connected attempt) as Hs;
        match goal with |- context [sleep_before_retry W attempt ?s] =>
          specialize (Hs s); destruct (sleep_before_retry W attempt s) end;
        cbn in *; congruence.
  - done.
  - destruct (mt5_terminal_info W _); cbn;
      pose proof (sleep_before_retry_connected attempt) as Hs;
      match goal with |- context [sleep_before_retry W attempt ?s] =>
        specialize (Hs s); destruct (sleep_before_retry W attempt s) end;
      cbn in *; congruence.
Qed.

Lemma connect_loop_left remaining attempt st :
  connected st = false ->
  pass_left (connect_loop W remaining attempt st).1
            (connect_loop W remaining attempt st).2.
Proof.
  revert attempt st. induction remaining as [|n IH]; intros attempt st Hc; [done|].
  simpl. unfold bind.
  pose proof (connect_attempt_left attempt st Hc) as H1.
  destruct (connect_attempt W attempt st) as [[b|] st1]; cbn in *; [done|].
  by apply IH.
Qed.

End ConnectState.

(** X8: the value returned by [connect] is the connection flag it
    leaves behind; a failed [connect] always leaves a reason in
    [last_raw_error_message], and a [connect] that had to connect and
    succeeded leaves none. *)
Theorem connect_result_is_state :
  forall W st,
    let out := connect W st in
    connected out.2 = out.1 /\
    (out.1 = false -> text_empty (last_raw_error_message out.2) = false) /\
    (out.1 = true -> connected st = false -> last_raw_error_message out.2 = []).
Proof.
  intros W st out. subst out.
  unfold connect, set_error, bind, get, modify, ret.
  destruct (connected st) eqn:Hc; cbn; [done|].
  destruct (negb _ || negb _ || negb _); cbn; [done|].
  pose proof (connect_loop_left W (Z.to_nat (mt5_retries (settings W))) 0
                (set_last_raw_error_message [] st) Hc) as H.
  destruct (connect_loop W _ 0 _) as [[[|]|] st1]; cbn in *.
  - by destruct H as [-> ->].
  - by destruct H as [-> ->].
  - unfold text_empty in *.
    destruct (forallb frag_empty (last_raw_error_message st1)) eqn:He; cbn;
      repeat split; done.
Qed.

(** * Further properties of [TradingApp] *)

(** ** Writing the status of a signal *)

Lemma update_rows_lookup t symbol status note rows i r :
  rows !! i = Some r ->
  update_rows t symbol status note rows !! i
  = Some (if same_time (time r) t && String.eqb (Symbol r) symbol
          then mark status note r else r).
Proof. intros H. unfold update_rows. by rewrite list_lookup_fmap, H. Qed.

Lemma update_rows_twice t symbol status1 note1 status2 note2 rows :
  update_rows t symbol status2 note2 (update_rows t symbol status1 note1 rows)
  = update_rows t symbol status2 note2 rows.
Proof.
  unfold update_rows. rewrite <- list_fmap_compose. apply list_fmap_ext.
  intros i r _. simpl.
  destruct (same_time (time r) t && String.eqb (Symbol r) symbol) eqn:E; simpl;
    by rewrite E.
Qed.

(** X9: writing a status for a time and a symbol changes, in the rows
    of the ledger with that time and that symbol, the executed flag
    and the note, and nothing else: the number and the order of the
    rows, every other row and every other column stay as they were,
    and so does the rest of the state.  A second write for the same
    time and symbol replaces the first, and a write without a time
    does nothing. *)
Theorem signal_status_write :
  forall t symbol status note st,
    let st' := (_update_signal_status_in_df (Some t) symbol status note st).2 in
    st' = set_df_signals (df_signals st') st /\
    length (df_signals st') = length (df_signals st) /\
    (forall i r,
       df_signals st !! i = Some r ->
       exists r',
         df_signals st' !! i = Some r' /\
         time r' = time r /\ Symbol r' = Symbol r /\ signal r' = signal r /\
         confidence r' = confidence r /\ close r' = close r /\
         spread_pips r' = spread_pips r /\
         take_profit_pips r' = take_profit_pips r /\
         stop_loss_pips r' = stop_loss_pips r /\
         (time r = Some t -> Symbol r = symbol ->
          executed r' = status /\ notes r' = note) /\
         (time r <> Some t \/ Symbol r <> symbol -> r' = r)) /\
    (forall status2 note2,
       (_update_signal_status_in_df (Some t) symbol status2 note2 st').2
       = (_update_signal_status_in_df (Some t) symbol status2 note2 st).2) /\
    _update_signal_status_in_df None symbol status note st = (tt, st).
Proof.
  intros t symbol status note st st'. subst st'.
  unfold _update_signal_status_in_df, modify. cbn -[update_rows].
  split; [done|]. split; [unfold update_rows; by rewrite length_map|].
  split; [|split; [|done]].
  - intros i r Hr. rewrite (update_rows_lookup _ _ _ _ _ _ _ Hr).
    eexists. split; [done|].
    destruct (same_time (time r) t && String.eqb (Symbol r) symbol) eqn:E.
    + apply andb_true_iff in E as [Ht Hs]. apply String.eqb_eq in Hs.
      unfold same_time in Ht. destruct (time r) as [x|] eqn:Hx; [|done].
      apply Z.eqb_eq in Ht. subst.
      do 8 (split; [done|]). split; [done|].
      intros [?|?]; congruence.
    + do 8 (split; [done|]). split; [|done].
      intros Ht Hs. exfalso. rewrite Ht, Hs in E. unfold same_time in E.
      by rewrite Z.eqb_refl, String.eqb_refl in E.
  - intros status2 note2. unfold set_df_signals. cbn -[update_rows].
    by rewrite update_rows_twice.
Qed.

(** ** The news flag *)

(** X10: [on_news_updated_ui] changes nothing but the news flag; after
    it the news gate blocks exactly when the list of news was not
    empty and trades are to be halted on news, and then an attempt
    that the trading-hours gate lets through ends at the news gate,
    with its reason and without any order. *)
Theorem news_update_drives_gate :
  forall W news_list signal_data order_type_override is_auto_trade st,
    let halted :=
      (if news_list is [] then false else true)
      && halt_trades_on_news (settings W) in
    let st1 := (on_news_updated_ui W news_list st).2 in
    let out := execute_trade_from_signal_data W signal_data order_type_override
                 is_auto_trade st1 in
    st1 = set_trading_allowed_by_news (negb halted) st /\
    (check_news_filter W signal_data is_auto_trade st1).1
    = (if halted
       then Return (Ok (false, Message [source_log_prefix is_auto_trade;
                                        Lit ": Blocked by news event"]))
       else Continue tt) /\
    ((is_trading_time_allowed W st1).1 = true -> halted = true ->
     out.1 = Ok (false, Message [source_log_prefix is_auto_trade;
                                 Lit ": Blocked by news event"]) /\
     steps out.2 = steps st ++ [Gate TradingHours true; Gate News false] /\
     exists new, trace out.2 = trace st ++ new /\
                 count_calls is_order_send new = 0%nat).
Proof.
  intros W news_list signal_data order_type_override is_auto_trade st halted st1 out.
  assert (Hst1 : st1 = set_trading_allowed_by_news (negb halted) st) by done.
  split; [done|]. split.
  { unfold check_news_filter, block_before_selection, bind, get, reach, modify, ret.
    rewrite Hst1. cbn.
    assert (Hh : negb (negb halted) && halt_trades_on_news (settings W) = halted).
    { subst halted. destruct news_list; cbn; [done|].
      by destruct (halt_trades_on_news (settings W)). }
    rewrite Hh. destruct halted; [|done].
    destruct signal_data as [s|]; cbn; [|done].
    unfold _update_signal_status_in_df. by destruct (time s). }
  intros Hallowed Hhalted.
  assert (Hh : negb (trading_allowed_by_news st1)
               && halt_trades_on_news (settings W) = true).
  { rewrite Hst1. cbn. rewrite Hhalted. cbn. subst halted.
    by apply andb_true_iff in Hhalted as [_ ->]. }
  pose proof (quiet_is_trading_time_allowed W st1) as (t & Ht & Hn).
  subst out.
  unfold execute_trade_from_signal_data, ebind, check_time_filter, check_news_filter,
    block_before_selection, bind, get, reach, modify, ret.
  destruct (is_trading_time_allowed W st1) as [allowed st2]. cbn in *. subst.
  cbn. rewrite Hh. cbn.
  destruct signal_data as [s|]; cbn.
  - unfold _update_signal_status_in_df. destruct (time s); cbn;
      (split; [done|]); (split; [by rewrite <- app_assoc|]); by exists t.
  - split; [done|]. split; [by rewrite <- app_assoc|]. by exists t.
Qed.

Lemma news_update_drives_gate_witness :
  (execute_trade_from_signal_data LockExample.market (Some Examples.gold_signal)
     None true
     (on_news_updated_ui LockExample.market [("US Non-Farm Payrolls"%string, 0)]
        (Examples.idle true [Examples.gold_signal])).2).1
  = Ok (false, Message [Lit "AutoTrade"; Lit ": Blocked by news event"]) /\
  steps (execute_trade_from_signal_data LockExample.market
           (Some Examples.gold_signal) None true
           (on_news_updated_ui LockExample.market
              [("US Non-Farm Payrolls"%string, 0)]
              (Examples.idle true [Examples.gold_signal])).2).2
  = [] ++ [Gate TradingHours true; Gate News false] /\
  exists new,
    trace (execute_trade_from_signal_data LockExample.market
             (Some Examples.gold_signal) None true
             (on_news_updated_ui LockExample.market
                [("US Non-Farm Payrolls"%string, 0)]
                (Examples.idle true [Examples.gold_signal])).2).2
    = [] ++ new /\
    count_calls is_order_send new = 0%nat.
Proof.
  apply (news_update_drives_gate LockExample.market
           [("US Non-Farm Payrolls"%string, 0)] (Some Examples.gold_signal) None true
           (Examples.idle true [Examples.gold_signal])); by vm_compute.
Defined.

(** ** Automatic execution *)

Lemma set_lock_same st : set_auto_trade_locked (auto_trade_locked st) st = st.
Proof. by destruct st. Qed.

Lemma lock_blind_keeps_lock {A} (m : M A) st :
  lock_blind m -> auto_trade_locked (m st).2 = auto_trade_locked st.
Proof.
  intros Hm. specialize (Hm (auto_trade_locked st) st).
  rewrite set_lock_same in Hm.
  destruct (m st) as [a st']. cbn in *.
  by apply (f_equal (fun p => auto_trade_locked p.2)) in Hm.
Qed.

(** A note is all that [auto_note] leaves. *)
Lemma auto_note_state s note st :
  auto_note s note st
  = (Ok tt, set_df_signals (rows_after_note false s false note (df_signals st)) st).
Proof.
  unfold auto_note, _update_signal_status_in_df, rows_after_note, bind, modify, ret.
  destruct (time s); [done|by destruct st].
Qed.

(** X11: a signal that is not to be executed automatically (automatic
    trading disabled, the terminal not connected, or a confidence
    below the threshold or not a number) only gets a note in the
    ledger: no gate is evaluated, nothing is asked of the venue or of
    the user, and the rest of the state stays as it was. *)
Theorem auto_execute_rejections :
  forall W s st,
    auto_trade_enabled (settings W) && connected st
    && (auto_trade_min_confidence (settings W) <=? confidence s)%float = false ->
    exists note,
      text_empty note = false /\
      auto_execute_model_signal_if_conditions_met W s st
      = (Ok tt,
         set_df_signals (rows_after_note false s false note (df_signals st)) st).
Proof.
  intros W s st H.
  unfold auto_execute_model_signal_if_conditions_met, is_connected, bind, get.
  destruct (auto_trade_enabled (settings W)); cbn in *.
  - destruct (connected st); cbn in *.
    + rewrite H. eexists. split; [|apply auto_note_state]. done.
    + eexists. split; [|apply auto_note_state]. done.
  - eexists. split; [|apply auto_note_state]. done.
Qed.

Lemma auto_execute_rejections_witness :
  exists note,
    text_empty note = false /\
    auto_execute_model_signal_if_conditions_met LockExample.market
      Examples.gold_signal (Examples.idle false [Examples.gold_signal])
    = (Ok tt,
       set_df_signals
         (rows_after_note false Examples.gold_signal false note
            (df_signals (Examples.idle false [Examples.gold_signal])))
         (Examples.idle false [Examples.gold_signal])).
Proof.
  apply (auto_execute_rejections LockExample.market Examples.gold_signal
           (Examples.idle false [Examples.gold_signal])).
  by vm_compute.
Defined.


(** ** The trading session shown *)

Section TradingSession.

Lemma hour_of_range now : 0 <= PyDate.hour_of now < 24.
Proof.
  unfold PyDate.hour_of, PyTime.DAY, PyTime.HOUR, PyTime.MINUTE, PyTime.SECOND.
  pose proof (Z.mod_pos_bound now (24 * (60 * (60 * 1000000))) ltac:(lia)).
  split; [apply Z.div_pos; lia|].
  apply Z.div_lt_upper_bound; lia.
Qed.

Lemma weekday_of_range now : 0 <= PyDate.weekday_of now < 7.
Proof. unfold PyDate.weekday_of. apply Z.mod_pos_bound. lia. Qed.

Definition session_ok (weekday hour : Z) : bool :=
  existsb (String.eqb (session_text weekday hour)) session_texts
  && Bool.eqb (String.eqb (session_text weekday hour) CLOSED_WEEKEND)
              (weekend_closed weekday hour)
  && (length (sessions_open weekday hour) <=? 2)%nat.

Lemma session_ok_all weekday hour :
  0 <= weekday < 7 -> 0 <= hour < 24 -> session_ok weekday hour = true.
Proof.
  intros Hw Hh.
  assert (H : forallb (fun w => forallb (session_ok w) (seqZ 0 24)) (seqZ 0 7) = true)
    by by vm_compute.
  rewrite forallb_forall in H.
  specialize (H weekday). rewrite forallb_forall in H.
  apply H; apply list_elem_of_In, elem_of_seqZ; lia.
Qed.

(** X13: at every instant the session shown is the closed weekend, one
    of Sydney, London and New York alone, or an overlap of two
    neighbouring sessions; it never is the text for a weekday between
    sessions, the text for an undetermined day, or Tokyo alone.  The
    weekend is shown exactly from Friday 21:00 to Sunday 21:00 UTC. *)
Theorem trading_session_texts :
  forall W st,
    let now := now_utc W (length (trace st)) in
    let shown := (get_current_trading_session W st).1 in
    shown ∈ session_texts /\
    shown <> CLOSED_BETWEEN /\ shown <> CLOSED_UNSPECIFIED /\ shown <> TOKYO /\
    (length (sessions_open (PyDate.weekday_of now) (PyDate.hour_of now)) <= 2)%nat /\
    (shown = CLOSED_WEEKEND <->
     (PyDate.weekday_of now = 4 /\ 21 <= PyDate.hour_of now) \/
     PyDate.weekday_of now = 5 \/
     (PyDate.weekday_of now = 6 /\ PyDate.hour_of now < 21)).
Proof.
  intros W st now shown.
  pose proof (session_ok_all _ _ (weekday_of_range now) (hour_of_range now)) as Hok.
  assert (Hshown : shown
                   = session_text (PyDate.weekday_of now) (PyDate.hour_of now)) by done.
  clearbody shown. subst shown.
  unfold session_ok in Hok.
  apply andb_true_iff in Hok as [Hok Hlen]. apply andb_true_iff in Hok as [Hin Hweekend].
  apply existsb_exists in Hin as (text & Hin & Heq).
  apply String.eqb_eq in Heq. rewrite Heq in *. apply list_elem_of_In in Hin.
  assert (Hnot : forall other, other ∉ session_texts -> text <> other).
  { intros other Hother ->. by apply Hother. }
  split; [done|].
  split; [apply Hnot; apply (bool_decide_unpack _); by vm_compute|].
  split; [apply Hnot; apply (bool_decide_unpack _); by vm_compute|].
  split; [apply Hnot; apply (bool_decide_unpack _); by vm_compute|].
  split; [by apply Nat.leb_le|].
  apply Bool.eqb_prop in Hweekend. rewrite <- String.eqb_eq, Hweekend.
  unfold weekend_closed.
  rewrite !orb_true_iff, !andb_true_iff, !Z.eqb_eq, Z.leb_le, Z.ltb_lt. tauto.
Qed.

End TradingSession.

(** ** Closing all positions from the application *)

Section CloseAllFromApp.

Variable W : World.

#[local] Arguments PyStr.take : simpl never.
#[local] Arguments close_all_trades : simpl never.
#[local] Arguments get_open_positions : simpl never.

Lemma quiet_get_open_positions symbol magic :
  quiet_op (get_open_positions W symbol magic).
Proof. unfold get_open_positions, is_connected. quiet_tac. Qed.

Lemma close_all_own comment st :
  exists new,
    trace (close_all_trades W (Some (mt5_magic_number (settings W))) comment st).2
    = trace st ++ new /\
    forall j req, new !! j = Some (CallOrderSend req) -> closes_own W comment req.
Proof.
  destruct (close_all_calls W (Some (mt5_magic_number (settings W))) comment st)
    as (new & Hnew & _ & Hreq).
  exists new. split; [done|]. intros j req Hj.
  destruct (Hreq j req Hj) as (p & _ & Hcl & Hm). exists p. split; [done|].
  destruct Hcl as (_ & _ & _ & _ & <- & _). by apply Hm.
Qed.

(** X14: the close-all button submits orders only after the user has
    answered yes to the confirmation, which is asked only when some
    position carries the configured magic number; every order it
    submits closes a position under that magic number, with the
    comment ManCloseAll M<magic>. *)
Theorem manual_close_all_needs_yes :
  forall st,
    let comment :=
      ("ManCloseAll M" +:+ pretty (mt5_magic_number (settings W)))%string in
    exists new,
      trace (confirm_close_all_positions W st).2 = trace st ++ new /\
      forall j req,
        new !! j = Some (CallOrderSend req) ->
        (exists i, (i < j)%nat /\ new !! i = Some CallConfirm /\
                   ui_confirm W (length (trace st) + i) = true) /\
        closes_own W (PyStr.take 31 comment) req /\
        (get_open_positions W None (Some (mt5_magic_number (settings W))) st).1 <> [].
Proof.
  intros st comment.
  unfold confirm_close_all_positions, get_open_positions_count, is_connected,
    bind, get, interact, ret.
  destruct (connected st) eqn:Hc; cbn.
  2: { exists []. rewrite app_nil_r. split; [done|].
       intros j req Hj. by rewrite lookup_nil in Hj. }
  destruct (quiet_get_open_positions None (Some (mt5_magic_number (settings W))) st)
    as (t0 & Ht0 & Hn0).
  destruct (get_open_positions W None (Some (mt5_magic_number (settings W))) st)
    as [found st1] eqn:Hfound. cbn in *. subst st1.
  destruct (Z.of_nat (length found) =? 0) eqn:Hnum; cbn.
  { exists t0. split; [done|]. intros j req Hj.
    by pose proof (count_calls_zero_lookup _ _ _ _ Hn0 Hj). }
  destruct (ui_confirm W (length (trace st ++ t0))) eqn:Hyes; cbn.
  2: { exists (t0 ++ [CallConfirm]). split; [by rewrite app_assoc|].
       intros j req Hj. apply lookup_app_Some in Hj as [Hj|[_ Hj]].
       - by pose proof (count_calls_zero_lookup _ _ _ _ Hn0 Hj).
       - by destruct (j - length t0)%nat as [|[|]]. }
  match goal with
  | |- context [close_all_trades W ?m ?c ?s] =>
      destruct (close_all_own c s) as (new & Hnew & Hown);
      destruct (close_all_trades W m c s) as [r st2]
  end.
  cbn in *. exists (t0 ++ [CallConfirm] ++ new).
  split; [by rewrite Hnew, <- !app_assoc|].
  intros j req Hj. apply lookup_app_Some in Hj as [Hj|[Hlen Hj]].
  { by pose proof (count_calls_zero_lookup _ _ _ _ Hn0 Hj). }
  destruct (j - length t0)%nat as [|k] eqn:Hk; [done|]. cbn in Hj.
  split; [|split].
  - exists (length t0). split; [lia|]. split.
    + rewrite lookup_app_r, Nat.sub_diag; [done|lia].
    + by rewrite length_app in Hyes.
  - by eapply Hown.
  - intros ->. by cbn in Hnum.
Qed.

End CloseAllFromApp.

(** ** Closing on a profit target *)

Section AutoCloseMonitor.

Variable W : World.
Variable auto_close_by_points_enabled : bool.
Variable auto_close_target_points : float.
Variable price_open : Position -> float.

#[local] Arguments PyStr.take : simpl never.
#[local] Arguments close_all_trades : simpl never.
#[local] Arguments get_open_positions : simpl never.
#[local] Arguments total_profit_in_points : simpl never.

Lemma quiet_add_position_profit pos total :
  quiet_op (add_position_profit W price_open pos total).
Proof.
  unfold add_position_profit.
  quiet_tac; auto using quiet_get_symbol_info, quiet_get_tick.
Qed.

Lemma quiet_total_profit_in_points positions total :
  quiet_op (total_profit_in_points W price_open positions total).
Proof.
  revert total. induction positions as [|pos rest IH]; intros total; simpl.
  - apply quiet_op_ret.
  - apply quiet_op_bind; [apply quiet_add_position_profit|done].
Qed.

(** X15: the monitor submits orders only when closing on a profit
    target is enabled, the target is positive, and the profit in
    points summed over the positions under the configured magic
    number has reached the target; the orders it then submits close
    positions under that magic number, with the comment
    AutoClose M<magic> PtsTgt cut to 31 characters. *)
Theorem auto_close_only_on_target :
  forall st,
    let magic := mt5_magic_number (settings W) in
    let found := get_open_positions W None (Some magic) st in
    let total := (total_profit_in_points W price_open found.1 0 found.2).1 in
    let comment := ("AutoClose M" +:+ pretty magic +:+ " PtsTgt")%string in
    exists new,
      trace (monitor_positions_for_auto_close W auto_close_by_points_enabled
               auto_close_target_points price_open st).2 = trace st ++ new /\
      forall j req,
        new !! j = Some (CallOrderSend req) ->
        connected st = true /\
        auto_close_by_points_enabled = true /\
        (auto_close_target_points <=? 0)%float = false /\
        found.1 <> [] /\
        (auto_close_target_points <=? total)%float = true /\
        closes_own W (PyStr.take 31 comment) req.
Proof.
  intros st magic found total comment. subst total found comment magic.
  unfold monitor_positions_for_auto_close, is_connected, bind, get, ret.
  destruct (connected st) eqn:Hc; cbn.
  2: { exists []. rewrite app_nil_r. split; [done|].
       intros j req Hj. by rewrite lookup_nil in Hj. }
  destruct auto_close_by_points_enabled; cbn.
  2: { exists []. rewrite app_nil_r. split; [done|].
       intros j req Hj. by rewrite lookup_nil in Hj. }
  destruct (auto_close_target_points <=? 0)%float eqn:Htarget; cbn.
  { exists []. rewrite app_nil_r. split; [done|].
    intros j req Hj. by rewrite lookup_nil in Hj. }
  destruct (quiet_get_open_positions W None
              (Some (mt5_magic_number (settings W))) st) as (t0 & Ht0 & Hn0).
  destruct (get_open_positions W None (Some (mt5_magic_number (settings W))) st)
    as [positions st1].
  cbn in *. subst st1.
  destruct positions as [|p0 rest] eqn:Hpos; cbn.
  { exists t0. split; [done|]. intros j req Hj.
    by pose proof (count_calls_zero_lookup _ _ _ _ Hn0 Hj). }
  rewrite <- Hpos.
  destruct (quiet_total_profit_in_points positions 0
              (set_trace (trace st ++ t0) st)) as (t1 & Ht1 & Hn1).
  destruct (total_profit_in_points W price_open positions 0
              (set_trace (trace st ++ t0) st)) as [total st2]. cbn in *. subst st2.
  destruct (auto_close_target_points <=? total)%float eqn:Hreached; cbn.
  2: { exists (t0 ++ t1). split; [by rewrite app_assoc|].
       intros j req Hj. apply lookup_app_Some in Hj as [Hj|[_ Hj]].
       - by pose proof (count_calls_zero_lookup _ _ _ _ Hn0 Hj).
       - by pose proof (count_calls_zero_lookup _ _ _ _ Hn1 Hj). }
  match goal with
  | |- context [close_all_trades W ?m ?c ?s] =>
      destruct (close_all_own W c s) as (new & Hnew & Hown);
      destruct (close_all_trades W m c s) as [r st3]
  end.
  cbn in *. exists (t0 ++ t1 ++ new).
  split; [by rewrite Hnew, <- !app_assoc|].
  intros j req Hj. apply lookup_app_Some in Hj as [Hj|[_ Hj]].
  { by pose proof (count_calls_zero_lookup _ _ _ _ Hn0 Hj). }
  apply lookup_app_Some in Hj as [Hj|[_ Hj]].
  { by pose proof (count_calls_zero_lookup _ _ _ _ Hn1 Hj). }
  repeat split; try done.
  - by rewrite Hpos.
  - by eapply Hown.
Qed.

End AutoCloseMonitor.

(** ** Sizing without its inputs, and the spread gate *)

Lemma min_fallback_positive info : (0 <? min_fallback info)%float = true.
Proof.
  destruct info as [info|]; [|done]. simpl.
  by destruct (0 <? volume_min info)%float eqn:H.
Qed.

(** X20: when the lot cannot be sized, [calculate_lot_size_advanced]
    does not fail but returns a small positive lot.  Without a
    connection it returns 0.01 and asks the venue nothing.  With a
    risk percent that is zero or negative, or without account
    information, it returns the symbol's smallest volume when the
    venue gives a positive one and 0.01 otherwise.  With account
    information but no symbol information it returns 0.01. *)
Theorem lot_size_without_inputs :
  forall W symbol risk_percent sl_pips_for_lot_calc st,
    let out := calculate_lot_size_advanced W symbol risk_percent
                 sl_pips_for_lot_calc st in
    let n := length (trace st) in
    (connected st = false -> out.1 = Ok 0.01%float /\ trace out.2 = trace st) /\
    (connected st = true -> (risk_percent <=? 0)%float = true ->
     out.1 = Ok (min_fallback (mt5_symbol_info W n symbol)) /\
     trace out.2 = trace st ++ [CallSymbolInfo symbol]) /\
    (connected st = true -> (risk_percent <=? 0)%float = false ->
     mt5_account_info W n = None ->
     out.1 = Ok (min_fallback (mt5_symbol_info W (S n) symbol)) /\
     trace out.2 = trace st ++ [CallAccountInfo; CallSymbolInfo symbol]) /\
    (connected st = true -> (risk_percent <=? 0)%float = false ->
     is_Some (mt5_account_info W n) ->
     mt5_symbol_info W (S n) symbol = None ->
     out.1 = Ok 0.01%float /\
     trace out.2 = trace st ++ [CallAccountInfo; CallSymbolInfo symbol]) /\
    (forall info, (0 <? min_fallback info)%float = true).
Proof.
  intros W symbol risk_percent sl st out n. subst out n.
  unfold calculate_lot_size_advanced, get_account_info, get_symbol_info,
    is_connected, bind, get, interact, ret.
  split; [|split; [|split; [|split]]].
  - intros Hc. cbn. rewrite Hc. cbn. rewrite Hc. by cbn.
  - intros Hc Hrisk. cbn. rewrite Hc, Hrisk. cbn. rewrite Hc. cbn. rewrite Hc. by cbn.
  - intros Hc Hrisk Hacc. cbn. rewrite Hc, Hrisk. cbn. rewrite Hc. cbn.
    rewrite Hacc. cbn. rewrite Hc. cbn.
    rewrite length_app, Nat.add_1_r. cbn. by rewrite <- app_assoc.
  - intros Hc Hrisk [acc Hacc] Hinfo. cbn. rewrite Hc, Hrisk. cbn. rewrite Hc. cbn.
    rewrite Hacc. cbn. rewrite Hc. cbn.
    rewrite length_app, Nat.add_1_r. cbn. rewrite Hinfo. cbn.
    by rewrite <- app_assoc.
  - apply min_fallback_positive.
Qed.

Section SpreadGate.

Variable W : World.

#[local] Arguments get_current_spread : simpl never.

(** X21: the spread gate works on the live spread of the venue and,
    only when there is none, on the spread the signal carries.  It
    passes exactly when such a spread exists and either the symbol's
    maximum is zero or negative (no limit) or the spread does not
    exceed the maximum; otherwise the attempt returns false with the
    reason.  The gate's verdict is recorded either way. *)
Theorem spread_gate_decision :
  forall s is_auto_trade st,
    let live := (get_current_spread W (Symbol s) st).1 in
    let spread := match live with Some z => Some z | None => spread_pips s end in
    let limit := max_allowed_spread W (Symbol s) in
    let out := check_spread W s is_auto_trade st in
    (out.1 = Continue tt <->
     exists z, spread = Some z /\ (limit <= 0 \/ z <= limit)) /\
    (out.1 = Continue tt \/ exists note, out.1 = Return (Ok (false, Message note))) /\
    exists verdict,
      steps out.2 = steps st ++ [Gate Spread verdict] /\
      (verdict = true <-> out.1 = Continue tt).
Proof.
  intros s is_auto_trade st live spread limit out. subst out spread live limit.
  unfold check_spread, bind.
  pose proof (quiet_get_current_spread W (Symbol s) st) as (t & Hq & _).
  destruct (get_current_spread W (Symbol s) st) as [live st1]. cbn [fst snd] in *.
  subst st1.
  assert (Hblock : forall note st2,
            steps st2 = steps st ++ [Gate Spread false] ->
            let out := block (A:=unit) s note st2 in
            out.1 = Return (Ok (false, Message note)) /\
            steps out.2 = steps st ++ [Gate Spread false]).
  { intros note st2 Hst2. unfold block, bind, ret. cbn -[note_signal].
    pose proof (note_signal_rest s false note st2) as (Hn & _).
    destruct (note_signal s false note st2) as [[] st3]. cbn [fst snd] in *.
    split; [done|]. by rewrite Hn. }
  destruct (match live with Some z => Some z | None => spread_pips s end)
    as [z|] eqn:Hspread.
  - destruct ((0 <? max_allowed_spread W (Symbol s))
              && (max_allowed_spread W (Symbol s) <? z)) eqn:Hover.
    + apply andb_prop in Hover as [H1 H2]. apply Z.ltb_lt in H1, H2.
      unfold reach, modify. cbn -[block].
      edestruct Hblock as [Hres Hsteps]; [|rewrite Hres, Hsteps]; [done|].
      split; [|split].
      * split; [done|]. intros (z' & [= <-] & Hz). lia.
      * right. by eexists.
      * exists false. split; [done|]. by split.
    + unfold reach, modify, ret. cbn.
      split; [|split].
      * split; [|done]. intros _. exists z. split; [done|].
        apply andb_false_iff in Hover as [H|H]; [left; apply Z.ltb_ge in H|right;
          apply Z.ltb_ge in H]; lia.
      * by left.
      * exists true. by split.
  - unfold reach, modify. cbn -[block].
    edestruct Hblock as [Hres Hsteps]; [|rewrite Hres, Hsteps]; [done|].
    split; [|split].
    + split; [done|]. by intros (z' & ? & _).
    + right. by eexists.
    + exists false. split; [done|]. by split.
Qed.

End SpreadGate.

(** * The calls made by an attempt *)

Section Rules.

Lemma obeys_weaken (G G' : rule) {A} (m : M A) :
  (forall n t, G n t -> G' n t) -> obeys G m -> obeys G' m.
Proof. intros HG Hm st. destruct (Hm st) as (t & Ht & Hg). exists t. auto. Qed.

Section Only.

Variable P : ext_call -> bool.

Lemma only_ret {A} (a : A) : obeys (only P) (ret a).
Proof. intros st. exists []. by rewrite app_nil_r. Qed.

Lemma only_get {A} (f : State -> A) : obeys (only P) (get f).
Proof. intros st. exists []. by rewrite app_nil_r. Qed.

Lemma only_modify (f : State -> State) :
  (forall st, trace (f st) = trace st) -> obeys (only P) (modify f).
Proof. intros Hf st. exists []. rewrite app_nil_r. by split; [apply Hf|]. Qed.

Lemma only_reach s : obeys (only P) (reach s).
Proof. by apply only_modify. Qed.

Lemma only_interact {A} c (answer : nat -> A) :
  P c = true -> obeys (only P) (interact c answer).
Proof. intros Hc st. exists [c]. split; [done|]. unfold only. simpl. by rewrite Hc. Qed.

Lemma only_bind {A B} (m : M A) (k : A -> M B) :
  obeys (only P) m -> (forall a, obeys (only P) (k a)) -> obeys (only P) (bind m k).
Proof.
  intros Hm Hk st. unfold bind. destruct (Hm st) as (t1 & Ht1 & Hp1).
  destruct (m st) as [a st1]. cbn in *.
  destruct (Hk a st1) as (t2 & Ht2 & Hp2).
  exists (t1 ++ t2). split; [by rewrite Ht2, Ht1, app_assoc|].
  unfold only in *. by rewrite forallb_app, Hp1, Hp2.
Qed.

Lemma only_if {A} (b : bool) (m1 m2 : M A) :
  obeys (only P) m1 -> obeys (only P) m2 -> obeys (only P) (if b then m1 else m2).
Proof. by destruct b. Qed.

Lemma only_ebind {A B} (m : E A) (k : A -> E B) :
  obeys (only P) m -> (forall a, obeys (only P) (k a)) -> obeys (only P) (ebind m k).
Proof.
  intros Hm Hk. unfold ebind. apply only_bind; [done|].
  intros [a|r]; [apply Hk|apply only_ret].
Qed.

Lemma only_raise {A} (r : pyres A) : obeys (only P) (raise r).
Proof. destruct r; apply only_ret. Qed.

End Only.

End Rules.

Create HintDb only_calls.

Ltac only_tac :=
  repeat first
    [ solve [auto 1 with only_calls nocore]
    | apply only_ret
    | apply only_reach
    | apply only_get
    | apply only_interact; reflexivity
    | apply only_modify; intros ?; reflexivity
    | apply only_raise
    | apply only_ebind; [|intros ?]
    | apply only_bind; [|intros ?]
    | apply only_if
    | progress case_match ].

(** The calls of the operations an attempt is made of, when [P]
    accepts the questions to the clock and to the venue. *)
Section OnlyOps.

Variable W : World.
Variable P : ext_call -> bool.
Hypothesis P_now : P CallNow = true.
Hypothesis P_account : P CallAccountInfo = true.
Hypothesis P_info : forall symbol, P (CallSymbolInfo symbol) = true.
Hypothesis P_tick : forall symbol, P (CallSymbolInfoTick symbol) = true.

Ltac only_ops :=
  repeat first
    [ solve [auto 1 with only_calls nocore]
    | apply only_ret
    | apply only_reach
    | apply only_get
    | apply only_interact; first [reflexivity | apply P_now | apply P_account
                                 | apply P_info | apply P_tick]
    | apply only_modify; intros ?; reflexivity
    | apply only_raise
    | apply only_ebind; [|intros ?]
    | apply only_bind; [|intros ?]
    | apply only_if
    | progress case_match ].

Lemma only_get_symbol_info symbol : obeys (only P) (get_symbol_info W symbol).
Proof using P_info. unfold get_symbol_info, is_connected. only_ops. Qed.
#[local] Hint Resolve only_get_symbol_info : only_calls.

Lemma only_get_tick symbol : obeys (only P) (get_tick W symbol).
Proof using P_tick. unfold get_tick, is_connected. only_ops. Qed.
#[local] Hint Resolve only_get_tick : only_calls.

Lemma only_get_account_info : obeys (only P) (get_account_info W).
Proof using P_account. unfold get_account_info, is_connected. only_ops. Qed.
#[local] Hint Resolve only_get_account_info : only_calls.

Lemma only_get_current_spread symbol : obeys (only P) (get_current_spread W symbol).
Proof using P_info P_tick. unfold get_current_spread, is_connected. only_ops. Qed.
#[local] Hint Resolve only_get_current_spread : only_calls.

Lemma only_is_trading_time_allowed : obeys (only P) (is_trading_time_allowed W).
Proof using P_now. unfold is_trading_time_allowed, trading_time_check. only_ops. Qed.
#[local] Hint Resolve only_is_trading_time_allowed : only_calls.

Lemma only_convert_point_value value profit account :
  obeys (only P) (convert_point_value W value profit account).
Proof using P_tick. unfold convert_point_value. only_ops. Qed.
#[local] Hint Resolve only_convert_point_value : only_calls.

Lemma only_calculate_lot_size_advanced symbol risk sl :
  obeys (only P) (calculate_lot_size_advanced W symbol risk sl).
Proof using P_account P_info P_tick.
  unfold calculate_lot_size_advanced, is_connected. only_ops.
Qed.
#[local] Hint Resolve only_calculate_lot_size_advanced : only_calls.

Lemma only_update signal_time symbol executed_status note :
  obeys (only P) (_update_signal_status_in_df signal_time symbol executed_status note).
Proof. unfold _update_signal_status_in_df. only_ops. Qed.
#[local] Hint Resolve only_update : only_calls.

Lemma only_note_signal s executed_status note :
  obeys (only P) (note_signal s executed_status note).
Proof. unfold note_signal. only_ops. Qed.
#[local] Hint Resolve only_note_signal : only_calls.

Lemma only_block {A} s note : obeys (only P) (block (A:=A) s note).
Proof. unfold block. only_ops. Qed.
#[local] Hint Resolve only_block : only_calls.

Lemma only_block_before_selection {A} signal_data note :
  obeys (only P) (block_before_selection (A:=A) signal_data note).
Proof. unfold block_before_selection. only_ops. Qed.
#[local] Hint Resolve only_block_before_selection : only_calls.

Lemma only_min_interval_verdict is_auto_trade symbol :
  obeys (only P) (min_interval_verdict W is_auto_trade symbol).
Proof using P_now. unfold min_interval_verdict. only_ops. Qed.
#[local] Hint Resolve only_min_interval_verdict : only_calls.

Lemma only_check_time_filter signal_data is_auto_trade :
  obeys (only P) (check_time_filter W signal_data is_auto_trade).
Proof using P_now. unfold check_time_filter. only_ops. Qed.

Lemma only_check_news_filter signal_data is_auto_trade :
  obeys (only P) (check_news_filter W signal_data is_auto_trade).
Proof. unfold check_news_filter. only_ops. Qed.

Lemma only_check_connection signal_data is_auto_trade :
  obeys (only P) (check_connection signal_data is_auto_trade).
Proof. unfold check_connection, is_connected. only_ops. Qed.

Lemma only_get_signal_data signal_data :
  (signal_data = None -> P CallSelectedRow = true) ->
  obeys (only P) (get_signal_data W signal_data).
Proof.
  intros Hrow. unfold get_signal_data. destruct signal_data; [apply only_ret|].
  apply only_bind; [apply only_get|intros rows].
  apply only_bind; [apply only_interact; by apply Hrow|intros picked].
  destruct picked; apply only_ret.
Qed.

Lemma only_validate_signal s order_type_override is_auto_trade :
  obeys (only P) (validate_signal s order_type_override is_auto_trade).
Proof. unfold validate_signal. only_ops. Qed.

Lemma only_check_min_interval s is_auto_trade :
  obeys (only P) (check_min_interval W s is_auto_trade).
Proof using P_now. unfold check_min_interval. only_ops. Qed.

Lemma only_fetch_symbol_info s is_auto_trade :
  obeys (only P) (fetch_symbol_info W s is_auto_trade).
Proof using P_info. unfold fetch_symbol_info. only_ops. Qed.

Lemma only_check_spread s is_auto_trade :
  obeys (only P) (check_spread W s is_auto_trade).
Proof using P_info P_tick. unfold check_spread. only_ops. Qed.

Lemma only_compute_lot s symbol_info :
  obeys (only P) (compute_lot W s symbol_info).
Proof using P_account P_info P_tick.
  unfold compute_lot. apply only_bind; [apply only_reach|intros _].
  apply only_bind; [apply only_calculate_lot_size_advanced|intros lot].
  apply only_ebind; [apply only_raise|intros ?]. apply only_raise.
Qed.

Lemma only_determine_prices s symbol_info final_order_type_str is_auto_trade :
  obeys (only P) (determine_prices W s symbol_info final_order_type_str is_auto_trade).
Proof using P_tick.
  unfold determine_prices.
  apply only_bind; [apply only_get_tick|intros [tick|]]; [|apply only_block].
  case_match; [apply only_block|].
  repeat (apply only_ebind; [apply only_raise|intros ?]).
  apply only_ret.
Qed.

Lemma only_confirm_trade s is_auto_trade :
  (is_auto_trade = false -> P CallConfirm = true) ->
  obeys (only P) (confirm_trade W s is_auto_trade).
Proof.
  intros Hconfirm. unfold confirm_trade. destruct is_auto_trade; [apply only_ret|].
  cbn. apply only_bind; [apply only_interact; by apply Hconfirm|intros yes].
  destruct yes; cbn; [apply only_ret|apply only_block].
Qed.

End OnlyOps.

Section OnlySubmission.

Variable W : World.
Variable P : ext_call -> bool.
Hypothesis P_now : P CallNow = true.
Hypothesis P_last_error : P CallLastError = true.
Hypothesis P_tick : forall symbol, P (CallSymbolInfoTick symbol) = true.
Hypothesis P_check : forall req, P (CallOrderCheck req) = true.
Hypothesis P_send : forall req, P (CallOrderSend req) = true.

#[local] Arguments _get_retcode_description : simpl never.
#[local] Arguments PyStr.take : simpl never.

Lemma only_send_order symbol order_type volume price sl tp comment :
  obeys (only P) (send_order W symbol order_type volume price sl tp comment).
Proof using P_last_error P_tick P_check P_send.
  unfold send_order, is_connected, set_error.
  repeat first
    [ apply only_ret
    | apply only_get
    | apply only_interact;
      first [apply P_last_error | apply P_tick | apply P_check | apply P_send]
    | apply only_modify; intros ?; reflexivity
    | apply only_bind; [|intros ?]
    | apply only_if
    | progress case_match ].
Qed.

Lemma only_after_send_order s is_auto_trade (sent : bool * payload) :
  obeys (only P)
    (match order_accepted sent.1 sent.2 with
     | Some result =>
         do now <- interact CallNow (now_utc W);
         modify (fun st =>
                   set_last_trade_time (<[Symbol s := now]> (last_trade_time st)) st);;
         note_signal s true
           [source_log_prefix is_auto_trade; Lit ": Executed. Order ID: ";
            Int (order result)];;
         modify (fun st => set_saved_signals (Some (df_signals st)) st);;
         ret (Ok (true, Result result))
     | None =>
         note_signal s false
           ([source_log_prefix is_auto_trade; Lit ": Failed - "]
            ++ order_error_message sent.2);;
         ret (Ok (false, Message (order_error_message sent.2)))
     end : M outcome).
Proof using P_now.
  destruct (order_accepted sent.1 sent.2).
  - apply only_bind; [by apply only_interact|intros now].
    apply only_bind; [by apply only_modify|intros _].
    apply only_bind; [apply only_note_signal|intros _].
    apply only_bind; [by apply only_modify|intros _]. apply only_ret.
  - apply only_bind; [apply only_note_signal|intros _]. apply only_ret.
Qed.

Lemma only_send_and_process s final_order_type_str lot prices is_auto_trade :
  obeys (only P) (send_and_process W s final_order_type_str lot prices is_auto_trade).
Proof using P_now P_last_error P_tick P_check P_send.
  unfold send_and_process.
  apply only_bind; [apply only_reach|intros _].
  apply only_bind; [apply only_send_order|intros sent].
  by apply only_after_send_order.
Qed.

End OnlySubmission.

(** The steps of an attempt that come before the confirmation. *)
Definition venue_or_clock (P : ext_call -> bool) : Prop :=
  P CallNow = true /\ P CallAccountInfo = true /\
  (forall symbol, P (CallSymbolInfo symbol) = true) /\
  (forall symbol, P (CallSymbolInfoTick symbol) = true).

Lemma venue_or_clock_no_send : venue_or_clock no_send.
Proof. by repeat split. Qed.

Lemma venue_or_clock_no_ui : venue_or_clock no_ui.
Proof. by repeat split. Qed.

Section AutomaticAttempt.

Variable W : World.

(** X16: an automatic attempt asks nothing of the user: among the
    calls it makes there is neither a confirmation dialog nor a read of
    the row selected in the table, whatever the signal and wherever the
    attempt stops. *)
Theorem automatic_attempt_never_prompts :
  forall s order_type_override st,
    let out := execute_trade_from_signal_data W (Some s) order_type_override true st in
    exists new,
      trace out.2 = trace st ++ new /\
      count_calls is_ui new = 0%nat.
Proof.
  intros s order_type_override st out.
  assert (H : obeys (only no_ui)
                (execute_trade_from_signal_data W (Some s) order_type_override true)).
  { destruct venue_or_clock_no_ui as (Hnow & Hacc & Hinfo & Htick).
    unfold execute_trade_from_signal_data.
    apply only_bind; [|intros [r|r]; apply only_ret].
    apply only_ebind; [by apply only_check_time_filter|intros _].
    apply only_ebind; [apply only_check_news_filter|intros _].
    apply only_ebind; [apply only_check_connection|intros _].
    apply only_ebind; [by apply only_get_signal_data|intros s'].
    apply only_ebind; [apply only_validate_signal|intros ty].
    apply only_ebind; [by apply only_check_min_interval|intros _].
    apply only_ebind; [by apply only_fetch_symbol_info|intros info].
    apply only_ebind; [by apply only_check_spread|intros _].
    apply only_ebind; [by apply only_compute_lot|intros lot].
    apply only_ebind; [by apply only_determine_prices|intros prices].
    apply only_ebind; [by apply only_confirm_trade|intros _].
    unfold lift. apply only_bind; [|intros ?; apply only_ret].
    by apply only_send_and_process. }
  destruct (H st) as (new & Hnew & Hp). exists new. split; [done|].
  unfold only in Hp. unfold count_calls. clear -Hp.
  induction new as [|c new IH]; [done|]. simpl in *.
  apply andb_prop in Hp as [Hc Hp]. unfold no_ui in Hc.
  destruct (is_ui c); [done|]. by apply IH.
Qed.

End AutomaticAttempt.

Section Lenient.

Lemma no_send_lookup t j req :
  forallb no_send t = true -> t !! j = Some (CallOrderSend req) -> False.
Proof.
  revert j. induction t as [|c t IH]; intros j Hp Hj; [done|].
  simpl in Hp. apply andb_prop in Hp as [Hc Hp].
  destruct j as [|j]; simplify_eq/=. by eapply IH.
Qed.

Lemma no_send_count t :
  forallb no_send t = true <-> count_calls is_order_send t = 0%nat.
Proof.
  unfold count_calls, no_send. induction t as [|c t IH]; [done|]. simpl.
  destruct (is_order_send c); simpl; [|done]. split; [done|lia].
Qed.

Lemma lookup_after_quiet t1 t2 j req :
  forallb no_send t1 = true ->
  (t1 ++ t2) !! j = Some (CallOrderSend req) ->
  exists k, j = (length t1 + k)%nat /\ t2 !! k = Some (CallOrderSend req).
Proof.
  intros Hp Hj. apply lookup_app_Some in Hj as [Hj|[Hlen Hj]].
  - by destruct (no_send_lookup _ _ _ Hp Hj).
  - exists (j - length t1)%nat. split; [lia|done].
Qed.

Lemma lookup_before_quiet t1 t2 j req :
  forallb no_send t2 = true ->
  (t1 ++ t2) !! j = Some (CallOrderSend req) ->
  t1 !! j = Some (CallOrderSend req).
Proof.
  intros Hp Hj. apply lookup_app_Some in Hj as [Hj|[Hlen Hj]]; [done|].
  by destruct (no_send_lookup _ _ _ Hp Hj).
Qed.

Lemma lenient_at_most_one_order : lenient at_most_one_order.
Proof.
  unfold lenient, at_most_one_order. split; [|split].
  - intros _. unfold count_calls. simpl. lia.
  - intros n t1 t2 Hp H. apply no_send_count in Hp.
    rewrite count_calls_app. lia.
  - intros n t1 t2 H Hp. apply no_send_count in Hp.
    rewrite count_calls_app. lia.
Qed.

Lemma lenient_confirmed_by_user W : lenient (confirmed_by_user W).
Proof.
  unfold lenient, confirmed_by_user. split; [|split].
  - intros n j req Hj. by rewrite lookup_nil in Hj.
  - intros n t1 t2 Hp H j req Hj.
    apply lookup_after_quiet in Hj as (k & -> & Hk); [|done].
    destruct (H k req Hk) as (i & Hi & Hc & Hyes).
    exists (length t1 + i)%nat. split; [lia|]. split.
    + rewrite lookup_app_r by lia. by replace (length t1 + i - length t1)%nat with i by lia.
    + by rewrite Nat.add_assoc.
  - intros n t1 t2 H Hp j req Hj.
    apply lookup_before_quiet in Hj; [|done].
    destruct (H j req Hj) as (i & Hi & Hc & Hyes).
    exists i. split; [done|]. split; [|done].
    apply lookup_app_l_Some. done.
Qed.

Lemma lenient_checked_orders W shape : lenient (checked_orders W shape).
Proof.
  unfold lenient, checked_orders. split; [|split].
  - intros n j req Hj. by rewrite lookup_nil in Hj.
  - intros n t1 t2 Hp H j req Hj.
    apply lookup_after_quiet in Hj as (k & -> & Hk); [|done].
    destruct (H k req Hk) as (Hs & i & c & -> & Hi & Hc & Hdone).
    split; [done|]. exists (length t1 + i)%nat, c. split; [lia|]. split.
    + rewrite lookup_app_r by lia. by replace (length t1 + i - length t1)%nat with i by lia.
    + by rewrite Nat.add_assoc.
  - intros n t1 t2 H Hp j req Hj.
    apply lookup_before_quiet in Hj; [|done].
    destruct (H j req Hj) as (Hs & i & c & -> & Hi & Hc & Hdone).
    split; [done|]. exists i, c. split; [done|]. split; [|done].
    by apply lookup_app_l_Some.
Qed.

Variable G : rule.
Hypothesis G_lenient : lenient G.

Lemma obeys_quiet {A} (m : M A) : obeys (only no_send) m -> obeys G m.
Proof using G_lenient.
  intros Hm st. destruct (Hm st) as (t & Ht & Hp). exists t. split; [done|].
  destruct G_lenient as (Hnil & Hbefore & _).
  rewrite <- (app_nil_r t). apply Hbefore; [done|apply Hnil].
Qed.

Lemma obeys_bind_quiet {A B} (m : M A) (k : A -> M B) (Q : A -> Prop) :
  obeys (only no_send) m ->
  (forall st, Q (m st).1) ->
  (forall a, Q a -> obeys G (k a)) ->
  obeys G (bind m k).
Proof using G_lenient.
  intros Hm HQ Hk st. unfold bind. destruct (Hm st) as (t1 & Ht1 & Hp1).
  specialize (HQ st). destruct (m st) as [a st1]. cbn in *.
  destruct (Hk a HQ st1) as (t2 & Ht2 & Hg).
  exists (t1 ++ t2). split; [by rewrite Ht2, Ht1, app_assoc|].
  destruct G_lenient as (_ & Hbefore & _). apply Hbefore; [done|].
  by rewrite Ht1, length_app in Hg.
Qed.

Lemma obeys_then_quiet {A B} (m : M A) (k : A -> M B) :
  obeys G m -> (forall a, obeys (only no_send) (k a)) -> obeys G (bind m k).
Proof using G_lenient.
  intros Hm Hk st. unfold bind. destruct (Hm st) as (t1 & Ht1 & Hg).
  destruct (m st) as [a st1]. cbn in *.
  destruct (Hk a st1) as (t2 & Ht2 & Hp).
  exists (t1 ++ t2). split; [by rewrite Ht2, Ht1, app_assoc|].
  destruct G_lenient as (_ & _ & Hafter). by apply Hafter.
Qed.

Lemma obeys_ebind_quiet {A B} (m : E A) (k : A -> E B) (Q : A -> Prop) :
  obeys (only no_send) m ->
  (forall st a, (m st).1 = Continue a -> Q a) ->
  (forall a, Q a -> obeys G (k a)) ->
  obeys G (ebind m k).
Proof using G_lenient.
  intros Hm HQ Hk. unfold ebind.
  apply (obeys_bind_quiet m _
           (fun f => match f with Continue a => Q a | Return _ => True end));
    [done| |].
  - intros st. specialize (HQ st). destruct (m st).1; [by apply HQ|done].
  - intros [a|r] Ha; [by apply Hk|]. apply obeys_quiet, only_ret.
Qed.

Lemma obeys_ebind_quiet_any {A B} (m : E A) (k : A -> E B) :
  obeys (only no_send) m -> (forall a, obeys G (k a)) -> obeys G (ebind m k).
Proof using G_lenient.
  intros Hm Hk. apply (obeys_ebind_quiet m k (fun _ => True)); auto.
Qed.

End Lenient.

Lemma positive_or_zero_nonneg x : (0 <=? positive_or_zero x)%float = true.
Proof.
  unfold positive_or_zero. destruct (0 <? x)%float eqn:Hx; [|done].
  rewrite FloatAxioms.ltb_spec in Hx. rewrite FloatAxioms.leb_spec.
  unfold SFltb in Hx. unfold SFleb.
  by destruct (SFcompare (Prim2SF 0) (Prim2SF x)) as [[]|].
Qed.

Section AttemptRules.

Variable W : World.

#[local] Arguments send_order : simpl never.
#[local] Arguments PyStr.take : simpl never.

Lemma at_most_one_send_order symbol order_type volume price sl tp comment :
  obeys at_most_one_order (send_order W symbol order_type volume price sl tp comment).
Proof.
  intros st.
  destruct (send_order_calls W symbol order_type volume price sl tp comment st)
    as (new & Hnew & Hcases).
  exists new. split; [done|]. unfold at_most_one_order.
  destruct Hcases as [H0 | (tick & req & c & tail & -> & Htail & _)]; [lia|].
  unfold count_calls in *. simpl. rewrite Htail. lia.
Qed.

Lemma checked_send_order s final_order_type_str volume sl tp comment :
  order_type_valid final_order_type_str = true ->
  obeys (checked_orders W (order_of_signal W s final_order_type_str))
    (send_order W (Symbol s) final_order_type_str volume None
       (positive_or_zero sl) (positive_or_zero tp) comment).
Proof.
  intros Hvalid st.
  destruct (send_order_calls W (Symbol s) final_order_type_str volume None
              (positive_or_zero sl) (positive_or_zero tp) comment st)
    as (new & Hnew & Hcases).
  exists new. split; [done|]. intros j req Hj.
  destruct Hcases as [H0 | (tick & req' & c & tail & -> & Htail & _ & Hc & Hdone &
                            Hshape & Hprice & Hside)].
  { by pose proof (count_calls_zero_lookup _ _ _ _ H0 Hj). }
  destruct j as [|[|[|j]]]; simplify_eq/=;
    [|by pose proof (count_calls_zero_lookup _ _ _ _ Htail Hj)].
  split.
  - unfold order_of_signal.
    split; [by rewrite Hshape|]. split; [by rewrite Hshape|].
    split; [by rewrite Hshape|]. split.
    { unfold order_type_valid in Hvalid.
      destruct Hside as [(Hl & -> & _)|(Hl & -> & _)].
      - destruct (String.eqb_spec final_order_type_str "buy") as [->|Hne]; [done|].
        simpl in Hvalid. apply String.eqb_eq in Hvalid. by subst.
      - destruct (String.eqb_spec final_order_type_str "buy") as [->|Hne]; by simplify_eq/=. }
    split; [by rewrite Hshape|]. split; [done|].
    exists (positive_or_zero sl), (positive_or_zero tp).
    split; [by rewrite Hshape|]. split; [by rewrite Hshape|].
    split; apply positive_or_zero_nonneg.
  - exists 1%nat, c. by rewrite Nat.add_1_r.
Qed.

Variable G : rule.
Hypothesis G_lenient : lenient G.

Lemma obeys_send_and_process s final_order_type_str lot prices is_auto_trade :
  obeys G (send_order W (Symbol s) final_order_type_str lot None
             (positive_or_zero prices.1) (positive_or_zero prices.2)
             (trade_comment_of W s is_auto_trade final_order_type_str)) ->
  obeys G (send_and_process W s final_order_type_str lot prices is_auto_trade).
Proof using G_lenient.
  intros Hsend. unfold send_and_process.
  apply (obeys_bind_quiet G G_lenient _ _ (fun _ => True));
    [apply only_reach|done|intros _ _].
  apply obeys_then_quiet; [done|done|intros sent].
  by apply only_after_send_order.
Qed.

Lemma get_signal_data_value signal_data st s :
  (get_signal_data W signal_data st).1 = Continue s -> attempt_signal signal_data s.
Proof.
  destruct signal_data as [s0|]; [|done]. cbn. by intros [= ->].
Qed.

Lemma validate_signal_value s order_type_override is_auto_trade st ty :
  (validate_signal s order_type_override is_auto_trade st).1 = Continue ty ->
  ty = final_order_type s order_type_override /\ order_type_valid ty = true.
Proof.
  unfold validate_signal, block, bind, reach, modify, ret. cbn -[note_signal].
  destruct (order_type_valid (final_order_type s order_type_override)) eqn:Hv;
    cbn -[note_signal].
  - destruct (symbol_missing (Symbol s)); cbn -[note_signal].
    + by destruct (note_signal _ _ _ _).
    + by intros [= <-].
  - by destruct (note_signal _ _ _ _).
Qed.

(** A lenient rule that the last two steps obey is obeyed by the whole
    attempt. *)
Lemma attempt_obeys signal_data order_type_override is_auto_trade :
  (forall s lot prices,
     attempt_signal signal_data s ->
     order_type_valid (final_order_type s order_type_override) = true ->
     obeys G (ebind (confirm_trade W s is_auto_trade)
                (fun _ => lift (send_and_process W s
                                  (final_order_type s order_type_override)
                                  lot prices is_auto_trade)))) ->
  obeys G (execute_trade_from_signal_data W signal_data order_type_override
             is_auto_trade).
Proof using G_lenient.
  intros Hlast. destruct venue_or_clock_no_send as (Hnow & Hacc & Hinfo & Htick).
  unfold execute_trade_from_signal_data.
  apply obeys_then_quiet; [done| |intros [r|r]; apply only_ret].
  apply obeys_ebind_quiet_any; [done|by apply only_check_time_filter|intros _].
  apply obeys_ebind_quiet_any; [done|apply only_check_news_filter|intros _].
  apply obeys_ebind_quiet_any; [done|apply only_check_connection|intros _].
  apply (obeys_ebind_quiet G G_lenient _ _ (attempt_signal signal_data));
    [by apply only_get_signal_data|apply get_signal_data_value|intros s Hs].
  apply (obeys_ebind_quiet G G_lenient _ _
           (fun ty => ty = final_order_type s order_type_override /\
                      order_type_valid ty = true));
    [apply only_validate_signal|apply validate_signal_value|intros ty [-> Hty]].
  apply obeys_ebind_quiet_any; [done|by apply only_check_min_interval|intros _].
  apply obeys_ebind_quiet_any; [done|by apply only_fetch_symbol_info|intros info].
  apply obeys_ebind_quiet_any; [done|by apply only_check_spread|intros _].
  apply obeys_ebind_quiet_any; [done|by apply only_compute_lot|intros lot].
  apply obeys_ebind_quiet_any; [done|by apply only_determine_prices|intros prices].
  by apply Hlast.
Qed.

Lemma obeys_last_steps s ty lot prices is_auto_trade :
  obeys G (send_order W (Symbol s) ty lot None
             (positive_or_zero prices.1) (positive_or_zero prices.2)
             (trade_comment_of W s is_auto_trade ty)) ->
  obeys G (ebind (confirm_trade W s is_auto_trade)
             (fun _ => lift (send_and_process W s ty lot prices is_auto_trade))).
Proof using G_lenient.
  intros Hsend.
  apply obeys_ebind_quiet_any; [done|by apply only_confirm_trade|intros _].
  unfold lift. apply obeys_then_quiet; [done| |intros ?; apply only_ret].
  by apply obeys_send_and_process.
Qed.

End AttemptRules.

Section AttemptOrders.

Variable W : World.

(** X17: an attempt, manual or automatic, submits at most one order to
    the venue, whatever the answers of the venue are. *)
Theorem attempt_submits_at_most_once :
  forall signal_data order_type_override is_auto_trade st,
    let out := execute_trade_from_signal_data W signal_data order_type_override
                 is_auto_trade st in
    exists new,
      trace out.2 = trace st ++ new /\
      (count_calls is_order_send new <= 1)%nat.
Proof.
  intros signal_data order_type_override is_auto_trade st out.
  apply (attempt_obeys W at_most_one_order lenient_at_most_one_order).
  intros s lot prices _ _.
  apply obeys_last_steps; [apply lenient_at_most_one_order|].
  apply at_most_one_send_order.
Qed.

(** X18: every order an attempt submits is a market deal for the
    signal the attempt works on: the signal handed over, when there is
    one.  It is on the signal's symbol, on the side the order type
    says (the given order type when it is not empty, else the signal's,
    in lower case), with the configured magic number, a price that is
    not zero or negative and stops that are not negative; and it is
    submitted right after the venue's check of the same request
    answered done. *)
Theorem attempt_order_follows_signal :
  forall signal_data order_type_override is_auto_trade st,
    let out := execute_trade_from_signal_data W signal_data order_type_override
                 is_auto_trade st in
    exists new,
      trace out.2 = trace st ++ new /\
      forall j req,
        new !! j = Some (CallOrderSend req) ->
        (exists s,
           attempt_signal signal_data s /\
           order_type_valid (final_order_type s order_type_override) = true /\
           order_of_signal W s (final_order_type s order_type_override) req) /\
        exists i c,
          j = S i /\ new !! i = Some (CallOrderCheck req) /\
          mt5_order_check W (length (trace st) + i) req = Some c /\
          check_retcode c = TRADE_RETCODE_DONE.
Proof.
  intros signal_data order_type_override is_auto_trade st out.
  set (shape := fun req =>
         exists s,
           attempt_signal signal_data s /\
           order_type_valid (final_order_type s order_type_override) = true /\
           order_of_signal W s (final_order_type s order_type_override) req).
  assert (Hl : lenient (checked_orders W shape)) by apply lenient_checked_orders.
  apply (attempt_obeys W (checked_orders W shape) Hl).
  intros s lot prices Hs Hty.
  apply obeys_last_steps; [done|].
  eapply obeys_weaken; [|by apply (checked_send_order W s)].
  intros n t H j req Hj. destruct (H j req Hj) as [Hshape Hchecked].
  split; [|done]. by exists s.
Qed.

(** X19: a manual attempt submits an order only after the user has
    answered its confirmation dialog with yes. *)
Theorem manual_attempt_needs_yes :
  forall signal_data order_type_override st,
    let out := execute_trade_from_signal_data W signal_data order_type_override
                 false st in
    exists new,
      trace out.2 = trace st ++ new /\
      forall j req,
        new !! j = Some (CallOrderSend req) ->
        exists i,
          (i < j)%nat /\ new !! i = Some CallConfirm /\
          ui_confirm W (length (trace st) + i) = true.
Proof.
  intros signal_data order_type_override st out.
  apply (attempt_obeys W (confirmed_by_user W) (lenient_confirmed_by_user W)).
  intros s lot prices _ _ st1.
  set (ty := final_order_type s order_type_override).
  set (st2 := set_trace (trace st1 ++ [CallConfirm]) st1).
  unfold ebind, confirm_trade, bind, interact. cbn [negb fst snd]. fold st2.
  destruct (ui_confirm W (length (trace st1))) eqn:Hyes; cbn [negb fst snd].
  - destruct (obeys_send_and_process W at_most_one_order lenient_at_most_one_order
                s ty lot prices false (at_most_one_send_order W _ _ _ _ _ _ _) st2)
      as (t & Ht & _).
    unfold lift, bind, ret. cbn [fst snd].
    destruct (send_and_process W s ty lot prices false st2) as [r st3].
    cbn [fst snd] in *.
    exists (CallConfirm :: t).
    split; [rewrite Ht; subst st2; cbn; by rewrite <- app_assoc|].
    intros [|j] req Hj; simplify_eq/=.
    exists 0%nat. split; [lia|]. split; [done|]. by rewrite Nat.add_0_r.
  - unfold block, bind, ret.
    destruct (only_note_signal no_send s false
                [source_log_prefix false; Lit ": User cancelled manual trade for ";
                 Lit (Symbol s); Lit "."] st2) as (t & Ht & Hp).
    destruct (note_signal s false _ st2) as [[] st3]. cbn [fst snd] in *.
    exists (CallConfirm :: t).
    split; [rewrite Ht; subst st2; cbn; by rewrite <- app_assoc|].
    intros [|j] req Hj; simplify_eq/=.
    by destruct (no_send_lookup _ _ _ Hp Hj).
Qed.

End AttemptOrders.

(** * Properties of [performance_metrics.py] *)

Section Streaks.

Import PerformanceMetrics.

Lemma loss_not_win x : loss x = true -> win x = false.
Proof.
  unfold loss, win. rewrite !FloatAxioms.ltb_spec. unfold SFltb.
  change (Prim2SF 0) with (S754_zero false).
  destruct (Prim2SF x) as [[]|[]| |[] m e]; by cbn.
Qed.

Section Runs.

Variable P : float -> bool.

(** The current and the longest run, after one more deal. *)
Definition track (cl : Z * Z) (x : float) : Z * Z :=
  let c := if P x then cl.1 + 1 else 0 in
  (c, if cl.2 <? c then c else cl.2).

Definition tracked (l : list float) (cl : Z * Z) : Prop :=
  (exists pre run,
     l = pre ++ run /\ forallb P run = true /\ Z.of_nat (length run) = cl.1) /\
  (forall pre run,
     l = pre ++ run -> forallb P run = true -> Z.of_nat (length run) <= cl.1) /\
  (exists run, run_of P l run /\ Z.of_nat (length run) = cl.2) /\
  (forall run, run_of P l run -> Z.of_nat (length run) <= cl.2).

Lemma tracked_nil : tracked [] (0, 0).
Proof.
  split; [|split; [|split]].
  - by exists [], [].
  - intros pre run H _. symmetry in H. apply app_eq_nil in H as [_ ->]. done.
  - exists []. split; [|done]. by exists [], [].
  - intros run (pre & post & H & _). symmetry in H.
    apply app_eq_nil in H as [_ H]. apply app_eq_nil in H as [-> _]. done.
Qed.

Lemma snoc_split (l pre run : list float) x :
  l ++ [x] = pre ++ run ->
  (run = [] /\ pre = l ++ [x]) \/ (exists run', run = run' ++ [x] /\ l = pre ++ run').
Proof.
  intros H. destruct (decide (run = [])) as [->|Hne].
  - left. by rewrite app_nil_r in H.
  - right. destruct (exists_last Hne) as (run' & y & ->).
    rewrite app_assoc in H. apply app_inj_tail in H as [-> ->]. by exists run'.
Qed.

Lemma tracked_snoc l cl x : tracked l cl -> tracked (l ++ [x]) (track cl x).
Proof.
  intros ((pre0 & run0 & Hl0 & HP0 & Hlen0) & Hsuffix & (best & Hbest & Hlenbest) & Hall).
  assert (Hcur : forall pre run,
            l ++ [x] = pre ++ run -> forallb P run = true ->
            Z.of_nat (length run) <= (track cl x).1).
  { intros pre run H HPr. unfold track. cbn [fst].
    apply snoc_split in H as [[-> _]|(run' & -> & ->)].
    - simpl. destruct (P x); [|done].
      specialize (Hsuffix pre0 run0 Hl0 HP0). lia.
    - rewrite forallb_app in HPr. apply andb_prop in HPr as [HPr' Hx].
      simpl in Hx. rewrite andb_true_r in Hx. rewrite Hx.
      specialize (Hsuffix pre run' eq_refl HPr').
      rewrite length_app. simpl. lia. }
  assert (Hcur_ex : exists pre run,
            l ++ [x] = pre ++ run /\ forallb P run = true /\
            Z.of_nat (length run) = (track cl x).1).
  { unfold track. cbn [fst]. destruct (P x) eqn:Hx.
    - exists pre0, (run0 ++ [x]). split; [by rewrite Hl0, app_assoc|]. split.
      + rewrite forallb_app, HP0. simpl. by rewrite Hx.
      + rewrite length_app. simpl. lia.
    - exists (l ++ [x]), []. by rewrite app_nil_r. }
  split; [done|]. split; [done|]. split.
  - destruct Hcur_ex as (pre1 & run1 & Hl1 & HP1 & Hlen1).
    unfold track in *. cbn [fst snd] in *.
    destruct (Z.ltb_spec cl.2 (if P x then cl.1 + 1 else 0)).
    + exists run1. split; [|done]. exists pre1, []. by rewrite app_nil_r.
    + exists best. split; [|done].
      destruct Hbest as (pre & post & -> & HPb).
      exists pre, (post ++ [x]). split; [by rewrite <- !app_assoc|done].
  - intros run (pre & post & H & HPr).
    assert (Hle : Z.of_nat (length run) <= cl.2 \/
                  Z.of_nat (length run) <= (track cl x).1).
    { rewrite app_assoc in H.
      apply snoc_split in H as [[-> Hpre]|(post' & -> & ->)].
      - right. by apply (Hcur pre run).
      - left. apply Hall. exists pre, post'. by rewrite app_assoc. }
    unfold track in *. cbn [fst snd] in *.
    destruct (Z.ltb_spec cl.2 (if P x then cl.1 + 1 else 0)); lia.
Qed.

Lemma tracked_fold l0 cl l :
  tracked l0 cl -> tracked (l0 ++ l) (fold_left track l cl).
Proof.
  revert l0 cl. induction l as [|x l IH]; intros l0 cl H.
  - by rewrite app_nil_r.
  - simpl. replace (l0 ++ x :: l) with ((l0 ++ [x]) ++ l) by by rewrite <- app_assoc.
    by apply IH, tracked_snoc.
Qed.

End Runs.

(** What the loop does to the two counters of the winning deals, and
    to those of the losing ones. *)
Lemma streak_step_win l a :
  let b := fold_left streak_step l a in
  (current_win_streak b, longest_win_streak b)
  = fold_left (track win) l (current_win_streak a, longest_win_streak a).
Proof.
  revert a. induction l as [|x l IH]; intros a; [done|].
  simpl. rewrite IH. f_equal. unfold streak_step, track, win. cbn [fst snd].
  by destruct (0 <? x)%float, (x <? 0)%float.
Qed.

Lemma streak_step_loss l a :
  let b := fold_left streak_step l a in
  (current_lose_streak b, longest_lose_streak b)
  = fold_left (track loss) l (current_lose_streak a, longest_lose_streak a).
Proof.
  revert a. induction l as [|x l IH]; intros a; [done|].
  simpl. rewrite IH. f_equal. unfold streak_step, track. cbn [fst snd].
  pose proof (loss_not_win x) as Hx. unfold loss, win in *.
  destruct (x <? 0)%float; [by rewrite Hx|]. by destruct (0 <? x)%float.
Qed.

(** X22: [calculate_streaks] returns the lengths of the longest run of
    consecutive winning deals (profit above zero) and of the longest
    run of consecutive losing deals (profit below zero) of the series:
    a run of that length exists and no run is longer.  A deal whose
    profit is zero or not a number ends both runs. *)
Theorem calculate_streaks_longest_runs :
  forall profit_series,
    let r := calculate_streaks profit_series in
    (exists run, run_of win profit_series run /\ Z.of_nat (length run) = r.1) /\
    (forall run, run_of win profit_series run -> Z.of_nat (length run) <= r.1) /\
    (exists run, run_of loss profit_series run /\ Z.of_nat (length run) = r.2) /\
    (forall run, run_of loss profit_series run -> Z.of_nat (length run) <= r.2).
Proof.
  intros profit_series r.
  set (init := {| longest_win_streak := 0; current_win_streak := 0;
                  longest_lose_streak := 0; current_lose_streak := 0 |}).
  assert (Hr : r = (longest_win_streak (fold_left streak_step profit_series init),
                    longest_lose_streak (fold_left streak_step profit_series init))).
  { subst r. by destruct profit_series. }
  pose proof (tracked_fold win [] (0, 0) profit_series (tracked_nil win))
    as (_ & _ & Hwin_ex & Hwin_all).
  pose proof (tracked_fold loss [] (0, 0) profit_series (tracked_nil loss))
    as (_ & _ & Hloss_ex & Hloss_all).
  pose proof (streak_step_win profit_series init) as Hw.
  pose proof (streak_step_loss profit_series init) as Hl.
  cbn in Hw, Hl. rewrite <- Hw in Hwin_ex, Hwin_all.
  rewrite <- Hl in Hloss_ex, Hloss_all. rewrite Hr. by cbn in *.
Qed.

End Streaks.

(** * Runs of the examples *)

(** A manual sell that the user confirms submits one order, after the
    confirmation; one that the user declines submits none. *)
Example manual_sell_confirmed :
  (ManualExample.manual_sell LockExample.market).1
  = Ok (true, Result Examples.done_result) /\
  count_calls is_confirm (trace (ManualExample.manual_sell LockExample.market).2)
  = 1%nat /\
  count_calls is_order_send (trace (ManualExample.manual_sell LockExample.market).2)
  = 1%nat.
Proof. by vm_compute. Qed.

Example manual_sell_declined :
  (ManualExample.manual_sell ManualExample.decliner).1
  = Ok (false, Message [Lit "ManualTrade"; Lit ": User cancelled manual trade for ";
                        Lit "XAUUSD"; Lit "."]) /\
  count_calls is_confirm (trace (ManualExample.manual_sell ManualExample.decliner).2)
  = 1%nat /\
  count_calls is_order_send
    (trace (ManualExample.manual_sell ManualExample.decliner).2)
  = 0%nat.
Proof. by vm_compute. Qed.

(** The close-all button with three positions under the configured
    magic number. *)
Example close_all_confirmed :
  count_calls is_order_send
    (trace (confirm_close_all_positions CloseAllExample.world
              (Examples.idle true [])).2)
  = 3%nat /\
  trace (confirm_close_all_positions ManualExample.decliner (Examples.idle true [])).2
  = [CallPositionsGet None; CallConfirm].
Proof. by vm_compute. Qed.

(** The monitor with a total profit of about 3960 points. *)
Example auto_close_on_target :
  count_calls is_order_send
    (trace (monitor_positions_for_auto_close CloseAllExample.world true 1000
              ManualExample.price_open (Examples.idle true [])).2)
  = 3%nat /\
  count_calls is_order_send
    (trace (monitor_positions_for_auto_close CloseAllExample.world true 5000
              ManualExample.price_open (Examples.idle true [])).2)
  = 0%nat /\
  count_calls is_order_send
    (trace (monitor_positions_for_auto_close CloseAllExample.world false 1000
              ManualExample.price_open (Examples.idle true [])).2)
  = 0%nat.
Proof. by vm_compute. Qed.

Example calculate_streaks_example :
  PerformanceMetrics.calculate_streaks
    [1; 2; -1; 0; 3; 4; 5; nan; -2; -3; 7]%float = (3, 2) /\
  PerformanceMetrics.calculate_streaks [] = (0, 0).
Proof. by vm_compute. Qed.
